(** * InsurLit: a shallow embedding of the policy-summary pipeline

    The repository is a Streamlit application in five Python modules:
    [document_processing] (text extraction), [readability] (scoring),
    [gemini_integration] (summary and question answering through a hosted
    model), [pdf_export] (report writer) and [app] (the session controller).

    Python [str] values are modelled by [string], read as sequences of code
    points below 256; the classification tables ([isspace], [lower],
    [isupper]) are Python's tables restricted to that range.  The report
    writer, whose behaviour depends on the code points above 255, takes
    its texts as lists of code points.  Everything the
    repository obtains from a library or from the outside world (the hosted
    model, [json.loads], [textstat], [pdfplumber], [docx], [pytesseract], the
    clock) is a Section variable, so the theorems hold whatever these do. *)

From Stdlib Require Import String Ascii List Bool Arith ZArith QArith Lia.
From Stdlib Require Import DecimalString Lqa.
Import ListNotations.
Close Scope Q_scope.
Open Scope list_scope.
Open Scope string_scope.
Open Scope nat_scope.

(* ================================================================== *)
(** * Part I. Definitions *)
(* ================================================================== *)

(** ** The methods of Python's [str] that the repository calls *)
Module PyStr.

Definition code (c : ascii) : N := N_of_ascii c.

Definition between (lo hi n : N) : bool := ((lo <=? n) && (n <=? hi))%N.

(** [str.isspace] on one code point: U+0009..U+000D, U+001C..U+0020,
    U+0085 and U+00A0. *)
Definition isspace (c : ascii) : bool :=
  let n := code c in
  (between 9 13 n || between 28 32 n || (n =? 133) || (n =? 160))%N.

(** Code points with the Uppercase property: A-Z, U+00C0..U+00DE but U+00D7. *)
Definition is_upper_char (c : ascii) : bool :=
  let n := code c in
  (between 65 90 n || (between 192 222 n && negb (n =? 215)))%N.

(** Code points with the Lowercase property: a-z, U+00AA, U+00B5, U+00BA,
    U+00DF..U+00FF but U+00F7. *)
Definition is_lower_char (c : ascii) : bool :=
  let n := code c in
  (between 97 122 n || (n =? 170) || (n =? 181) || (n =? 186)
   || (between 223 255 n && negb (n =? 247)))%N.

Definition lower_char (c : ascii) : ascii :=
  if is_upper_char c then ascii_of_N (code c + 32) else c.

Fixpoint lower (s : string) : string :=
  match s with
  | EmptyString => EmptyString
  | String c r => String (lower_char c) (lower r)
  end.

(** [s.isupper()]: no lower-case code point and at least one upper-case
    one.  [cased] is the flag of CPython's loop. *)
Fixpoint isupper_from (cased : bool) (s : string) : bool :=
  match s with
  | EmptyString => cased
  | String c r =>
      if is_lower_char c then false
      else isupper_from (cased || is_upper_char c) r
  end.

Definition isupper (s : string) : bool := isupper_from false s.

Definition is_empty (s : string) : bool :=
  match s with EmptyString => true | _ => false end.

Fixpoint lstrip (s : string) : string :=
  match s with
  | EmptyString => EmptyString
  | String c r => if isspace c then lstrip r else s
  end.

Fixpoint rstrip (s : string) : string :=
  match s with
  | EmptyString => EmptyString
  | String c r =>
      let r' := rstrip r in
      if isspace c && is_empty r' then EmptyString else String c r'
  end.

(** [s.strip()] *)
Definition strip (s : string) : string := rstrip (lstrip s).

(** [s.startswith(p)] *)
Fixpoint startswith (s p : string) {struct p} : bool :=
  match p, s with
  | EmptyString, _ => true
  | String a p', String b s' => Ascii.eqb a b && startswith s' p'
  | String _ _, EmptyString => false
  end.

(** [sub in s] *)
Fixpoint contains (sub s : string) : bool :=
  startswith s sub
  || match s with
     | EmptyString => false
     | String _ r => contains sub r
     end.

(** [s[:n]] *)
Fixpoint take (n : nat) (s : string) : string :=
  match n, s with
  | S k, String c r => String c (take k r)
  | _, _ => EmptyString
  end.

(** [s.split(sep)] for a non-empty [sep]: scan left to right, cut at each
    leftmost occurrence.  [skip] counts the characters of a separator just
    matched that are still to be passed over; [cur] is the piece so far,
    reversed. *)
Fixpoint revstr (acc s : string) : string :=
  match s with
  | EmptyString => acc
  | String c r => revstr (String c acc) r
  end.

Fixpoint split_from (sep : string) (skip : nat) (cur : string) (s : string)
  : list string :=
  match s with
  | EmptyString => [revstr "" cur]
  | String c r =>
      match skip with
      | S k => split_from sep k cur r
      | O =>
          if startswith s sep
          then revstr "" cur :: split_from sep (String.length sep - 1) "" r
          else split_from sep 0 (String c cur) r
      end
  end.

Definition split (sep s : string) : list string := split_from sep 0 "" s.

(** [s.split()]: the maximal runs of non-space characters. *)
Fixpoint split_ws_from (cur : string) (s : string) : list string :=
  match s with
  | EmptyString => if is_empty cur then [] else [revstr "" cur]
  | String c r =>
      if isspace c
      then (if is_empty cur then split_ws_from "" r
            else revstr "" cur :: split_ws_from "" r)
      else split_ws_from (String c cur) r
  end.

Definition split_ws (s : string) : list string := split_ws_from "" s.

(** [s.replace(old, new)] for a non-empty [old].  The pattern is given by
    its code points, so that a pattern holding a code point above 255 (as
    the one of [pdf_export]) can be written; it then matches nowhere. *)
Definition codes (s : string) : list N := map code (list_ascii_of_string s).

Fixpoint startswith_codes (s : string) (p : list N) {struct p} : bool :=
  match p, s with
  | [], _ => true
  | n :: p', String b s' => (code b =? n)%N && startswith_codes s' p'
  | _ :: _, EmptyString => false
  end.

Fixpoint replace_from (old : list N) (new : string) (skip : nat) (s : string)
  : string :=
  match s with
  | EmptyString => EmptyString
  | String c r =>
      match skip with
      | S k => replace_from old new k r
      | O =>
          if startswith_codes s old
          then new ++ replace_from old new (List.length old - 1) r
          else String c (replace_from old new 0 r)
      end
  end.

Definition replace_codes (old : list N) (new s : string) : string :=
  replace_from old new 0 s.

Definition replace (old new s : string) : string :=
  replace_codes (codes old) new s.

(** [sep.join(parts)] *)
Fixpoint join (sep : string) (parts : list string) : string :=
  match parts with
  | [] => ""
  | [p] => p
  | p :: rest => p ++ sep ++ join sep rest
  end.

(** [str(n)] for a non-negative integer. *)
Definition of_nat (n : nat) : string := NilEmpty.string_of_uint (Nat.to_uint n).

(** Every character of [s] is white space (the empty string included). *)
Definition whitespace_only (s : string) : bool :=
  forallb isspace (list_ascii_of_string s).

(** A [str] of any code points, as the list of its code points: the
    texts of [string] are those of code points below 256.  [startswith],
    [replace] (for a non-empty pattern) and [==] on such texts. *)
Fixpoint codes_startswith (s p : list N) {struct p} : bool :=
  match p, s with
  | [], _ => true
  | n :: p', b :: s' => (b =? n)%N && codes_startswith s' p'
  | _ :: _, [] => false
  end.

Fixpoint codes_replace_from (old new : list N) (skip : nat) (s : list N)
  : list N :=
  match s with
  | [] => []
  | c :: r =>
      match skip with
      | S k => codes_replace_from old new k r
      | O =>
          if codes_startswith s old
          then (new ++ codes_replace_from old new (List.length old - 1) r)%list
          else c :: codes_replace_from old new 0 r
      end
  end.

Definition codes_replace (old new s : list N) : list N :=
  codes_replace_from old new 0 s.

Fixpoint codes_eqb (a b : list N) : bool :=
  match a, b with
  | [], [] => true
  | x :: a', y :: b' => (x =? y)%N && codes_eqb a' b'
  | _, _ => false
  end.

(** [a not in s], for a character [a]. *)
Fixpoint without (a : ascii) (s : string) : bool :=
  match s with
  | EmptyString => true
  | String c r => negb (Ascii.eqb a c) && without a r
  end.

(** Characters that a Rocq string literal cannot hold directly. *)
Definition dquote : string := String (ascii_of_nat 34) "".
Definition backslash : string := String (ascii_of_nat 92) "".
Definition nl : string := String (ascii_of_nat 10) "".

End PyStr.

(** ** Python run-time notions: exceptions, values, dictionaries, effects *)
Module Py.

(** An exception: its class and [str(e)]. *)
Record Exn := mkExn { exn_class : string; exn_msg : string }.

Inductive Result (A : Type) : Type :=
| Ok (a : A)
| Raise (e : Exn).
Arguments Ok {A} a.
Arguments Raise {A} e.

(** The values [json.loads] builds and [generate_summary] returns.  A float
    keeps the literal it was read from; a [dict] with [str] keys is an
    association list in insertion order, without repeated keys. *)
#[local] Set Warnings "-register-all".
Inductive pyval : Type :=
| VNone
| VBool (b : bool)
| VInt (z : Z)
| VFloat (literal : string)
| VStr (s : string)
| VList (items : list pyval)
| VDict (entries : list (string * pyval)).

Section Dict.
Context {K V : Type} (eqb : K -> K -> bool).

(** [k in d] *)
Definition dict_has (k : K) (d : list (K * V)) : bool :=
  existsb (fun kv => eqb (fst kv) k) d.

(** [d.get(k)] *)
Fixpoint dict_get (k : K) (d : list (K * V)) : option V :=
  match d with
  | [] => None
  | (k', v) :: r => if eqb k' k then Some v else dict_get k r
  end.

(** [d[k] = v]: an existing key keeps its place, a new one goes last. *)
Fixpoint dict_set (k : K) (v : V) (d : list (K * V)) : list (K * V) :=
  match d with
  | [] => [(k, v)]
  | (k', v') :: r =>
      if eqb k' k then (k', v) :: r else (k', v') :: dict_set k v r
  end.
End Dict.

Definition truthy_str (s : string) : bool := negb (PyStr.is_empty s).

(** What a run can leave behind: the messages shown through Streamlit
    ([st.error], [st.warning], [st.success]), the prompts sent to the hosted
    model (one entry per [generate_content] call, oldest first) and the
    lines printed. *)
Inductive StKind := StError | StWarning | StSuccess.

Record World := mkWorld {
  st_log : list (StKind * string);
  model_calls : list string;
  stdout : list string
}.

Definition M (A : Type) : Type := World -> Result A * World.

Definition ret {A} (a : A) : M A := fun w => (Ok a, w).

Definition bind {A B} (c : M A) (k : A -> M B) : M B :=
  fun w =>
    match c w with
    | (Ok a, w') => k a w'
    | (Raise e, w') => (Raise e, w')
    end.

Definition raise {A} (e : Exn) : M A := fun w => (Raise e, w).

Definition lift {A} (r : Result A) : M A := fun w => (r, w).

(** [try: c  except <classes accepted by handles> as e: h e].  Effects of
    [c] up to the exception are kept. *)
Definition try_except {A} (c : M A) (handles : Exn -> bool) (h : Exn -> M A)
  : M A :=
  fun w =>
    match c w with
    | (Ok a, w') => (Ok a, w')
    | (Raise e, w') => if handles e then h e w' else (Raise e, w')
    end.

(** [except Exception]: every exception of the model. *)
Definition any_exception (e : Exn) : bool := true.

Definition has_class (cls : string) (e : Exn) : bool :=
  String.eqb (exn_class e) cls.

Definition empty_world : World := mkWorld [] [] [].

(** The world after one more call of the model, after one more Streamlit
    message, and after one more line printed. *)
Definition called (prompt : string) (w : World) : World :=
  mkWorld (st_log w) (model_calls w ++ [prompt]) (stdout w).

Definition shown (k : StKind) (msg : string) (w : World) : World :=
  mkWorld (st_log w ++ [(k, msg)]) (model_calls w) (stdout w).

Definition printed (line : string) (w : World) : World :=
  mkWorld (st_log w) (model_calls w) (stdout w ++ [line]).

(** [st.error(msg)], [st.warning(msg)], [st.success(msg)] *)
Definition st_message (k : StKind) (msg : string) : M unit :=
  fun w => (Ok tt, shown k msg w).

(** [print(line)] *)
Definition print (line : string) : M unit :=
  fun w => (Ok tt, printed line w).

End Py.

Import Py.

Declare Scope py_scope.
Delimit Scope py_scope with py.
Notation "x <- c ;; k" := (Py.bind c (fun x => k))
  (at level 61, c at next level, right associativity) : py_scope.
Notation "c ;;; k" := (Py.bind c (fun _ => k))
  (at level 61, right associativity) : py_scope.
Open Scope py_scope.

(** ** A decoder for JSON text

    [json.loads] is a library function: [generate_summary] below takes it as
    a parameter.  This decoder follows CPython's [json.decoder] and
    [json.scanner] on text of code points below 256 (strict strings, the
    constants [NaN], [Infinity] and [-Infinity] accepted, a repeated key
    keeping its last value); it is the instance used to run the model on
    concrete responses.  A [\uXXXX] escape above U+00FF has no counterpart in
    [string] and is refused here; no text whose backslashes have all been
    doubled contains such an escape.  CPython gives up with RecursionError
    on nesting deeper than its recursion limit, and with ValueError on an
    integer literal longer than its digit limit (4300 by default); this
    decoder has no such limits, and agrees with CPython's below them.  It
    is used on the short payloads of the examples only. *)
Module PyJson.

Definition is_ws (c : ascii) : bool :=
  let n := PyStr.code c in ((n =? 32) || (n =? 9) || (n =? 10) || (n =? 13))%N.

Fixpoint skip_ws (s : string) : string :=
  match s with
  | String c r => if is_ws c then skip_ws r else s
  | EmptyString => EmptyString
  end.

Definition is_digit (c : ascii) : bool := PyStr.between 48 57 (PyStr.code c).

Definition hex_value (c : ascii) : option N :=
  let n := PyStr.code c in
  if PyStr.between 48 57 n then Some (n - 48)%N
  else if PyStr.between 97 102 n then Some (n - 87)%N
  else if PyStr.between 65 70 n then Some (n - 55)%N
  else None.

Definition hex4 (a b c d : ascii) : option N :=
  match hex_value a, hex_value b, hex_value c, hex_value d with
  | Some x, Some y, Some z, Some t => Some (((x * 16 + y) * 16 + z) * 16 + t)%N
  | _, _, _, _ => None
  end.

(** The escapes of [json.decoder.BACKSLASH]. *)
Definition simple_escape (e : ascii) : option ascii :=
  let n := PyStr.code e in
  if (n =? 34)%N then Some (ascii_of_N 34)         (* quote *)
  else if (n =? 92)%N then Some (ascii_of_N 92)    (* backslash *)
  else if (n =? 47)%N then Some (ascii_of_N 47)    (* solidus *)
  else if (n =? 98)%N then Some (ascii_of_N 8)     (* b *)
  else if (n =? 102)%N then Some (ascii_of_N 12)   (* f *)
  else if (n =? 110)%N then Some (ascii_of_N 10)   (* n *)
  else if (n =? 114)%N then Some (ascii_of_N 13)   (* r *)
  else if (n =? 116)%N then Some (ascii_of_N 9)    (* t *)
  else None.

(** [scanstring], entered after the opening quote: the decoded string and
    the text after the closing quote.  [acc] is the string so far, reversed. *)
Fixpoint scanstring (acc : string) (s : string) : option (string * string) :=
  match s with
  | EmptyString => None                            (* unterminated string *)
  | String c r =>
      let n := PyStr.code c in
      if (n =? 34)%N then Some (PyStr.revstr "" acc, r)
      else if (n =? 92)%N then
        match r with
        | EmptyString => None
        | String e r1 =>
            if (PyStr.code e =? 117)%N then           (* u and four hex digits *)
              match r1 with
              | String h1 (String h2 (String h3 (String h4 r2))) =>
                  match hex4 h1 h2 h3 h4 with
                  | Some v =>
                      if (v <? 256)%N
                      then scanstring (String (ascii_of_N v) acc) r2
                      else None                    (* outside the modelled range *)
                  | None => None
                  end
              | _ => None
              end
            else
              match simple_escape e with
              | Some d => scanstring (String d acc) r1
              | None => None                       (* invalid escape *)
              end
        end
      else if (n <? 32)%N then None                (* control character *)
      else scanstring (String c acc) r
  end.

Fixpoint take_digits (s : string) : string * string :=
  match s with
  | String c r =>
      if is_digit c then let (ds, rest) := take_digits r in (String c ds, rest)
      else (EmptyString, s)
  | EmptyString => (EmptyString, EmptyString)
  end.

Fixpoint decimal_value (acc : Z) (ds : string) : Z :=
  match ds with
  | EmptyString => acc
  | String c r => decimal_value (acc * 10 + Z.of_N (PyStr.code c - 48)) r
  end.

(** [NUMBER_RE]: an optional minus sign and an integer part (a lone zero,
    or a non-zero digit and further digits), then optionally a point with
    one digit or more, then optionally an exponent mark, a sign and one
    digit or more. *)
Definition int_part (s : string) : option (string * string) :=
  match s with
  | String c r =>
      if (PyStr.code c =? 48)%N then Some ("0", r)
      else if is_digit c
           then let (ds, rest) := take_digits r in Some (String c ds, rest)
           else None
  | EmptyString => None
  end.

Definition frac_part (s : string) : option (string * string) :=
  match s with
  | String dot (String d r) =>
      if (PyStr.code dot =? 46)%N && is_digit d
      then let (ds, rest) := take_digits r in Some (String dot (String d ds), rest)
      else None
  | _ => None
  end.

Definition exp_digits (mark : string) (s : string) : option (string * string) :=
  match s with
  | String d r =>
      if is_digit d
      then let (ds, rest) := take_digits r in Some (mark ++ String d ds, rest)
      else None
  | EmptyString => None
  end.

Definition exp_part (s : string) : option (string * string) :=
  match s with
  | String e r =>
      if ((PyStr.code e =? 101) || (PyStr.code e =? 69))%N then
        match r with
        | String sg r' =>
            if ((PyStr.code sg =? 43) || (PyStr.code sg =? 45))%N
            then exp_digits (String e (String sg "")) r'
            else exp_digits (String e "") r
        | EmptyString => None
        end
      else None
  | EmptyString => None
  end.

Definition match_number (s : string) : option (pyval * string) :=
  let (sign, s1) :=
    match s with
    | String c r => if (PyStr.code c =? 45)%N then ("-", r) else ("", s)
    | EmptyString => ("", s)
    end in
  match int_part s1 with
  | None => None
  | Some (ip, s2) =>
      let (fp, s3) := match frac_part s2 with Some x => x | None => ("", s2) end in
      let (ep, s4) := match exp_part s3 with Some x => x | None => ("", s3) end in
      if PyStr.is_empty fp && PyStr.is_empty ep
      then Some (VInt (if PyStr.is_empty sign then decimal_value 0 ip
                       else - decimal_value 0 ip), s4)
      else Some (VFloat (sign ++ ip ++ fp ++ ep), s4)
  end.

(** A constant [lit] at the head of [s]. *)
Definition keyword (lit : string) (v : pyval) (s : string) : option (pyval * string) :=
  if PyStr.startswith s lit
  then Some (v, String.substring (String.length lit) (String.length s) s)
  else None.

Definition first_some {A} (a b : option A) : option A :=
  match a with Some _ => a | None => b end.

(** The outcome of a scan: a value and the text after it, a syntax error, or
    the fuel of the recursion used up. *)
Inductive Scan : Type :=
| Found (v : pyval) (rest : string)
| Invalid
| NoFuel.

Definition of_option (r : option (pyval * string)) : Scan :=
  match r with
  | Some (v, rest) => Found v rest
  | None => Invalid
  end.

(** [scan_once], with the loops of [JSONObject] and [JSONArray].  Every call
    below the first is made after at least one character was consumed. *)
Fixpoint scan_once (fuel : nat) (s : string) {struct fuel} : Scan :=
  match fuel with
  | O => NoFuel
  | S f =>
      match s with
      | EmptyString => Invalid
      | String c r =>
          let n := PyStr.code c in
          if (n =? 34)%N then
            match scanstring "" r with
            | Some (str, rest) => Found (VStr str) rest
            | None => Invalid
            end
          else if (n =? 123)%N then                  (* object *)
            match skip_ws r with
            | String q r' =>
                if (PyStr.code q =? 125)%N then Found (VDict []) r'
                else if (PyStr.code q =? 34)%N then object_members f [] r'
                else Invalid
            | EmptyString => Invalid
            end
          else if (n =? 91)%N then                   (* array *)
            match skip_ws r with
            | String q r' =>
                if (PyStr.code q =? 93)%N then Found (VList []) r'
                else array_items f [] (skip_ws r)
            | EmptyString => Invalid
            end
          else
            of_option
              (first_some (keyword "null" VNone s)
              (first_some (keyword "true" (VBool true) s)
              (first_some (keyword "false" (VBool false) s)
              (first_some (match_number s)
              (first_some (keyword "NaN" (VFloat "NaN") s)
              (first_some (keyword "Infinity" (VFloat "Infinity") s)
                          (keyword "-Infinity" (VFloat "-Infinity") s)))))))
      end
  end

(** The loop of [JSONObject], entered after the opening quote of a key. *)
with object_members (fuel : nat) (pairs : list (string * pyval)) (s : string)
       {struct fuel} : Scan :=
  match fuel with
  | O => NoFuel
  | S f =>
      match scanstring "" s with
      | None => Invalid
      | Some (key, s1) =>
          match skip_ws s1 with
          | String colon s2 =>
              if (PyStr.code colon =? 58)%N then
                match scan_once f (skip_ws s2) with
                | Found v s3 =>
                    let pairs' := dict_set String.eqb key v pairs in
                    match skip_ws s3 with
                    | String d s4 =>
                        if (PyStr.code d =? 125)%N then Found (VDict pairs') s4
                        else if (PyStr.code d =? 44)%N then
                          match skip_ws s4 with
                          | String q s5 =>
                              if (PyStr.code q =? 34)%N
                              then object_members f pairs' s5
                              else Invalid
                          | EmptyString => Invalid
                          end
                        else Invalid
                    | EmptyString => Invalid
                    end
                | other => other
                end
              else Invalid
          | EmptyString => Invalid
          end
      end
  end

(** The loop of [JSONArray], entered at the first character of an item. *)
with array_items (fuel : nat) (values : list pyval) (s : string)
       {struct fuel} : Scan :=
  match fuel with
  | O => NoFuel
  | S f =>
      match scan_once f s with
      | Found v s1 =>
          match skip_ws s1 with
          | String d s2 =>
              if (PyStr.code d =? 93)%N then Found (VList (values ++ [v])) s2
              else if (PyStr.code d =? 44)%N
                   then array_items f (values ++ [v]) (skip_ws s2)
                   else Invalid
          | EmptyString => Invalid
          end
      | other => other
      end
  end.

Definition JSONDecodeError : Exn := mkExn "JSONDecodeError" "invalid JSON text".
Definition RecursionError : Exn :=
  mkExn "RecursionError" "maximum recursion depth exceeded".

(** [json.loads(s)]: one value between optional white space, nothing after.
    The fuel given is more than twice the length of the text, which is
    enough ([loads_value_or_decode_error] below). *)
Definition loads (s : string) : Result pyval :=
  match scan_once (S (2 * String.length s)) (skip_ws s) with
  | Found v rest =>
      if PyStr.is_empty (skip_ws rest) then Ok v else Raise JSONDecodeError
  | Invalid => Raise JSONDecodeError
  | NoFuel => Raise RecursionError
  end.

End PyJson.

(** ** readability.py *)
Module Readability.

(** A Python number as [textstat] may return it: a finite value, read as
    the rational it denotes exactly, or one of the three special floats. *)
Inductive pynum : Type :=
| Fin (q : Q)
| NaN
| PosInf
| NegInf.

(** [a < b]; every comparison with [NaN] is false. *)
Definition py_lt (a b : pynum) : bool :=
  match a, b with
  | NaN, _ | _, NaN => false
  | Fin x, Fin y => negb (Qle_bool y x)
  | NegInf, NegInf => false
  | NegInf, _ => true
  | _, NegInf => false
  | PosInf, _ => false
  | Fin _, PosInf => true
  end.

(** The built-ins [min(a, b)] and [max(a, b)]: the first argument stays
    unless the second is strictly smaller (larger). *)
Definition py_min (a b : pynum) : pynum := if py_lt b a then b else a.
Definition py_max (a b : pynum) : pynum := if py_lt a b then b else a.

Section WithTextstat.
(** [textstat.flesch_reading_ease]: a number, or an exception. *)
Variable flesch_reading_ease : string -> Result pynum.

Definition calculate_readability_score (text : string) : M pynum :=
  if PyStr.is_empty text || (String.length (PyStr.strip text) =? 0)
  then ret (Fin 0)
  else
    try_except
      (score <- lift (flesch_reading_ease text) ;;
       let score := py_max (Fin 0) (py_min (Fin 100) score) in
       ret score)
      any_exception
      (fun e =>
         print ("Error calculating readability score: " ++ exn_msg e) ;;;
         ret (Fin 0)).
End WithTextstat.

(** [a >= b]; every comparison with [NaN] is false. *)
Definition py_ge (a b : pynum) : bool :=
  match a, b with
  | NaN, _ | _, NaN => false
  | Fin x, Fin y => Qle_bool y x
  | PosInf, _ => true
  | _, NegInf => true
  | _, _ => false
  end.

(** [a <= b] *)
Definition py_le (a b : pynum) : bool := py_ge b a.

(** Lines 29-51: [(difficulty_level, education_level, color)]. *)
Definition get_readability_description (score : pynum)
  : string * string * string :=
  if py_ge score (Fin 90) then ("Very Easy", "5th Grade", "green")
  else if py_ge score (Fin 80) then ("Easy", "6th Grade", "green")
  else if py_ge score (Fin 70) then ("Fairly Easy", "7th Grade", "green")
  else if py_ge score (Fin 60) then ("Standard", "8th & 9th Grade", "yellow")
  else if py_ge score (Fin 50) then ("Fairly Difficult", "10th to 12th Grade", "yellow")
  else if py_ge score (Fin 30) then ("Difficult", "College", "red")
  else ("Very Difficult", "College Graduate", "red").

End Readability.

(** ** document_processing.py *)
Module DocumentProcessing.

Definition bytes : Type := list Byte.byte.

(** A page of an opened PDF: what [page.extract_text()] gives, [None]
    included. *)
Record PdfPage := mkPage { extract_text_result : option string }.

(** An entry of [page_info]: the keys "text" and "headers". *)
Record PageRecord := mkPageRecord { pr_text : string; pr_headers : list string }.

(** [document_info]: the keys "type" and "file_name", and "page_info" when
    the document is a PDF. *)
Record DocumentInfo := mkDocumentInfo {
  di_type : string;
  di_file_name : string;
  di_page_info : option (list (nat * PageRecord))
}.

(** A Streamlit [UploadedFile]. *)
Record UploadedFile := mkUploadedFile {
  uf_type : string;
  uf_name : string;
  uf_value : bytes
}.

(** The media types that the branches of [extract_text] accept. *)
Definition supported_media_types : list string :=
  ["application/pdf";
   "application/vnd.openxmlformats-officedocument.wordprocessingml.document";
   "image/png"; "image/jpeg"; "image/jpg";
   "text/plain"].

Definition supported (file_type : string) : bool :=
  existsb (String.eqb file_type) supported_media_types.

(** [page.extract_text() or ""] *)
Definition text_of_page (page : PdfPage) : string :=
  match extract_text_result page with
  | Some t => t
  | None => ""
  end.

(** The test of line 33. *)
Definition is_header (line : string) : bool :=
  (String.length (PyStr.strip line) <? 50)
  && (existsb PyStr.isupper (PyStr.split_ws line) || PyStr.isupper line).

(** Lines 28 to 34: the headers found in the first five lines of a page. *)
Definition find_headers (page_text : string) : list string :=
  let lines := PyStr.split PyStr.nl page_text in
  map PyStr.strip (filter is_header (firstn 5 lines)).

(** The loop of lines 23 to 39, from page number [i] on. *)
Fixpoint pdf_pages_loop (i : nat) (pages : list PdfPage)
    (text : string) (page_info : list (nat * PageRecord))
  : string * list (nat * PageRecord) :=
  match pages with
  | [] => (text, page_info)
  | page :: rest =>
      let page_text := text_of_page page in
      let text := text ++ page_text ++ PyStr.nl ++ PyStr.nl in
      let headers := find_headers page_text in
      pdf_pages_loop (S i) rest text
        (dict_set Nat.eqb i (mkPageRecord page_text headers) page_info)
  end.

Fixpoint docx_loop (paragraphs : list string) (text : string) : string :=
  match paragraphs with
  | [] => text
  | par :: rest => docx_loop rest (text ++ par ++ PyStr.nl)
  end.

Section WithLibraries.
(** [pdfplumber.open(...).pages], [docx.Document(...).paragraphs] (their
    texts), [pytesseract.image_to_string(Image.open(...))] and
    [bytes.decode("utf-8")]: a result or an exception. *)
Variable pdfplumber_open : bytes -> Result (list PdfPage).
Variable docx_paragraphs : bytes -> Result (list string).
Variable image_to_string : bytes -> Result string.
Variable decode_utf8 : bytes -> Result string.

Definition extract_text_from_pdf (file_content : bytes)
  : M (string * list (nat * PageRecord)) :=
  pages <- lift (pdfplumber_open file_content) ;;
  ret (pdf_pages_loop 1 pages "" []).

Definition extract_text_from_docx (file_content : bytes) : M string :=
  paragraphs <- lift (docx_paragraphs file_content) ;;
  ret (docx_loop paragraphs "").

Definition extract_text_from_image (file_content : bytes) : M string :=
  lift (image_to_string file_content).

Definition extract_text_from_txt (file_content : bytes) : M string :=
  lift (decode_utf8 file_content).

Definition extract_text (uploaded_file : UploadedFile)
  : M (string * DocumentInfo) :=
  try_except
    (let file_type := uf_type uploaded_file in
     let file_content := uf_value uploaded_file in
     let document_info := mkDocumentInfo file_type (uf_name uploaded_file) None in
     if (file_type =? "application/pdf")%string then
       r <- extract_text_from_pdf file_content ;;
       let (extracted_text, page_info) := r in
       ret (extracted_text,
            mkDocumentInfo file_type (uf_name uploaded_file) (Some page_info))
     else if (file_type
              =? "application/vnd.openxmlformats-officedocument.wordprocessingml.document")%string
     then
       extracted_text <- extract_text_from_docx file_content ;;
       ret (extracted_text, document_info)
     else if existsb (String.eqb file_type) ["image/png"; "image/jpeg"; "image/jpg"]
     then
       extracted_text <- extract_text_from_image file_content ;;
       ret (extracted_text, document_info)
     else if (file_type =? "text/plain")%string then
       extracted_text <- extract_text_from_txt file_content ;;
       ret (extracted_text, document_info)
     else
       raise (mkExn "ValueError" ("Unsupported file type: " ++ file_type)))
    any_exception
    (fun e =>
       st_message StError ("Error extracting text: " ++ exn_msg e) ;;;
       raise e).
End WithLibraries.

End DocumentProcessing.

(** ** gemini_integration.py *)
Module GeminiIntegration.
Import DocumentProcessing.

(** [bool(API_KEY)]: the variable is set, and not to the empty string. *)
Definition has_key (API_KEY : option string) : bool :=
  match API_KEY with
  | Some k => truthy_str k
  | None => false
  end.

(** The dictionary literal of lines 31-38, 60-67, 148-155 and 171-178: one
    message under "coverage_details", five empty lists. *)
Definition degraded_summary (message : string) : pyval :=
  VDict [("coverage_details", VList [VStr message]);
         ("exclusions", VList []);
         ("deductibles", VList []);
         ("premiums", VList []);
         ("claims_process", VList []);
         ("unusual_clauses", VList [])].

Definition expected_keys : list string :=
  ["coverage_details"; "exclusions"; "deductibles";
   "premiums"; "claims_process"; "unusual_clauses"].

Definition easy : string := "Easy (Elementary School Level)".

Definition type_name (v : pyval) : string :=
  match v with
  | VNone => "NoneType"
  | VBool _ => "bool"
  | VInt _ => "int"
  | VFloat _ => "float"
  | VStr _ => "str"
  | VList _ => "list"
  | VDict _ => "dict"
  end.

Definition is_str (key : string) (v : pyval) : bool :=
  match v with
  | VStr s => String.eqb s key
  | _ => false
  end.

(** [key in v] for a [str] key; the wording of the TypeError is that of
    CPython 3.11. *)
Definition py_in (key : string) (v : pyval) : Result bool :=
  match v with
  | VDict d => Ok (dict_has String.eqb key d)
  | VList l => Ok (existsb (is_str key) l)
  | VStr s => Ok (PyStr.contains key s)
  | _ => Raise (mkExn "TypeError"
                  ("argument of type '" ++ type_name v ++ "' is not iterable"))
  end.

(** [v[key] = x] for a [str] key. *)
Definition py_setitem (v : pyval) (key : string) (x : pyval) : Result pyval :=
  match v with
  | VDict d => Ok (VDict (dict_set String.eqb key x d))
  | VList _ => Raise (mkExn "TypeError"
                        "list indices must be integers or slices, not str")
  | _ => Raise (mkExn "TypeError"
                  ("'" ++ type_name v ++ "' object does not support item assignment"))
  end.

(** [l[i]] *)
Definition py_index (l : list string) (i : nat) : Result string :=
  match nth_error l i with
  | Some x => Ok x
  | None => Raise (mkExn "IndexError" "list index out of range")
  end.

(** Lines 163-165: [for key in expected_keys: if key not in summary:
    summary[key] = []]. *)
Fixpoint backfill (keys : list string) (summary : pyval) : Result pyval :=
  match keys with
  | [] => Ok summary
  | key :: rest =>
      match py_in key summary with
      | Raise e => Raise e
      | Ok true => backfill rest summary
      | Ok false =>
          match py_setitem summary key (VList []) with
          | Raise e => Raise e
          | Ok summary' => backfill rest summary'
          end
      end
  end.

(** What the loop does to a dictionary: the keys it lacks are added, each
    with an empty list. *)
Fixpoint add_missing (keys : list string) (d : list (string * pyval))
  : list (string * pyval) :=
  match keys with
  | [] => d
  | key :: rest =>
      if dict_has String.eqb key d then add_missing rest d
      else add_missing rest (dict_set String.eqb key (VList []) d)
  end.

(** Lines 70-78 and 219-227. *)
Definition reference_line (acc : string) (entry : nat * PageRecord) : string :=
  let (page_num, info) := entry in
  let headers := pr_headers info in
  match headers with
  | _ :: _ =>
      acc ++ "Page " ++ PyStr.of_nat page_num ++ ": "
          ++ PyStr.join ", " headers ++ PyStr.nl
  | [] => acc ++ "Page " ++ PyStr.of_nat page_num ++ PyStr.nl
  end.

Definition build_reference_info (document_info : option DocumentInfo) : string :=
  match document_info with
  | Some di =>
      if (di_type di =? "application/pdf")%string then
        match di_page_info di with
        | Some page_info =>
            fold_left reference_line page_info
              ("Page and section information:" ++ PyStr.nl)
        | None => ""
        end
      else ""
  | None => ""
  end.

Definition verification_prompt (text : string) : string :=
    "
        You are an insurance policy expert. Review the following document text and determine if it is an auto insurance policy.

        Document text:
        " ++ PyStr.take 1500 text ++ "  # Using first 1500 chars to save tokens

        Is this document an auto insurance policy? 
        Respond with only " ++ PyStr.dquote ++ "yes" ++ PyStr.dquote ++ " if it is an auto insurance policy document.
        Respond with " ++ PyStr.dquote ++ "no: [document type]" ++ PyStr.dquote ++ " if it is not, where [document type] is a brief description of what the document actually is.
        ".

Definition summary_readability_target (readability_preference : string) : string :=
  if (readability_preference =? easy)%string then
    "
            VERY IMPORTANT: Your summary MUST be written at an elementary school reading level (Flesch-Kincaid score between 71-100). 
            Use very short sentences (10-15 words), simple words (1-2 syllables), and basic everyday vocabulary.
            Completely avoid complex terms, technical jargon, and legal language.
            "
  else
    "
            VERY IMPORTANT: Your summary MUST be written at a high school reading level (Flesch-Kincaid score between 51-70). 
            Use moderate-length sentences (15-20 words), simple to moderate vocabulary, and clear explanations.
            Minimize complex terms, technical jargon, and legal language, but you can include more detail than in an elementary-level summary.
            ".

Definition summary_prompt (text reference_info readability_target audience : string)
  : string :=
    "
        You are an insurance policy expert. Analyze the following auto insurance policy text and provide a clear, 
        structured summary in plain language that a typical " ++ audience ++ " can understand. 
        
        Policy text:
        " ++ text ++ "
        
        " ++ reference_info ++ "
        
        Please format your response as a JSON object with the following sections:
        1. coverage_details: List of what is covered in plain language.
        2. exclusions: List of what is not covered.
        3. deductibles: List explaining deductible amounts and when they apply.
        4. premiums: List explaining the premium structure and payment details.
        5. claims_process: List summarizing how to file a claim and what to expect.
        6. unusual_clauses: List identifying any unusual or potentially hidden clauses that consumers should be aware of.
        
        Each section should contain an array of strings, with each string being a clear, simple bullet point.
        When possible, include the page number or section reference where this information is found (e.g., " ++ PyStr.dquote ++ "Coverage for rentals is included (Page 3, RENTAL COVERAGE section)" ++ PyStr.dquote ++ ").
        
        " ++ readability_target ++ "
        
        If information for a section is not found, provide an empty array.
        Ensure your response is valid JSON that can be parsed by Python's json.loads().
        ".

Definition answer_readability_target (readability_preference : string) : string :=
  if (readability_preference =? easy)%string then
    "
            VERY IMPORTANT: Your answer MUST be written at an elementary school reading level (Flesch-Kincaid score between 71-100). 
            Use very short sentences (10-15 words), simple words (1-2 syllables), and basic everyday vocabulary.
            Completely avoid complex terms, technical jargon, and legal language.
            "
  else
    "
            VERY IMPORTANT: Your answer MUST be written at a high school reading level (Flesch-Kincaid score between 51-70). 
            Use moderate-length sentences (15-20 words), simple to moderate vocabulary, and clear explanations.
            Minimize complex terms, technical jargon, and legal language, but you can include more detail than in an elementary-level answer.
            ".

Definition answer_prompt (question document_text reference_info readability_target
                          : string) : string :=
    "
        You are an insurance policy expert. Answer the following question about an auto insurance policy 
        based on the policy text provided. When possible, cite specific page numbers and sections from the policy.
        
        Policy text:
        " ++ document_text ++ "
        
        " ++ reference_info ++ "
        
        Question: " ++ question ++ "
        
        Provide a clear, accurate answer based solely on the content of the policy. If the information is not 
        found in the policy, state that clearly. Format your response in plain language that's easy to understand.
        When relevant, include page numbers and section references in your answer (e.g., " ++ PyStr.dquote ++ "According to Page 3, RENTAL COVERAGE section, your policy covers..." ++ PyStr.dquote ++ ").
        
        " ++ readability_target ++ "
        ".

(** Lines 55-59 and 211-215: the verdict read from the classification
    response, and the document type reported when it is not affirmative. *)
Definition verification_result_of (response_text : string) : string :=
  PyStr.lower (PyStr.strip response_text).

Definition affirmative (response_text : string) : bool :=
  PyStr.startswith (verification_result_of response_text) "yes".

Definition document_type_of (verification_result : string) : string :=
  if PyStr.contains ":" verification_result
  then PyStr.strip (PyStr.replace "no:" "" verification_result)
  else "not an auto insurance policy".

(** Lines 133-138: the payload inside code fences, when there are any. *)
Definition extract_json_content (response_text : string) : Result string :=
  if PyStr.contains "```json" response_text && PyStr.contains "```" response_text
  then
    match py_index (PyStr.split "```json" response_text) 1 with
    | Raise e => Raise e
    | Ok after =>
        match py_index (PyStr.split "```" after) 0 with
        | Raise e => Raise e
        | Ok inner => Ok (PyStr.strip inner)
        end
    end
  else if PyStr.contains "```" response_text
  then
    match py_index (PyStr.split "```" response_text) 1 with
    | Raise e => Raise e
    | Ok after =>
        match py_index (PyStr.split "```" after) 0 with
        | Raise e => Raise e
        | Ok inner => Ok (PyStr.strip inner)
        end
    end
  else Ok response_text.

(** Line 141: [json_content.replace('\\', '\\\\')], every backslash doubled. *)
Definition double_backslashes (json_content : string) : string :=
  PyStr.replace PyStr.backslash (PyStr.backslash ++ PyStr.backslash) json_content.

(** *** Reference notions, from the specification's wording *)

(** A SummaryRecord: a dictionary with exactly the six fixed keys, each
    mapped to a list. *)
Definition is_list (v : pyval) : bool :=
  match v with
  | VList _ => true
  | _ => false
  end.

Definition is_summary_record (v : pyval) : bool :=
  match v with
  | VDict d =>
      forallb (fun k => dict_has String.eqb k d) expected_keys
      && forallb (fun kv => existsb (String.eqb (fst kv)) expected_keys
                            && is_list (snd kv)) d
  | _ => false
  end.

(** [d'] is [d] with the missing expected keys back-filled: every expected
    key is present, what [d] held is untouched, an expected key that [d]
    lacked holds the empty list, and nothing else was added. *)
Definition backfilled (d d' : list (string * pyval)) : Prop :=
  (forall k, In k expected_keys -> dict_has String.eqb k d' = true)
  /\ (forall k, dict_has String.eqb k d = true ->
                dict_get String.eqb k d' = dict_get String.eqb k d)
  /\ (forall k, In k expected_keys -> dict_has String.eqb k d = false ->
                dict_get String.eqb k d' = Some (VList []))
  /\ (forall k, dict_has String.eqb k d' = true ->
                dict_has String.eqb k d = true \/ In k expected_keys).

(** Every backslash written twice. *)
Fixpoint each_backslash_twice (s : string) : string :=
  match s with
  | EmptyString => EmptyString
  | String c r =>
      if (PyStr.code c =? 92)%N
      then String c (String c (each_backslash_twice r))
      else String c (each_backslash_twice r)
  end.

(** Where a character of a JSON text stands: outside the strings, inside
    a string, or inside a string right after a backslash.  [place_after p
    s] is the place reached after [s], read from the place [p]; there is
    none when a backslash stands outside the strings. *)
Inductive Place : Type := Outside | Inside | Escaped.

Fixpoint place_after (p : Place) (s : string) : option Place :=
  match s with
  | EmptyString => Some p
  | String c r =>
      match p with
      | Outside =>
          if (PyStr.code c =? 34)%N then place_after Inside r
          else if (PyStr.code c =? 92)%N then None
          else place_after Outside r
      | Inside =>
          if (PyStr.code c =? 34)%N then place_after Outside r
          else if (PyStr.code c =? 92)%N then place_after Escaped r
          else place_after Inside r
      | Escaped => place_after Inside r
      end
  end.

(** The strings of [s] are closed and no backslash stands outside them,
    as in every JSON text. *)
Definition well_delimited (s : string) : Prop :=
  place_after Outside s = Some Outside.

(** Some string of [s], read from the place [p], holds an escaped quote. *)
Fixpoint escapes_a_quote (p : Place) (s : string) : bool :=
  match s with
  | EmptyString => false
  | String c r =>
      match p with
      | Outside =>
          if (PyStr.code c =? 34)%N then escapes_a_quote Inside r
          else escapes_a_quote Outside r
      | Inside =>
          if (PyStr.code c =? 34)%N then escapes_a_quote Outside r
          else if (PyStr.code c =? 92)%N then escapes_a_quote Escaped r
          else escapes_a_quote Inside r
      | Escaped => (PyStr.code c =? 34)%N || escapes_a_quote Inside r
      end
  end.

Section WithModel.
(** The module constant [API_KEY = os.getenv("GEMINI_API_KEY")]. *)
Variable API_KEY : option string.
(** The hosted model: from the prompts already sent and the prompt of
    this call, the [.text] of the response, or the exception that
    [generate_content] or [.text] raises. *)
Variable gemini : list string -> string -> Result string.
(** [json.loads] *)
Variable json_loads : string -> Result pyval.

(** [model.generate_content(prompt).text]: one entry in [model_calls]
    per call, whatever the outcome. *)
Definition generate_content (prompt : string) : M string :=
  fun w => (gemini (model_calls w) prompt, called prompt w).

Definition setup_gemini : M bool :=
  if negb (has_key API_KEY) then
    st_message StError
      "Gemini API key not found. Please set the GEMINI_API_KEY environment variable." ;;;
    ret false
  else ret true.

(** Lines 40-167, the body of the [try]. *)
Definition generate_summary_body (text : string)
    (document_info : option DocumentInfo) (readability_preference : string)
  : M pyval :=
  verification_response <- generate_content (verification_prompt text) ;;
  let verification_result := verification_result_of verification_response in
  if negb (PyStr.startswith verification_result "yes") then
    let document_type := document_type_of verification_result in
    ret (degraded_summary
           ("This document appears to be " ++ document_type
            ++ ". Please upload an auto insurance policy document."))
  else
    let reference_info := build_reference_info document_info in
    let readability_target := summary_readability_target readability_preference in
    let audience :=
      if (readability_preference =? easy)%string
      then "elementary school student" else "high school student" in
    let prompt := summary_prompt text reference_info readability_target audience in
    response_text <- generate_content prompt ;;
    json_content <- lift (extract_json_content response_text) ;;
    let json_content := double_backslashes json_content in
    summary <-
      try_except
        (lift (json_loads json_content))
        (has_class "JSONDecodeError")
        (fun _ =>
           st_message StWarning
             "Could not parse model response as JSON. Creating simplified summary." ;;;
           ret (degraded_summary
                  "Could not generate detailed summary. Please try uploading the document again.")) ;;
    summary <- lift (backfill expected_keys summary) ;;
    ret summary.

Definition generate_summary (text : string)
    (document_info : option DocumentInfo) (readability_preference : string)
  : M pyval :=
  configured <- setup_gemini ;;
  if negb configured then
    ret (degraded_summary "API key not configured. Unable to generate summary.")
  else
    try_except
      (generate_summary_body text document_info readability_preference)
      any_exception
      (fun e =>
         st_message StError
           ("Error generating summary with Gemini API: " ++ exn_msg e) ;;;
         ret (degraded_summary ("Error generating summary: " ++ exn_msg e))).

(** Lines 196-267, the body of the [try]. *)
Definition answer_question_body (question document_text : string)
    (document_info : option DocumentInfo) (readability_preference : string)
  : M string :=
  verification_response <- generate_content (verification_prompt document_text) ;;
  let verification_result := verification_result_of verification_response in
  if negb (PyStr.startswith verification_result "yes") then
    let document_type := document_type_of verification_result in
    ret ("I cannot answer your question because this document appears to be "
         ++ document_type
         ++ ". Please upload an auto insurance policy document.")
  else
    let reference_info := build_reference_info document_info in
    let readability_target := answer_readability_target readability_preference in
    let prompt :=
      answer_prompt question document_text reference_info readability_target in
    generate_content prompt.

Definition answer_question (question document_text : string)
    (document_info : option DocumentInfo) (readability_preference : string)
  : M string :=
  configured <- setup_gemini ;;
  if negb configured then
    ret "API key not configured. Unable to answer questions."
  else
    try_except
      (answer_question_body question document_text document_info
         readability_preference)
      any_exception
      (fun e =>
         st_message StError
           ("Error answering question with Gemini API: " ++ exn_msg e) ;;;
         ret ("Sorry, I couldn't process your question due to an error: "
              ++ exn_msg e)).
(** *** Reference notion: the payload of a call

    The call of [generate_summary] on [text] in the world [w] gets as far
    as decoding: there is a credential, the classification request is
    answered by "yes", the summary request is answered, and [payload] is
    what lines 133-138 take out of this answer. *)
Definition payload_of_call (text : string) (document_info : option DocumentInfo)
    (readability_preference : string) (w : World) (payload : string) : Prop :=
  has_key API_KEY = true
  /\ exists answer response,
       gemini (model_calls w) (verification_prompt text) = Ok answer
       /\ affirmative answer = true
       /\ gemini (model_calls w ++ [verification_prompt text])
            (summary_prompt text (build_reference_info document_info)
               (summary_readability_target readability_preference)
               (if (readability_preference =? easy)%string
                then "elementary school student" else "high school student"))
          = Ok response
       /\ extract_json_content response = Ok payload.
End WithModel.

End GeminiIntegration.

(** ** pdf_export.py *)
Module PdfExport.

(** A [str] as the report writer gets it: any code points. *)
Definition text : Type := list N.

(** The calls made on the [FPDF] object, in order: they are the content of
    the document. *)
Inductive FpdfCall : Type :=
| add_page
| set_font (family style : string) (size : nat)
| cell (w h : nat) (txt : text) (ln : bool) (align : string)
| line (x1 y1 x2 y2 : nat)
| ln (h : nat)
| multi_cell (w h : nat) (txt : text).

(** A summary as the report writer reads it: a [dict] from section key to
    list of statements, or [None]. *)
Definition Summary : Type := list (text * list text).

(** [summary.get(key, [])] *)
Definition get_items (summary : Summary) (key : string) : list text :=
  match dict_get PyStr.codes_eqb (PyStr.codes key) summary with
  | Some items => items
  | None => []
  end.

(** [f"{x:.1f}"]: the decimal with one digit after the point nearest to
    the exact value of [x], a tie going to the even digit. *)
Definition round_half_even (num den : Z) : Z :=
  let n := (num / den)%Z in
  let r := (num mod den)%Z in
  match (2 * r ?= den)%Z with
  | Lt => n
  | Gt => (n + 1)%Z
  | Eq => if Z.even n then n else (n + 1)%Z
  end.

Definition format_1f (x : Q) : string :=
  let tenths := round_half_even (Z.abs (Qnum x) * 10) (Zpos (Qden x)) in
  (if (Qnum x <? 0)%Z then "-" else "")
  ++ PyStr.of_nat (Z.to_nat (tenths / 10)) ++ "."
  ++ PyStr.of_nat (Z.to_nat (tenths mod 10)).

(** Lines 39-44. *)
Definition difficulty_of (readability_score : Q) : string :=
  if Qle_bool readability_score 50 then "Very Difficult"
  else if Qle_bool readability_score 70 then "Moderate"
  else "Clear".

(** Lines 55-62: titles and keys of the six sections. *)
Definition section_keys : list (string * string) :=
  [("Coverage Details", "coverage_details");
   ("Exclusions", "exclusions");
   ("Deductibles", "deductibles");
   ("Premiums", "premiums");
   ("Claims Process", "claims_process");
   ("Unusual or Hidden Clauses", "unusual_clauses")].

Definition sections_of (summary : Summary) : list (string * list text) :=
  map (fun tk => (fst tk, get_items summary (snd tk))) section_keys.

(** Line 72: [item.replace(p, "-")], where the pattern [p] is the three
    code points U+00E2 U+20AC U+00A2. *)
Definition clean_item (item : text) : text :=
  PyStr.codes_replace [226; 8364; 162]%N (PyStr.codes "-") item.

(** Lines 70-73: one bullet. *)
Definition render_item (item : text) : FpdfCall :=
  multi_cell 0 7 (PyStr.codes "- " ++ clean_item item)%list.

(** Lines 64-75: the body of the loop over the sections. *)
Definition render_section (section : string * list text) : list FpdfCall :=
  let (title, items) := section in
  match items with
  | [] => []
  | _ :: _ =>
      [set_font "Arial" "B" 11; cell 0 10 (PyStr.codes title) true "";
       set_font "Arial" "" 10]
      ++ map render_item items
      ++ [ln 3]
  end.

(** The cell that opens the section titled [title] (line 67). *)
Definition section_header (title : string) : FpdfCall :=
  cell 0 10 (PyStr.codes title) true "".

Definition disclaimer : string :=
  "Disclaimer: This summary was generated using AI technology and is intended as a guide only. "
  ++ "It is not a legal interpretation of your insurance policy. "
  ++ "Always consult with an insurance professional for important decisions.".

Definition report_head (generated_on : string) (readability_score : Q)
  : list FpdfCall :=
  [add_page;
   set_font "Arial" "B" 16;
   cell 0 10 (PyStr.codes "ClearInsurance - Policy Summary") true "C";
   line 10 20 200 20;
   ln 5;
   set_font "Arial" "I" 10;
   cell 0 10 (PyStr.codes ("Generated on: " ++ generated_on)) true "";
   ln 5;
   set_font "Arial" "B" 12;
   cell 0 10 (PyStr.codes "Readability Analysis") true "";
   set_font "Arial" "" 10;
   cell 0 10 (PyStr.codes ("Readability Score: " ++ format_1f readability_score
                           ++ " - " ++ difficulty_of readability_score)) true "";
   ln 5;
   set_font "Arial" "B" 12;
   cell 0 10 (PyStr.codes "Policy Summary") true ""].

(** Lines 54-75: [if summary:] holds for a dictionary that is not empty. *)
Definition report_body (summary : option Summary) : list FpdfCall :=
  match summary with
  | Some d =>
      match d with
      | _ :: _ => flat_map render_section (sections_of d)
      | [] => []
      end
  | None => []
  end.

Definition report_tail : list FpdfCall :=
  [ln 5; set_font "Arial" "I" 8; multi_cell 0 5 (PyStr.codes disclaimer)].

(** Lines 19-82: the calls made before [pdf.output]. *)
Definition report (generated_on : string) (summary : option Summary)
    (readability_score : Q) : list FpdfCall :=
  report_head generated_on readability_score
  ++ report_body summary
  ++ report_tail.

(** The calls of line 73, one per statement of a section. *)
Definition is_bullet (c : FpdfCall) : bool :=
  match c with
  | multi_cell 0 7 _ => true
  | _ => false
  end.

(** The texts written on the pages. *)
Definition texts_of (calls : list FpdfCall) : list text :=
  flat_map (fun c => match c with
                     | cell _ _ txt _ _ => [txt]
                     | multi_cell _ _ txt => [txt]
                     | _ => []
                     end) calls.

(** Every code point is below 256. *)
Definition latin1 (t : text) : bool := forallb (fun n => (n <? 256)%N) t.

(** [s.encode('latin-1', errors='replace')]: a question mark for a code
    point above 255. *)
Definition encode_latin1_replace (s : text) : list Byte.byte :=
  map (fun n => match Byte.of_N n with
                | Some b => b
                | None => Byte.x3f
                end) s.

Section WithFpdf.
(** [datetime.datetime.now().strftime('%Y-%m-%d %H:%M')] *)
Variable generated_on : string.
(** [pdf.output(dest='S')] of FPDF 1.7, the release whose [output] returns
    a [str]: it encodes each page as Latin-1, which raises
    UnicodeEncodeError when a text written on the page holds a code point
    above 255.  The message of the exception (it names the character and
    its position in the page) and the serialisation itself, a [str] of
    code points below 256, are the library's. *)
Variable encode_error_message : list FpdfCall -> string.
Variable serialise : list FpdfCall -> text.

Definition output (calls : list FpdfCall) : Result text :=
  if forallb latin1 (texts_of calls) then Ok (serialise calls)
  else Raise (mkExn "UnicodeEncodeError" (encode_error_message calls)).

Definition generate_pdf (summary : option Summary) (original_text : text)
    (readability_score : Q) : Result (list Byte.byte) :=
  match output (report generated_on summary readability_score) with
  | Ok s => Ok (encode_latin1_replace s)
  | Raise e => Raise e
  end.
End WithFpdf.

End PdfExport.

(** ** app.py *)
Module App.
Import DocumentProcessing Readability GeminiIntegration.

(** [st.session_state] *)
Record Session := mkSession {
  extracted_text : string;
  document_info : option DocumentInfo;
  summary : option pyval;
  readability_score : option pynum;
  qa_history : list (string * string);
  readability_preference : string
}.

(** Lines 17-28. *)
Definition initial_session : Session :=
  mkSession "" None None None [] easy.

Definition set_qa_history (h : list (string * string)) (s : Session) : Session :=
  mkSession (extracted_text s) (document_info s) (summary s)
    (readability_score s) h (readability_preference s).

Definition set_extracted (t : string) (di : DocumentInfo) (s : Session) : Session :=
  mkSession t (Some di) (summary s) (readability_score s) (qa_history s)
    (readability_preference s).

Definition set_readability_score (x : pynum) (s : Session) : Session :=
  mkSession (extracted_text s) (document_info s) (summary s) (Some x)
    (qa_history s) (readability_preference s).

Definition set_summary (v : pyval) (s : Session) : Session :=
  mkSession (extracted_text s) (document_info s) (Some v)
    (readability_score s) (qa_history s) (readability_preference s).

Definition set_preference (p : string) (s : Session) : Session :=
  mkSession (extracted_text s) (document_info s) (summary s)
    (readability_score s) (qa_history s) p.

(** The values of the widgets read by one run of the script: the language
    level chosen, the file in the uploader, the question typed. *)
Record Widgets := mkWidgets {
  w_preference : string;
  w_uploaded_file : option UploadedFile;
  w_user_question : string
}.

(** Lines 138-146 and 160-168: the colour and the wording shown with a
    score, [(color, difficulty)]. *)
Definition score_band (score : pynum) : string * string :=
  if py_le score (Fin 50) then ("red", "Very Hard to Read")
  else if py_le score (Fin 70) then ("orange", "Moderate")
  else ("green", "Clear").

(** Lines 191-219: the entries listed under "Previous Questions & Answers"
    by a run that ends with the history [history]; [asked] tells whether
    the run has put a question to the model (the test of line 191). *)
Definition previous_shown (asked : bool) (history : list (string * string))
  : list (string * string) :=
  if asked then
    if 1 <? List.length history then rev (removelast history) else []
  else if 0 <? List.length history then rev history
  else [].

Section WithEnvironment.
Variable pdfplumber_open : bytes -> Result (list PdfPage).
Variable docx_paragraphs : bytes -> Result (list string).
Variable image_to_string : bytes -> Result string.
Variable decode_utf8 : bytes -> Result string.
Variable flesch_reading_ease : string -> Result pynum.
Variable API_KEY : option string.
Variable gemini : list string -> string -> Result string.
Variable json_loads : string -> Result pyval.

(** Line 74-75: the handler of the [try] of line 53.  The session keeps
    what had been stored in it when the exception was raised. *)
Definition on_processing_error (s : Session) (e : Exn) : M Session :=
  st_message StError ("Error processing document: " ++ exn_msg e) ;;;
  ret s.

(** One statement of the [try] block: run [c] with the session as it
    stands; an exception ends the block in the handler. *)
Definition attempt {A} (s : Session) (c : M A) (k : A -> M Session) : M Session :=
  fun w =>
    match c w with
    | (Ok a, w') => k a w'
    | (Raise e, w') => on_processing_error s e w'
    end.

(** Lines 51-75: a file sits in the uploader. *)
Definition process_upload (uploaded_file : UploadedFile) (s : Session)
  : M Session :=
  let s := set_qa_history [] s in
  attempt s (extract_text pdfplumber_open docx_paragraphs image_to_string
               decode_utf8 uploaded_file)
    (fun r =>
       let (text, info) := r in
       let s := set_extracted text info s in
       attempt s (calculate_readability_score flesch_reading_ease text)
         (fun score =>
            let s := set_readability_score score s in
            attempt s (generate_summary API_KEY gemini json_loads text
                         (Some info) (readability_preference s))
              (fun v =>
                 let s := set_summary v s in
                 st_message StSuccess "Document processed successfully!" ;;;
                 ret s))).

(** Lines 191-201: a question is asked about the current document. *)
Definition ask (user_question : string) (s : Session) : M Session :=
  if truthy_str user_question && truthy_str (extracted_text s) then
    answer <- answer_question API_KEY gemini user_question (extracted_text s)
                (document_info s) (readability_preference s) ;;
    ret (set_qa_history (qa_history s ++ [(user_question, answer)]) s)
  else ret s.

(** The statements of one run of the script that write the session: the
    choice of the language level (line 43), the upload handler (lines
    51-75) and the question section (lines 191-201), in this order.  The
    code between the last two (lines 88-185, which shows the summary and
    the scores) and the export buttons (lines 221-246) read the session
    only and are not part of this definition: it is a run in which they
    do not raise. *)
Definition script_run (ui : Widgets) (s : Session) : M Session :=
  let s := set_preference (w_preference ui) s in
  s <- match w_uploaded_file ui with
       | Some f => process_upload f s
       | None => ret s
       end ;;
  if truthy_str (extracted_text s) then ask (w_user_question ui) s else ret s.

(** *** Reference notions, from the specification's wording *)

(** Nothing has been processed yet. *)
Definition pristine (s : Session) : Prop :=
  extracted_text s = "" /\ document_info s = None
  /\ summary s = None /\ readability_score s = None.

(** The text, the metadata, the score and the summary that the session
    holds all come from one processing of the file [f]: the text and
    the metadata are what [extract_text] returned for [f], the score
    and the summary what was computed from this text. *)
Definition derived_from (f : UploadedFile) (s : Session) : Prop :=
  exists w0 text info w1 score w2 pref v w3,
    extract_text pdfplumber_open docx_paragraphs image_to_string decode_utf8 f w0
    = (Ok (text, info), w1)
    /\ calculate_readability_score flesch_reading_ease text w1 = (Ok score, w2)
    /\ generate_summary API_KEY gemini json_loads text (Some info) pref w2
       = (Ok v, w3)
    /\ extracted_text s = text
    /\ document_info s = Some info
    /\ readability_score s = Some score
    /\ summary s = Some v.

Definition consistent (s : Session) : Prop :=
  pristine s \/ exists f, derived_from f s.

(** The session after a sequence of such runs. *)
Fixpoint run_all (runs : list Widgets) (s : Session) (w : World)
  : Result Session * World :=
  match runs with
  | [] => (Ok s, w)
  | ui :: rest =>
      match script_run ui s w with
      | (Ok s', w') => run_all rest s' w'
      | (Raise e, w') => (Raise e, w')
      end
  end.
End WithEnvironment.

End App.

(** ** Test doubles

    A scripted model, as a test would stub it: the n-th call is answered by
    the n-th entry, whatever the prompt. *)
Module Stub.
Import DocumentProcessing Readability.

Definition scripted_model (replies : list (Result string))
  : list string -> string -> Result string :=
  fun history _ =>
    nth (List.length history) replies
      (Raise (mkExn "RuntimeError" "no reply scripted")).

Definition q (s : string) : string := PyStr.dquote ++ s ++ PyStr.dquote.

(** Libraries that answer the same on every input. *)
Definition two_page_pdf : bytes -> Result (list PdfPage) :=
  fun _ => Ok [mkPage (Some ("POLICY DECLARATIONS" ++ PyStr.nl ++ "Named insured: A. Driver"));
               mkPage None].
Definition no_paragraphs : bytes -> Result (list string) := fun _ => Ok [].
Definition two_paragraphs : bytes -> Result (list string) :=
  fun _ => Ok ["Part A - Liability"; "We will pay damages for bodily injury."].
Definition blank_image : bytes -> Result string := fun _ => Ok "".
Definition ascii_text : bytes -> Result string :=
  fun b => Ok (string_of_list_ascii (map (fun x => ascii_of_nat (Byte.to_nat x)) b)).
Definition constant_score (x : Q) : string -> Result pynum := fun _ => Ok (Fin x).
Definition failing_score : string -> Result pynum :=
  fun _ => Raise (mkExn "ZeroDivisionError" "float division by zero").

(** Responses of the model to the summary request: an object with a
    value that is not a list and a key of its own; an object whose
    string holds the escape for a newline; one whose string holds
    escaped quotes. *)
Definition loose_object : string :=
  "{" ++ q "coverage_details" ++ ": " ++ q "Liability only" ++ ", "
      ++ q "notes" ++ ": []}".

Definition newline_escape_object : string :=
  "{" ++ q "coverage_details" ++ ": ["
      ++ q ("Towing is covered." ++ PyStr.backslash ++ "nGlass is covered.")
      ++ "]}".

Definition quote_escape_object : string :=
  "{" ++ q "coverage_details" ++ ": ["
      ++ q ("The policy calls this " ++ PyStr.backslash ++ PyStr.dquote ++ "loss of use"
            ++ PyStr.backslash ++ PyStr.dquote ++ ".")
      ++ "]}".

(** A summary with statements under "coverage_details" only. *)
Definition only_coverage (statements : list PdfExport.text) : PdfExport.Summary :=
  [(PyStr.codes "coverage_details", statements);
   (PyStr.codes "exclusions", []);
   (PyStr.codes "deductibles", []);
   (PyStr.codes "premiums", []);
   (PyStr.codes "claims_process", []);
   (PyStr.codes "unusual_clauses", [])].

Definition coverage_only : PdfExport.Summary :=
  only_coverage [PyStr.codes "Liability coverage up to $50,000."].

(** The same with a typographic apostrophe, U+2019, in the statement. *)
Definition coverage_with_apostrophe : PdfExport.Summary :=
  only_coverage
    [(PyStr.codes "The driver" ++ [8217%N] ++ PyStr.codes "s liability is covered.")%list].

(** An [FPDF] whose serialisation is the texts written, one after the
    other. *)
Definition texts_in_a_row (calls : list PdfExport.FpdfCall) : PdfExport.text :=
  concat (PdfExport.texts_of calls).
Definition ordinal_not_in_range (calls : list PdfExport.FpdfCall) : string :=
  "'latin-1' codec can't encode character: ordinal not in range(256)".

(** Two runs of the script.  In the first the uploader holds a text file
    and a question is asked; in the second it holds a file whose declared
    type is not accepted.  The model confirms the policy, summarises it,
    confirms it again and answers the question. *)
Definition policy_bytes : bytes :=
  map (fun c => match Byte.of_nat (nat_of_ascii c) with
                | Some b => b
                | None => Byte.x00
                end)
      (list_ascii_of_string "Collision is covered.").

Definition first_run : App.Widgets :=
  App.mkWidgets GeminiIntegration.easy
    (Some (mkUploadedFile "text/plain" "policy.txt" policy_bytes))
    "Is collision covered?".

Definition second_run : App.Widgets :=
  App.mkWidgets GeminiIntegration.easy
    (Some (mkUploadedFile "application/octet-stream" "other.bin" []))
    "".

Definition session_replies : list (Result string) :=
  [Ok "yes";
   Ok ("{" ++ q "coverage_details" ++ ": [" ++ q "Collision is covered." ++ "]}");
   Ok "yes";
   Ok "Yes, collision is covered."].

(** A text of more than 1500 characters that ends with [tail]. *)
Definition padded (tail : string) : string :=
  string_of_list_ascii (repeat "x"%char 1500) ++ tail.

(** A failure of the hosted model. *)
Definition deadline_exceeded : Exn :=
  mkExn "DeadlineExceeded" "504 Deadline Exceeded".

(** A line of exactly fifty characters, all in capitals. *)
Definition fifty_caps : string :=
  "PART D - COVERAGE FOR DAMAGE TO YOUR AUTO EXCLUDED".

End Stub.

(* ================================================================== *)
(** * Part II. Properties *)
(* ================================================================== *)

(** ** The model on small inputs

    Each line is what Python answers on the same input. *)

Example str_split :
  PyStr.split "," "a,b,,c," = ["a"; "b"; ""; "c"; ""]
  /\ PyStr.split "```" "x```json{}```y" = ["x"; "json{}"; "y"]
  /\ PyStr.split "aa" "aaa" = [""; "a"]
  /\ PyStr.split PyStr.nl "" = [""]
  /\ PyStr.split_ws "  ab  c d " = ["ab"; "c"; "d"]
  /\ PyStr.split_ws "   " = [].
Proof. repeat split. Qed.

Example str_strip_lower_replace :
  PyStr.strip "  a b  " = "a b"
  /\ PyStr.lower (PyStr.strip " No: A Lease ") = "no: a lease"
  /\ PyStr.replace "no:" "" "no: a lease no:x" = " a lease x"
  /\ PyStr.replace_codes [226; 8364; 162]%N "-" "a - b" = "a - b"
  /\ PyStr.join ", " ["A"; "B"; "C"] = "A, B, C"
  /\ PyStr.take 3 "policy" = "pol"
  /\ PyStr.of_nat 12 = "12".
Proof. repeat split. Qed.

Example str_isupper :
  PyStr.isupper "PART A" = true
  /\ PyStr.isupper "Part A" = false
  /\ PyStr.isupper "12 34" = false
  /\ PyStr.isupper "" = false.
Proof. repeat split. Qed.

Example json_loads_values :
  PyJson.loads (" {" ++ Stub.q "a" ++ ": [1, -2.5e3, true, null, [], {}] } ")
  = Ok (VDict [("a", VList [VInt 1; VFloat "-2.5e3"; VBool true; VNone;
                            VList []; VDict []])])
  /\ PyJson.loads ("{" ++ Stub.q "a" ++ ": 1, " ++ Stub.q "b" ++ ": 2, "
                   ++ Stub.q "a" ++ ": 3}")
     = Ok (VDict [("a", VInt 3); ("b", VInt 2)])
  /\ PyJson.loads (Stub.q ("a" ++ PyStr.backslash ++ "n" ++ PyStr.backslash ++ "u0041"))
     = Ok (VStr ("a" ++ PyStr.nl ++ "A"))
  /\ PyJson.loads "-Infinity" = Ok (VFloat "-Infinity").
Proof. repeat split. Qed.

Example json_loads_errors :
  PyJson.loads "" = Raise PyJson.JSONDecodeError
  /\ PyJson.loads "01" = Raise PyJson.JSONDecodeError
  /\ PyJson.loads "[1,]" = Raise PyJson.JSONDecodeError
  /\ PyJson.loads "{} x" = Raise PyJson.JSONDecodeError
  /\ PyJson.loads (Stub.q ("a" ++ PyStr.backslash ++ "q")) = Raise PyJson.JSONDecodeError
  /\ PyJson.loads (Stub.q ("a" ++ PyStr.nl ++ "b")) = Raise PyJson.JSONDecodeError
  /\ PyJson.loads "Here is the summary" = Raise PyJson.JSONDecodeError.
Proof. repeat split. Qed.

Example format_score :
  PdfExport.format_1f 85 = "85.0"
  /\ PdfExport.format_1f (1 # 4) = "0.2"
  /\ PdfExport.format_1f (3 # 4) = "0.8"
  /\ PdfExport.format_1f (799 # 8) = "99.9"
  /\ PdfExport.format_1f 0 = "0.0"
  /\ PdfExport.difficulty_of 50 = "Very Difficult"
  /\ PdfExport.difficulty_of 70 = "Moderate"
  /\ PdfExport.difficulty_of (141 # 2) = "Clear".
Proof. repeat split. Qed.

Example clamp_of_special_floats :
  Readability.py_max (Readability.Fin 0) (Readability.py_min (Readability.Fin 100) Readability.NaN)
  = Readability.Fin 100
  /\ Readability.py_max (Readability.Fin 0)
       (Readability.py_min (Readability.Fin 100) Readability.NegInf)
     = Readability.Fin 0
  /\ Readability.py_max (Readability.Fin 0)
       (Readability.py_min (Readability.Fin 100) (Readability.Fin (-15 # 2)))
     = Readability.Fin 0.
Proof. repeat split. Qed.

Example headers_of_a_page :
  DocumentProcessing.find_headers
    ("PERSONAL AUTO POLICY" ++ PyStr.nl ++ "  Part A - liability  " ++ PyStr.nl
     ++ "we will pay damages" ++ PyStr.nl ++ "x" ++ PyStr.nl ++ "y" ++ PyStr.nl
     ++ "SIXTH LINE")
  = ["PERSONAL AUTO POLICY"; "Part A - liability"].
Proof. reflexivity. Qed.

(** ** Strings and dictionaries *)

Lemma lstrip_whitespace_only s :
  PyStr.whitespace_only s = true -> PyStr.lstrip s = "".
Proof.
  unfold PyStr.whitespace_only.
  induction s as [|c r IH]; simpl; [reflexivity|].
  intros H. apply andb_true_iff in H as [Hc Hr].
  rewrite Hc. exact (IH Hr).
Qed.

Lemma strip_whitespace_only s :
  PyStr.whitespace_only s = true -> PyStr.strip s = "".
Proof.
  intros H. unfold PyStr.strip. rewrite (lstrip_whitespace_only s H). reflexivity.
Qed.

Section DictFacts.
Context {K V : Type} (eqb : K -> K -> bool).
Hypothesis eqb_eq : forall a b, eqb a b = true <-> a = b.

Lemma dict_has_false_iff (k : K) (d : list (K * V)) :
  dict_has eqb k d = false <-> ~ In k (map fst d).
Proof.
  unfold dict_has. induction d as [|[k' v'] r IH]; simpl.
  - tauto.
  - rewrite orb_false_iff, IH. split.
    + intros [Hk Hr] [E|Hin]; [|tauto].
      apply eqb_eq in E. simpl in Hk. congruence.
    + intros H. split; [|tauto].
      simpl. destruct (eqb k' k) eqn:E; [|reflexivity].
      apply eqb_eq in E. tauto.
Qed.

Lemma dict_has_true_iff (k : K) (d : list (K * V)) :
  dict_has eqb k d = true <-> In k (map fst d).
Proof.
  unfold dict_has. rewrite existsb_exists, in_map_iff. split.
  - intros [kv [Hin E]]. apply eqb_eq in E. exists kv. tauto.
  - intros [kv [E Hin]]. exists kv. split; [exact Hin|]. apply eqb_eq. exact E.
Qed.

(** A new key goes last. *)
Lemma dict_set_fresh (k : K) (v : V) (d : list (K * V)) :
  dict_has eqb k d = false -> dict_set eqb k v d = (d ++ [(k, v)])%list.
Proof.
  unfold dict_has. induction d as [|[k' v'] r IH]; simpl; [reflexivity|].
  intros H. apply orb_false_iff in H as [Hk Hr]. rewrite Hk, (IH Hr). reflexivity.
Qed.

Lemma dict_get_set_same (k : K) (v : V) (d : list (K * V)) :
  dict_get eqb k (dict_set eqb k v d) = Some v.
Proof.
  induction d as [|[k' v'] r IH]; simpl.
  - replace (eqb k k) with true; [reflexivity|]. symmetry. apply eqb_eq. reflexivity.
  - destruct (eqb k' k) eqn:E; simpl; rewrite E; [reflexivity | exact IH].
Qed.

Lemma dict_get_set_other (k j : K) (v : V) (d : list (K * V)) :
  j <> k -> dict_get eqb j (dict_set eqb k v d) = dict_get eqb j d.
Proof.
  intros Hne. induction d as [|[k' v'] r IH]; simpl.
  - destruct (eqb k j) eqn:E; [|reflexivity]. apply eqb_eq in E. congruence.
  - destruct (eqb k' k) eqn:E; simpl.
    + apply eqb_eq in E. subst k'.
      destruct (eqb k j) eqn:E'; [|reflexivity]. apply eqb_eq in E'. congruence.
    + destruct (eqb k' j); [reflexivity | exact IH].
Qed.

Lemma dict_keys_set (k : K) (v : V) (d : list (K * V)) (j : K) :
  In j (map fst (dict_set eqb k v d)) <-> j = k \/ In j (map fst d).
Proof.
  induction d as [|[k' v'] r IH]; simpl.
  - intuition.
  - destruct (eqb k' k) eqn:E; simpl.
    + apply eqb_eq in E. subst k'. intuition.
    + rewrite IH. intuition.
Qed.
End DictFacts.

(** ** The JSON decoder never runs out of fuel *)
Section DecoderFacts.
Import PyJson.

Lemma skip_ws_length (s : string) :
  String.length (skip_ws s) <= String.length s.
Proof.
  induction s as [|c r IH]; cbn [skip_ws String.length]; [lia|].
  destruct (is_ws c); cbn [String.length]; lia.
Qed.

Lemma scanstring_shorter (n : nat) :
  forall s acc k rest,
    String.length s <= n ->
    scanstring acc s = Some (k, rest) ->
    String.length rest < String.length s.
Proof.
  induction n as [|n IH]; intros s acc k rest Hn H.
  - destruct s; [discriminate | cbn in Hn; lia].
  - destruct s as [|c r]; [discriminate|].
    cbn [scanstring] in H. cbn [String.length] in *.
    destruct (PyStr.code c =? 34)%N.
    { injection H as _ <-. lia. }
    destruct (PyStr.code c =? 92)%N.
    { destruct r as [|e r1]; [discriminate|]. cbn [String.length] in *.
      destruct (PyStr.code e =? 117)%N.
      - destruct r1 as [|h1 [|h2 [|h3 [|h4 r2]]]]; try discriminate.
        cbn [String.length] in *.
        destruct (hex4 h1 h2 h3 h4) as [v|]; [|discriminate].
        destruct (v <? 256)%N; [|discriminate].
        apply IH in H; lia.
      - destruct (simple_escape e); [|discriminate].
        apply IH in H; lia. }
    destruct (PyStr.code c <? 32)%N; [discriminate|].
    apply IH in H; lia.
Qed.

Lemma take_digits_length (s : string) :
  String.length (snd (take_digits s)) <= String.length s.
Proof.
  induction s as [|c r IH]; cbn [take_digits]; [cbn; lia|].
  destruct (is_digit c); [|cbn; lia].
  destruct (take_digits r) as [ds rest]. cbn [snd String.length] in *. lia.
Qed.

Lemma int_part_shorter (s ip rest : string) :
  int_part s = Some (ip, rest) -> String.length rest < String.length s.
Proof.
  unfold int_part. destruct s as [|c r]; [discriminate|].
  destruct (PyStr.code c =? 48)%N.
  - intros H. injection H as _ <-. cbn. lia.
  - destruct (is_digit c); [|discriminate].
    pose proof (take_digits_length r) as Hl.
    destruct (take_digits r) as [ds rest']. intros H. injection H as _ <-.
    cbn [snd String.length] in *. lia.
Qed.

Lemma frac_part_length (s fp rest : string) :
  frac_part s = Some (fp, rest) -> String.length rest <= String.length s.
Proof.
  unfold frac_part. destruct s as [|dot [|d r]]; try discriminate.
  destruct ((PyStr.code dot =? 46)%N && is_digit d); [|discriminate].
  pose proof (take_digits_length r) as Hl.
  destruct (take_digits r) as [ds rest']. intros H. injection H as _ <-.
  cbn [snd String.length] in *. lia.
Qed.

Lemma exp_digits_length (mark s ep rest : string) :
  exp_digits mark s = Some (ep, rest) -> String.length rest <= String.length s.
Proof.
  unfold exp_digits. destruct s as [|d r]; [discriminate|].
  destruct (is_digit d); [|discriminate].
  pose proof (take_digits_length r) as Hl.
  destruct (take_digits r) as [ds rest']. intros H. injection H as _ <-.
  cbn [snd String.length] in *. lia.
Qed.

Lemma exp_part_length (s ep rest : string) :
  exp_part s = Some (ep, rest) -> String.length rest <= String.length s.
Proof.
  unfold exp_part. destruct s as [|e r]; [discriminate|].
  destruct ((PyStr.code e =? 101) || (PyStr.code e =? 69))%N; [|discriminate].
  destruct r as [|sg r']; [discriminate|].
  destruct ((PyStr.code sg =? 43) || (PyStr.code sg =? 45))%N; intros H;
    apply exp_digits_length in H; cbn [String.length] in *; lia.
Qed.

Lemma match_number_shorter (s : string) (v : pyval) (rest : string) :
  match_number s = Some (v, rest) -> String.length rest < String.length s.
Proof.
  unfold match_number.
  set (cut := match s with
              | String c r => if (PyStr.code c =? 45)%N then ("-", r) else ("", s)
              | EmptyString => ("", s)
              end).
  assert (Hcut : String.length (snd cut) <= String.length s).
  { subst cut. destruct s as [|c r]; [cbn; lia|].
    destruct (PyStr.code c =? 45)%N; cbn; lia. }
  destruct cut as [sign s1]. cbn [snd] in Hcut.
  destruct (int_part s1) as [[ip s2]|] eqn:Hi; [|discriminate].
  apply int_part_shorter in Hi.
  destruct (frac_part s2) as [[fp s3]|] eqn:Hf.
  - apply frac_part_length in Hf.
    destruct (exp_part s3) as [[ep s4]|] eqn:He.
    + apply exp_part_length in He.
      destruct (PyStr.is_empty fp && PyStr.is_empty ep); intros H;
        injection H as _ <-; lia.
    + destruct (PyStr.is_empty fp && PyStr.is_empty ""); intros H;
        injection H as _ <-; lia.
  - destruct (exp_part s2) as [[ep s4]|] eqn:He.
    + apply exp_part_length in He.
      destruct (PyStr.is_empty "" && PyStr.is_empty ep); intros H;
        injection H as _ <-; lia.
    + destruct (PyStr.is_empty "" && PyStr.is_empty ""); intros H;
        injection H as _ <-; lia.
Qed.

Lemma substring_length (n m : nat) :
  forall s, String.length (String.substring n m s) <= String.length s - n.
Proof.
  induction n as [|n IH]; intros s.
  - revert s. induction m as [|m IHm]; intros s; destruct s as [|c r]; cbn; try lia.
    specialize (IHm r). lia.
  - destruct s as [|c r]; cbn; [destruct m; cbn; lia|]. apply IH.
Qed.

Lemma keyword_shorter (lit : string) (v : pyval) (s : string) (v' : pyval)
    (rest : string) :
  0 < String.length lit ->
  keyword lit v s = Some (v', rest) ->
  String.length rest < String.length s.
Proof.
  unfold keyword. intros Hlit.
  destruct (PyStr.startswith s lit) eqn:Hs; [|discriminate].
  intros H. injection H as _ <-.
  pose proof (substring_length (String.length lit) (String.length s) s) as Hl.
  destruct lit as [|a p]; [cbn in Hlit; lia|].
  destruct s as [|b s']; [discriminate|].
  cbn [String.length] in *. lia.
Qed.

Lemma first_some_inv {A} (a b : option A) (x : A) :
  first_some a b = Some x -> a = Some x \/ b = Some x.
Proof. destruct a; cbn; auto. Qed.

Lemma constants_and_numbers_shorter (s : string) (v : pyval) (rest : string) :
  of_option
    (first_some (keyword "null" VNone s)
    (first_some (keyword "true" (VBool true) s)
    (first_some (keyword "false" (VBool false) s)
    (first_some (match_number s)
    (first_some (keyword "NaN" (VFloat "NaN") s)
    (first_some (keyword "Infinity" (VFloat "Infinity") s)
                (keyword "-Infinity" (VFloat "-Infinity") s)))))))
  = Found v rest ->
  String.length rest < String.length s.
Proof.
  unfold of_option.
  match goal with |- match ?o with _ => _ end = _ -> _ => destruct o as [[v0 r0]|] eqn:E end;
    [|discriminate].
  intros H. injection H as -> ->.
  repeat (apply first_some_inv in E as [E|E]);
    first [ now apply match_number_shorter in E
          | apply keyword_shorter in E; [exact E | cbn; lia] ].
Qed.

Lemma of_option_has_fuel (r : option (pyval * string)) : of_option r <> NoFuel.
Proof. destruct r as [[v rest]|]; discriminate. Qed.

Ltac no_value := intros; discriminate.

(** A value found leaves a strictly shorter text. *)
Lemma scan_shorter (fuel : nat) :
  forall s,
    (forall v rest, scan_once fuel s = Found v rest ->
                    String.length rest < String.length s)
    /\ (forall pairs v rest, object_members fuel pairs s = Found v rest ->
                             String.length rest < String.length s)
    /\ (forall values v rest, array_items fuel values s = Found v rest ->
                              String.length rest < String.length s).
Proof.
  induction fuel as [|f IH]; intros s.
  { repeat split; no_value. }
  split; [|split].
  - (* scan_once *)
    cbn [scan_once]. destruct s as [|c r]; [no_value|].
    cbn [String.length].
    pose proof (skip_ws_length r) as Hws.
    destruct (PyStr.code c =? 34)%N.
    { destruct (scanstring "" r) as [[str rest0]|] eqn:Hstr; [|no_value].
      apply (scanstring_shorter (String.length r)) in Hstr; [|lia].
      intros v rest H. injection H as _ <-. lia. }
    destruct (PyStr.code c =? 123)%N.
    { destruct (skip_ws r) as [|q r'] eqn:Hs; [no_value|].
      cbn [String.length] in *.
      destruct (PyStr.code q =? 125)%N.
      { intros v rest H. injection H as _ <-. lia. }
      destruct (PyStr.code q =? 34)%N; [|no_value].
      destruct (IH r') as (_ & Hobj & _).
      intros v rest H. apply Hobj in H. lia. }
    destruct (PyStr.code c =? 91)%N.
    { destruct (skip_ws r) as [|q r'] eqn:Hs; [no_value|].
      destruct (PyStr.code q =? 93)%N.
      { cbn [String.length] in *. intros v rest H. injection H as _ <-. lia. }
      destruct (IH (String q r')) as (_ & _ & Harr).
      intros v rest H. apply Harr in H. lia. }
    intros v rest H. apply constants_and_numbers_shorter in H.
    cbn [String.length] in H. exact H.
  - (* object_members *)
    intros pairs. cbn [object_members].
    destruct (scanstring "" s) as [[key s1]|] eqn:Hkey; [|no_value].
    apply (scanstring_shorter (String.length s)) in Hkey; [|lia].
    pose proof (skip_ws_length s1) as Hws1.
    destruct (skip_ws s1) as [|colon s2] eqn:Hs1; [no_value|].
    cbn [String.length] in *.
    destruct (PyStr.code colon =? 58)%N; [|no_value].
    pose proof (skip_ws_length s2) as Hws2.
    destruct (IH (skip_ws s2)) as (Hshort & _ & _).
    destruct (scan_once f (skip_ws s2)) as [v s3| |] eqn:Hv; [|no_value|no_value].
    specialize (Hshort v s3 eq_refl).
    pose proof (skip_ws_length s3) as Hws3.
    destruct (skip_ws s3) as [|d s4] eqn:Hs3; [no_value|].
    cbn [String.length] in *.
    destruct (PyStr.code d =? 125)%N.
    { intros v0 rest H. injection H as _ <-. lia. }
    destruct (PyStr.code d =? 44)%N; [|no_value].
    pose proof (skip_ws_length s4) as Hws4.
    destruct (skip_ws s4) as [|q s5] eqn:Hs4; [no_value|].
    cbn [String.length] in *.
    destruct (PyStr.code q =? 34)%N; [|no_value].
    destruct (IH s5) as (_ & Hobj & _).
    intros v0 rest H. apply Hobj in H. lia.
  - (* array_items *)
    intros values. cbn [array_items].
    destruct (IH s) as (Hshort & _ & _).
    destruct (scan_once f s) as [v s1| |] eqn:Hv; [|no_value|no_value].
    specialize (Hshort v s1 eq_refl).
    pose proof (skip_ws_length s1) as Hws1.
    destruct (skip_ws s1) as [|d s2] eqn:Hs1; [no_value|].
    cbn [String.length] in *.
    destruct (PyStr.code d =? 93)%N.
    { intros v0 rest H. injection H as _ <-. lia. }
    destruct (PyStr.code d =? 44)%N; [|no_value].
    pose proof (skip_ws_length s2) as Hws2.
    destruct (IH (skip_ws s2)) as (_ & _ & Harr).
    intros v0 rest H. apply Harr in H. lia.
Qed.

(** With more than twice as much fuel as characters, no scan ends for lack
    of fuel. *)
Lemma scan_has_fuel (fuel : nat) :
  forall s,
    (2 * String.length s < fuel -> scan_once fuel s <> NoFuel)
    /\ (2 * String.length s < fuel ->
        forall pairs, object_members fuel pairs s <> NoFuel)
    /\ (2 * String.length s + 1 < fuel ->
        forall values, array_items fuel values s <> NoFuel).
Proof.
  induction fuel as [|f IH]; intros s.
  { repeat split; intros; lia. }
  split; [|split]; intros Hlen.
  - (* scan_once *)
    cbn [scan_once]. destruct s as [|c r]; [discriminate|].
    cbn [String.length] in *.
    pose proof (skip_ws_length r) as Hws.
    destruct (PyStr.code c =? 34)%N.
    { destruct (scanstring "" r) as [[str rest0]|]; discriminate. }
    destruct (PyStr.code c =? 123)%N.
    { destruct (skip_ws r) as [|q r'] eqn:Hs; [discriminate|].
      cbn [String.length] in *.
      destruct (PyStr.code q =? 125)%N; [discriminate|].
      destruct (PyStr.code q =? 34)%N; [|discriminate].
      destruct (IH r') as (_ & Hobj & _). apply Hobj. lia. }
    destruct (PyStr.code c =? 91)%N.
    { destruct (skip_ws r) as [|q r'] eqn:Hs; [discriminate|].
      destruct (PyStr.code q =? 93)%N; [discriminate|].
      destruct (IH (String q r')) as (_ & _ & Harr). apply Harr. lia. }
    apply of_option_has_fuel.
  - (* object_members *)
    intros pairs. cbn [object_members].
    destruct (scanstring "" s) as [[key s1]|] eqn:Hkey; [|discriminate].
    apply (scanstring_shorter (String.length s)) in Hkey; [|lia].
    pose proof (skip_ws_length s1) as Hws1.
    destruct (skip_ws s1) as [|colon s2] eqn:Hs1; [discriminate|].
    cbn [String.length] in *.
    destruct (PyStr.code colon =? 58)%N; [|discriminate].
    pose proof (skip_ws_length s2) as Hws2.
    destruct (IH (skip_ws s2)) as (Hfuel & _ & _).
    destruct (scan_shorter f (skip_ws s2)) as (Hshort & _ & _).
    destruct (scan_once f (skip_ws s2)) as [v s3| |] eqn:Hv;
      [ | discriminate | exfalso; apply Hfuel; [lia | reflexivity] ].
    specialize (Hshort v s3 eq_refl).
    pose proof (skip_ws_length s3) as Hws3.
    destruct (skip_ws s3) as [|d s4] eqn:Hs3; [discriminate|].
    cbn [String.length] in *.
    destruct (PyStr.code d =? 125)%N; [discriminate|].
    destruct (PyStr.code d =? 44)%N; [|discriminate].
    pose proof (skip_ws_length s4) as Hws4.
    destruct (skip_ws s4) as [|q s5] eqn:Hs4; [discriminate|].
    cbn [String.length] in *.
    destruct (PyStr.code q =? 34)%N; [|discriminate].
    destruct (IH s5) as (_ & Hobj & _). apply Hobj. lia.
  - (* array_items *)
    intros values. cbn [array_items].
    destruct (IH s) as (Hfuel & _ & _).
    destruct (scan_shorter f s) as (Hshort & _ & _).
    destruct (scan_once f s) as [v s1| |] eqn:Hv;
      [ | discriminate | exfalso; apply Hfuel; [lia | reflexivity] ].
    specialize (Hshort v s1 eq_refl).
    pose proof (skip_ws_length s1) as Hws1.
    destruct (skip_ws s1) as [|d s2] eqn:Hs1; [discriminate|].
    cbn [String.length] in *.
    destruct (PyStr.code d =? 93)%N; [discriminate|].
    destruct (PyStr.code d =? 44)%N; [|discriminate].
    pose proof (skip_ws_length s2) as Hws2.
    destruct (IH (skip_ws s2)) as (_ & _ & Harr). apply Harr. lia.
Qed.

(** [loads], the decoder of this file, answers with a value or with
    JSONDecodeError. *)
Lemma loads_value_or_decode_error (s : string) :
  (exists v, loads s = Ok v) \/ loads s = Raise JSONDecodeError.
Proof.
  unfold loads.
  pose proof (skip_ws_length s) as Hws.
  destruct (scan_has_fuel (S (2 * String.length s)) (skip_ws s)) as (Hfuel & _).
  destruct (scan_once (S (2 * String.length s)) (skip_ws s)) as [v rest| |];
    [ | now right | exfalso; apply Hfuel; [lia | reflexivity] ].
  destruct (PyStr.is_empty (skip_ws rest)); [left; now exists v | now right].
Qed.
End DecoderFacts.

(** ** readability.py *)
Section ReadabilityFacts.
Import Readability.
Variable flesch_reading_ease : string -> Result pynum.

(** [max(0, min(100, score))] is a finite number of [0, 100], whatever
    [score] is, the special floats included. *)
Lemma clamp_range (score : pynum) :
  exists q, py_max (Fin 0) (py_min (Fin 100) score) = Fin q
            /\ (0 <= q)%Q /\ (q <= 100)%Q.
Proof using Type.
  destruct score as [x| | |]; simpl.
  - unfold py_min, py_max, py_lt.
    destruct (Qle_bool 100 x) eqn:H100; simpl.
    + exists 100%Q. repeat split; [discriminate | apply Qle_refl].
    + destruct (Qle_bool x 0) eqn:H0; simpl.
      * exists 0%Q. repeat split; [apply Qle_refl | discriminate].
      * exists x. split; [reflexivity|]. split.
        -- apply Qlt_le_weak, Qnot_le_lt. intros H.
           apply Qle_bool_iff in H. congruence.
        -- apply Qlt_le_weak, Qnot_le_lt. intros H.
           apply Qle_bool_iff in H. congruence.
  - exists 100%Q. repeat split; discriminate.
  - exists 100%Q. repeat split; discriminate.
  - exists 0%Q. repeat split; discriminate.
Qed.

Lemma calculate_readability_score_returns (text : string) (w : World) :
  exists x w', calculate_readability_score flesch_reading_ease text w = (Ok x, w').
Proof using Type.
  unfold calculate_readability_score.
  destruct (PyStr.is_empty text || (String.length (PyStr.strip text) =? 0)).
  - now eexists _, _.
  - unfold try_except, bind, lift, ret, print, any_exception.
    destruct (flesch_reading_ease text); now eexists _, _.
Qed.

(** C2. For every text, [calculate_readability_score] returns (it never
    raises) a number of [0, 100]; on an empty or white-space-only text the
    number is 0 and nothing else happens; when [textstat] raises, the
    exception is caught and the number is 0. *)
Theorem calculate_readability_score_bounded (text : string) (w : World) :
  exists q w',
    calculate_readability_score flesch_reading_ease text w = (Ok (Fin q), w')
    /\ (0 <= q)%Q /\ (q <= 100)%Q
    /\ (PyStr.whitespace_only text = true -> q = 0%Q /\ w' = w)
    /\ (forall e, flesch_reading_ease text = Raise e -> q = 0%Q).
Proof using Type.
  unfold calculate_readability_score.
  destruct (PyStr.whitespace_only text) eqn:Hws.
  - rewrite (strip_whitespace_only text Hws). simpl. rewrite orb_true_r.
    exists 0%Q, w. unfold ret.
    repeat split; try discriminate; apply Qle_refl.
  - destruct (PyStr.is_empty text || (String.length (PyStr.strip text) =? 0)) eqn:Hg.
    + exists 0%Q, w. unfold ret. repeat split; try discriminate; apply Qle_refl.
    + unfold try_except, bind, lift, ret, print, any_exception.
      destruct (flesch_reading_ease text) as [score|e] eqn:Hf.
      * destruct (clamp_range score) as (q & Hq & Hlo & Hhi).
        exists q, w. rewrite Hq.
        repeat split; try assumption; try discriminate.
      * eexists 0%Q, _. repeat split; try discriminate; apply Qle_refl.
Qed.
End ReadabilityFacts.

(** C2 on a text of three spaces. *)
Lemma calculate_readability_score_witness :
  exists q w',
    Readability.calculate_readability_score Stub.failing_score "   " empty_world
    = (Ok (Readability.Fin q), w')
    /\ q = 0%Q /\ w' = empty_world.
Proof.
  destruct (calculate_readability_score_bounded Stub.failing_score "   " empty_world)
    as (q & w' & H & _ & _ & Hws & _).
  exists q, w'. split; [exact H | apply Hws; reflexivity].
Defined.

(** ** document_processing.py *)

Lemma append_nil_r (s : string) : s ++ "" = s.
Proof. induction s as [|c r IH]; simpl; [reflexivity | now rewrite IH]. Qed.

Lemma append_assoc (a b c : string) : (a ++ b) ++ c = a ++ (b ++ c).
Proof. induction a as [|x r IH]; simpl; [reflexivity | now rewrite IH]. Qed.

Section DocumentProcessingFacts.
Import DocumentProcessing.
Variable pdfplumber_open : bytes -> Result (list PdfPage).
Variable docx_paragraphs : bytes -> Result (list string).
Variable image_to_string : bytes -> Result string.
Variable decode_utf8 : bytes -> Result string.

(** The entry of [page_info] that a page gives rise to. *)
Let record_of (p : PdfPage) : PageRecord :=
  mkPageRecord (text_of_page p) (find_headers (text_of_page p)).

Lemma keys_of_combine (pages : list PdfPage) :
  forall i, map fst (combine (seq i (List.length pages)) (map record_of pages))
            = seq i (List.length pages).
Proof using Type.
  induction pages as [|p r IH]; intros i; simpl; [reflexivity|].
  now rewrite IH.
Qed.

Lemma get_of_combine (pages : list PdfPage) :
  forall i j p,
    nth_error pages j = Some p ->
    dict_get Nat.eqb (i + j)
      (combine (seq i (List.length pages)) (map record_of pages))
    = Some (record_of p).
Proof using Type.
  induction pages as [|p0 r IH]; intros i j p H.
  - destruct j; discriminate.
  - destruct j as [|j']; simpl in *.
    + injection H as ->. now rewrite Nat.add_0_r, Nat.eqb_refl.
    + replace (i =? i + S j') with false
        by (symmetry; apply Nat.eqb_neq; lia).
      replace (i + S j') with (S i + j') by lia.
      now apply IH.
Qed.

(** The loop appends, to the text and to the dictionary, what the pages
    still to visit contribute, numbered from [i] on. *)
Lemma pdf_pages_loop_spec (pages : list PdfPage) :
  forall i text info,
    (forall k, In k (map fst info) -> k < i) ->
    pdf_pages_loop i pages text info
    = (text ++ fold_right (fun p acc => text_of_page p ++ PyStr.nl ++ PyStr.nl ++ acc)
                 "" pages,
       (info ++ combine (seq i (List.length pages)) (map record_of pages))%list).
Proof using Type.
  induction pages as [|p r IH]; intros i text info Hlt; simpl.
  - now rewrite append_nil_r, app_nil_r.
  - rewrite (dict_set_fresh Nat.eqb).
    + rewrite IH.
      * rewrite <- app_assoc. simpl. f_equal.
        rewrite !append_assoc. reflexivity.
      * intros k Hk. rewrite map_app, in_app_iff in Hk. simpl in Hk.
        destruct Hk as [Hk|[<-|[]]]; [apply Hlt in Hk|]; lia.
    + apply (dict_has_false_iff Nat.eqb Nat.eqb_eq).
      intros Hin. apply Hlt in Hin. lia.
Qed.

(** C7. For a PDF that opens with pages p1..pn, [extract_text_from_pdf]
    returns the texts of the pages in order, each followed by two
    newlines, and a dictionary whose keys are 1..n in this order, key i
    holding the text of page i and the headers found in it.  The text of
    a page is what [page.extract_text()] gave, and the empty string when
    it gave nothing. *)
Theorem extract_text_from_pdf_pages (content : bytes) (pages : list PdfPage)
    (w : World) :
  pdfplumber_open content = Ok pages ->
  exists text info,
    extract_text_from_pdf pdfplumber_open content w = (Ok (text, info), w)
    /\ text = fold_right (fun p acc => text_of_page p ++ PyStr.nl ++ PyStr.nl ++ acc)
                "" pages
    /\ map fst info = seq 1 (List.length pages)
    /\ (forall i p, nth_error pages i = Some p ->
          dict_get Nat.eqb (S i) info
          = Some (mkPageRecord (text_of_page p) (find_headers (text_of_page p))))
    /\ (forall p, extract_text_result p = None -> text_of_page p = "")
    /\ (forall p t, extract_text_result p = Some t -> text_of_page p = t).
Proof using Type.
  intros Hopen.
  unfold extract_text_from_pdf, bind, lift, ret. rewrite Hopen.
  rewrite (pdf_pages_loop_spec pages 1 "" []) by (intros k []).
  simpl. eexists _, _. split; [reflexivity|].
  split; [reflexivity|]. split; [apply keys_of_combine|]. split; [|split].
  - intros i p H. apply (get_of_combine pages 1 i p H).
  - intros p H. unfold text_of_page. now rewrite H.
  - intros p t H. unfold text_of_page. now rewrite H.
Qed.

(** C6 (amended). The headers of a page are the stripped forms of exactly
    those of its first five lines whose stripped length is below 50 and
    that hold an upper-case word or are upper-case as a whole; a page may
    have none. *)
Theorem find_headers_spec (page_text h : string) :
  (In h (find_headers page_text) <->
   exists line,
     In line (firstn 5 (PyStr.split PyStr.nl page_text))
     /\ h = PyStr.strip line
     /\ String.length (PyStr.strip line) < 50
     /\ (existsb PyStr.isupper (PyStr.split_ws line) = true
         \/ PyStr.isupper line = true))
  /\ find_headers "" = [].
Proof using Type.
  split; [|reflexivity].
  unfold find_headers. rewrite in_map_iff. split.
  - intros [line [Hh Hin]]. apply filter_In in Hin as [Hin Hp].
    unfold is_header in Hp. apply andb_true_iff in Hp as [Hlen Hup].
    exists line. repeat split; try assumption.
    + now symmetry.
    + now apply Nat.ltb_lt.
    + now apply orb_true_iff.
  - intros [line (Hin & Hh & Hlen & Hup)].
    exists line. split; [now symmetry|]. apply filter_In. split; [exact Hin|].
    unfold is_header. apply andb_true_iff. split.
    + now apply Nat.ltb_lt.
    + now apply orb_true_iff.
Qed.

(** C4. A file whose declared media type is none of those accepted makes
    [extract_text] raise [ValueError("Unsupported file type: ...")]: no
    text and no metadata come back, and the only effect is the error
    message shown. *)
Theorem extract_text_unsupported (f : UploadedFile) (w : World) :
  supported (uf_type f) = false ->
  extract_text pdfplumber_open docx_paragraphs image_to_string decode_utf8 f w
  = (Raise (mkExn "ValueError" ("Unsupported file type: " ++ uf_type f)),
     shown StError ("Error extracting text: Unsupported file type: " ++ uf_type f) w).
Proof using Type.
  unfold supported, supported_media_types. simpl.
  intros H. repeat (apply orb_false_iff in H as [? H]).
  unfold extract_text, try_except. simpl.
  repeat match goal with E : (_ =? _)%string = false |- _ => rewrite E; clear E end.
  reflexivity.
Qed.
End DocumentProcessingFacts.

(** C4 on a file declared as application/zip. *)
Lemma extract_text_unsupported_witness :
  fst (DocumentProcessing.extract_text Stub.two_page_pdf Stub.no_paragraphs
         Stub.blank_image Stub.ascii_text
         (DocumentProcessing.mkUploadedFile "application/zip" "policy.zip" [])
         empty_world)
  = Raise (mkExn "ValueError" "Unsupported file type: application/zip").
Proof.
  rewrite (extract_text_unsupported Stub.two_page_pdf Stub.no_paragraphs
             Stub.blank_image Stub.ascii_text
             (DocumentProcessing.mkUploadedFile "application/zip" "policy.zip" [])
             empty_world eq_refl).
  reflexivity.
Defined.

(** C7 on a PDF of two pages, the second without text. *)
Lemma extract_text_from_pdf_pages_witness :
  exists text info,
    DocumentProcessing.extract_text_from_pdf Stub.two_page_pdf [] empty_world
    = (Ok (text, info), empty_world)
    /\ text = "POLICY DECLARATIONS" ++ PyStr.nl ++ "Named insured: A. Driver"
              ++ PyStr.nl ++ PyStr.nl ++ PyStr.nl ++ PyStr.nl
    /\ map fst info = [1; 2]
    /\ dict_get Nat.eqb 1 info
       = Some (DocumentProcessing.mkPageRecord
                 ("POLICY DECLARATIONS" ++ PyStr.nl ++ "Named insured: A. Driver")
                 ["POLICY DECLARATIONS"; "Named insured: A. Driver"])
    /\ dict_get Nat.eqb 2 info = Some (DocumentProcessing.mkPageRecord "" []).
Proof.
  destruct (extract_text_from_pdf_pages Stub.two_page_pdf [] _ empty_world eq_refl)
    as (text & info & H & Ht & Hk & Hget & Hnone & Hsome).
  exists text, info. split; [exact H|].
  split; [rewrite Ht; reflexivity|].
  split; [exact Hk|]. split.
  - rewrite (Hget 0 _ eq_refl). reflexivity.
  - rewrite (Hget 1 _ eq_refl). reflexivity.
Defined.

(** C6, as the claim has it: a line of fifty characters, all capitals, is
    among the first five lines and within the claimed bound of 50, and yet
    is not listed. *)
Lemma header_of_fifty_characters_not_listed :
  In Stub.fifty_caps (firstn 5 (PyStr.split PyStr.nl Stub.fifty_caps))
  /\ String.length (PyStr.strip Stub.fifty_caps) <= 50
  /\ PyStr.isupper Stub.fifty_caps = true
  /\ DocumentProcessing.find_headers Stub.fifty_caps = [].
Proof.
  split; [left; reflexivity|].
  split; [vm_compute; apply le_n|].
  split; reflexivity.
Qed.

(** ** Quotes and backslashes in a JSON text *)
Section QuoteFacts.
Import PyJson GeminiIntegration.

Lemma double_backslashes_spec (s : string) :
  double_backslashes s = each_backslash_twice s.
Proof.
  unfold double_backslashes, PyStr.replace, PyStr.replace_codes.
  change (PyStr.codes PyStr.backslash) with [92%N].
  induction s as [|c r IH]; [reflexivity|].
  cbn [PyStr.replace_from PyStr.startswith_codes each_backslash_twice List.length Nat.sub].
  rewrite andb_true_r.
  destruct (PyStr.code c =? 92)%N eqn:E.
  - apply N.eqb_eq in E. unfold PyStr.code in E.
    assert (c = ascii_of_N 92) as -> by (rewrite <- E; symmetry; apply ascii_N_embedding).
    rewrite IH. reflexivity.
  - rewrite IH. reflexivity.
Qed.

Lemma quote_is_no_backslash (c : ascii) :
  (PyStr.code c =? 34)%N = true -> (PyStr.code c =? 92)%N = false.
Proof.
  intros H. apply N.eqb_eq in H. rewrite H. reflexivity.
Qed.

(** Once a quote too many has been read, the doubled text cannot end
    outside the strings. *)
Lemma doubled_out_of_step (t : string) :
  (place_after Inside t = Some Outside ->
   place_after Outside (each_backslash_twice t) <> Some Outside)
  /\ (place_after Outside t = Some Outside ->
      place_after Inside (each_backslash_twice t) <> Some Outside).
Proof.
  induction t as [|c r [IHin IHout]]; [split; discriminate|].
  cbn [place_after each_backslash_twice].
  destruct (PyStr.code c =? 34)%N eqn:Hq.
  - rewrite (quote_is_no_backslash c Hq). cbn [place_after]. rewrite Hq.
    split; assumption.
  - destruct (PyStr.code c =? 92)%N eqn:Hb; cbn [place_after]; rewrite Hq, Hb.
    + split; discriminate.
    + split; assumption.
Qed.

(** A text that is well delimited and escapes a quote is no longer well
    delimited once its backslashes are doubled. *)
Lemma doubled_escaped_quote (t : string) :
  (place_after Outside t = Some Outside ->
   escapes_a_quote Outside t = true ->
   place_after Outside (each_backslash_twice t) <> Some Outside)
  /\ (place_after Inside t = Some Outside ->
      escapes_a_quote Inside t = true ->
      place_after Inside (each_backslash_twice t) <> Some Outside)
  /\ (place_after Escaped t = Some Outside ->
      escapes_a_quote Escaped t = true ->
      place_after Inside (each_backslash_twice t) <> Some Outside).
Proof.
  induction t as [|c r (IHout & IHin & IHesc)]; [repeat split; discriminate|].
  cbn [place_after escapes_a_quote each_backslash_twice].
  destruct (PyStr.code c =? 34)%N eqn:Hq.
  - rewrite (quote_is_no_backslash c Hq). cbn [place_after orb]. rewrite Hq.
    split; [exact IHin|]. split; [exact IHout|].
    intros H _. now apply (doubled_out_of_step r).
  - destruct (PyStr.code c =? 92)%N eqn:Hb; cbn [place_after orb]; rewrite Hq, Hb.
    + split; [discriminate|]. cbn [place_after]. split; [exact IHesc | exact IHin].
    + split; [exact IHout|]. split; exact IHin.
Qed.

Lemma escaped_quote_breaks_doubled_text (payload : string) :
  well_delimited payload ->
  escapes_a_quote Outside payload = true ->
  ~ well_delimited (double_backslashes payload).
Proof.
  unfold well_delimited. intros Hwell Hquote.
  rewrite double_backslashes_spec. now apply (doubled_escaped_quote payload).
Qed.

(** *** The decoder accepts well-delimited texts only *)

Lemma place_plain_out (c : ascii) (r : string) :
  PyStr.code c <> 34%N -> PyStr.code c <> 92%N ->
  place_after Outside (String c r) = place_after Outside r.
Proof.
  intros Hq Hb. apply N.eqb_neq in Hq, Hb. cbn [place_after].
  now rewrite Hq, Hb.
Qed.

Lemma place_plain_in (c : ascii) (r : string) :
  PyStr.code c <> 34%N -> PyStr.code c <> 92%N ->
  place_after Inside (String c r) = place_after Inside r.
Proof.
  intros Hq Hb. apply N.eqb_neq in Hq, Hb. cbn [place_after].
  now rewrite Hq, Hb.
Qed.

Ltac code_facts :=
  try unfold is_ws in *; try unfold is_digit in *;
  try unfold PyStr.between in *; cbv zeta in *;
  repeat match goal with
         | H : (_ && _) = true |- _ => apply andb_true_iff in H; destruct H
         | H : (_ || _) = true |- _ => apply orb_true_iff in H; destruct H
         | H : (_ =? _)%N = true |- _ => apply N.eqb_eq in H
         | H : (_ =? _)%N = false |- _ => apply N.eqb_neq in H
         | H : (_ <=? _)%N = true |- _ => apply N.leb_le in H
         | H : (_ <? _)%N = true |- _ => apply N.ltb_lt in H
         end.

(** A character that is neither a quote nor a backslash is passed over. *)
Ltac pass_plain :=
  match goal with
  | |- context [place_after Outside (String ?c ?r)] =>
      rewrite (place_plain_out c r) by (code_facts; lia)
  | |- context [place_after Inside (String ?c ?r)] =>
      rewrite (place_plain_in c r) by (code_facts; lia)
  end.

Lemma place_skip_ws (s : string) :
  place_after Outside (skip_ws s) = place_after Outside s.
Proof.
  induction s as [|c r IH]; [reflexivity|]. cbn [skip_ws].
  destruct (is_ws c) eqn:Hws; [|reflexivity].
  rewrite IH. symmetry. now pass_plain.
Qed.

Lemma hex_digit_plain (c : ascii) (v : N) :
  hex_value c = Some v -> PyStr.code c <> 34%N /\ PyStr.code c <> 92%N.
Proof.
  unfold hex_value.
  destruct (PyStr.between 48 57 (PyStr.code c)) eqn:H1;
    [intros _; code_facts; lia|].
  destruct (PyStr.between 97 102 (PyStr.code c)) eqn:H2;
    [intros _; code_facts; lia|].
  destruct (PyStr.between 65 70 (PyStr.code c)) eqn:H3;
    [intros _; code_facts; lia | discriminate].
Qed.

Lemma place_scanstring (n : nat) :
  forall s acc k rest,
    String.length s <= n ->
    scanstring acc s = Some (k, rest) ->
    place_after Inside s = place_after Outside rest.
Proof.
  induction n as [|n IH]; intros s acc k rest Hn H.
  - destruct s; [discriminate | cbn in Hn; lia].
  - destruct s as [|c r]; [discriminate|].
    cbn [scanstring] in H. cbn [String.length] in Hn. cbn [place_after].
    destruct (PyStr.code c =? 34)%N.
    { now injection H as _ <-. }
    destruct (PyStr.code c =? 92)%N.
    { destruct r as [|e r1]; [discriminate|]. cbn [String.length] in Hn.
      cbn [place_after].
      destruct (PyStr.code e =? 117)%N.
      - destruct r1 as [|h1 [|h2 [|h3 [|h4 r2]]]]; try discriminate.
        cbn [String.length] in Hn.
        destruct (hex4 h1 h2 h3 h4) as [v|] eqn:Hhex; [|discriminate].
        destruct (v <? 256)%N; [|discriminate].
        unfold hex4 in Hhex.
        destruct (hex_value h1) eqn:E1; [|discriminate].
        destruct (hex_value h2) eqn:E2; [|discriminate].
        destruct (hex_value h3) eqn:E3; [|discriminate].
        destruct (hex_value h4) eqn:E4; [|discriminate].
        apply hex_digit_plain in E1, E2, E3, E4.
        rewrite (place_plain_in h1 _) by tauto.
        rewrite (place_plain_in h2 _) by tauto.
        rewrite (place_plain_in h3 _) by tauto.
        rewrite (place_plain_in h4 _) by tauto.
        apply IH in H; [exact H | lia].
      - destruct (simple_escape e); [|discriminate].
        apply IH in H; [exact H | lia]. }
    destruct (PyStr.code c <? 32)%N; [discriminate|].
    apply IH in H; [exact H | lia].
Qed.

Lemma place_take_digits (s : string) :
  place_after Outside (snd (take_digits s)) = place_after Outside s.
Proof.
  induction s as [|c r IH]; [reflexivity|]. cbn [take_digits].
  destruct (is_digit c) eqn:Hd; [|reflexivity].
  destruct (take_digits r) as [ds rest]. cbn [snd] in *.
  rewrite IH. symmetry. now pass_plain.
Qed.

Lemma place_int_part (s ip rest : string) :
  int_part s = Some (ip, rest) ->
  place_after Outside rest = place_after Outside s.
Proof.
  unfold int_part. destruct s as [|c r]; [discriminate|].
  destruct (PyStr.code c =? 48)%N eqn:H0.
  - intros H. injection H as _ <-. symmetry. now pass_plain.
  - destruct (is_digit c) eqn:Hd; [|discriminate].
    pose proof (place_take_digits r) as Hr.
    destruct (take_digits r) as [ds rest']. intros H. injection H as _ <-.
    cbn [snd] in Hr. rewrite Hr. symmetry. now pass_plain.
Qed.

Lemma place_frac_part (s fp rest : string) :
  frac_part s = Some (fp, rest) ->
  place_after Outside rest = place_after Outside s.
Proof.
  unfold frac_part. destruct s as [|dot [|d r]]; try discriminate.
  destruct ((PyStr.code dot =? 46)%N && is_digit d) eqn:Hd; [|discriminate].
  pose proof (place_take_digits r) as Hr.
  destruct (take_digits r) as [ds rest']. intros H. injection H as _ <-.
  cbn [snd] in Hr. rewrite Hr. symmetry.
  apply andb_true_iff in Hd as [Hdot Hd].
  now do 2 pass_plain.
Qed.

Lemma place_exp_digits (mark s ep rest : string) :
  exp_digits mark s = Some (ep, rest) ->
  place_after Outside rest = place_after Outside s.
Proof.
  unfold exp_digits. destruct s as [|d r]; [discriminate|].
  destruct (is_digit d) eqn:Hd; [|discriminate].
  pose proof (place_take_digits r) as Hr.
  destruct (take_digits r) as [ds rest']. intros H. injection H as _ <-.
  cbn [snd] in Hr. rewrite Hr. symmetry. now pass_plain.
Qed.

Lemma place_exp_part (s ep rest : string) :
  exp_part s = Some (ep, rest) ->
  place_after Outside rest = place_after Outside s.
Proof.
  unfold exp_part. destruct s as [|e r]; [discriminate|].
  destruct ((PyStr.code e =? 101) || (PyStr.code e =? 69))%N eqn:He; [|discriminate].
  destruct r as [|sg r']; [discriminate|].
  destruct ((PyStr.code sg =? 43) || (PyStr.code sg =? 45))%N eqn:Hsg; intros H;
    apply place_exp_digits in H; rewrite H; symmetry.
  - now do 2 pass_plain.
  - now pass_plain.
Qed.

Lemma place_match_number (s : string) (v : pyval) (rest : string) :
  match_number s = Some (v, rest) ->
  place_after Outside rest = place_after Outside s.
Proof.
  unfold match_number.
  set (cut := match s with
              | String c r => if (PyStr.code c =? 45)%N then ("-", r) else ("", s)
              | EmptyString => ("", s)
              end).
  assert (Hcut : place_after Outside (snd cut) = place_after Outside s).
  { subst cut. destruct s as [|c r]; [reflexivity|].
    destruct (PyStr.code c =? 45)%N eqn:Hm; [|reflexivity].
    cbn [snd]. symmetry. now pass_plain. }
  destruct cut as [sign s1]. cbn [snd] in Hcut. rewrite <- Hcut.
  destruct (int_part s1) as [[ip s2]|] eqn:Hi; [|discriminate].
  apply place_int_part in Hi. rewrite <- Hi.
  destruct (frac_part s2) as [[fp s3]|] eqn:Hf.
  - apply place_frac_part in Hf. rewrite <- Hf.
    destruct (exp_part s3) as [[ep s4]|] eqn:He.
    + apply place_exp_part in He.
      destruct (PyStr.is_empty fp && PyStr.is_empty ep); intros H;
        injection H as _ <-; exact He.
    + destruct (PyStr.is_empty fp && PyStr.is_empty ""); intros H;
        now injection H as _ <-.
  - destruct (exp_part s2) as [[ep s4]|] eqn:He.
    + apply place_exp_part in He.
      destruct (PyStr.is_empty "" && PyStr.is_empty ep); intros H;
        injection H as _ <-; exact He.
    + destruct (PyStr.is_empty "" && PyStr.is_empty ""); intros H;
        now injection H as _ <-.
Qed.

Lemma substring_whole (m : nat) :
  forall t, String.length t <= m -> String.substring 0 m t = t.
Proof.
  induction m as [|m IH]; intros [|c r] Hl; cbn in *; try reflexivity; try lia.
  rewrite IH by lia. reflexivity.
Qed.

Lemma substring_longer (k : nat) :
  forall m t,
    String.length t <= k + m ->
    String.substring k (S m) t = String.substring k m t.
Proof.
  induction k as [|k IH]; intros m t Hl.
  - rewrite !substring_whole by (cbn in Hl; lia). reflexivity.
  - destruct t as [|c r]; [reflexivity|]. cbn in *. apply IH. lia.
Qed.

(** The text after a prefix without quote and backslash. *)
Lemma place_after_prefix (lit : string) :
  forall s,
    PyStr.without (ascii_of_nat 34) lit = true ->
    PyStr.without (ascii_of_nat 92) lit = true ->
    PyStr.startswith s lit = true ->
    place_after Outside (String.substring (String.length lit) (String.length s) s)
    = place_after Outside s.
Proof.
  induction lit as [|a lit' IH]; intros s Hq Hb Hs.
  - cbn [String.length]. now rewrite substring_whole.
  - destruct s as [|b s']; [discriminate|].
    cbn [PyStr.startswith PyStr.without] in *.
    apply andb_true_iff in Hs as [Hab Hs], Hq as [Hqa Hq], Hb as [Hba Hb].
    apply Ascii.eqb_eq in Hab. subst b.
    apply negb_true_iff in Hqa, Hba. apply Ascii.eqb_neq in Hqa, Hba.
    cbn [String.length String.substring].
    rewrite substring_longer by lia.
    rewrite (IH s' Hq Hb Hs). symmetry. apply place_plain_out.
    + intros H. apply Hqa. unfold PyStr.code in H.
      rewrite <- (ascii_N_embedding a), H. reflexivity.
    + intros H. apply Hba. unfold PyStr.code in H.
      rewrite <- (ascii_N_embedding a), H. reflexivity.
Qed.

Lemma place_keyword (lit : string) (v : pyval) (s : string) (v' : pyval)
    (rest : string) :
  PyStr.without (ascii_of_nat 34) lit = true ->
  PyStr.without (ascii_of_nat 92) lit = true ->
  keyword lit v s = Some (v', rest) ->
  place_after Outside rest = place_after Outside s.
Proof.
  unfold keyword. intros Hq Hb.
  destruct (PyStr.startswith s lit) eqn:Hs; [|discriminate].
  intros H. injection H as _ <-. now apply place_after_prefix.
Qed.

Lemma place_constants_and_numbers (s : string) (v : pyval) (rest : string) :
  of_option
    (first_some (keyword "null" VNone s)
    (first_some (keyword "true" (VBool true) s)
    (first_some (keyword "false" (VBool false) s)
    (first_some (match_number s)
    (first_some (keyword "NaN" (VFloat "NaN") s)
    (first_some (keyword "Infinity" (VFloat "Infinity") s)
                (keyword "-Infinity" (VFloat "-Infinity") s)))))))
  = Found v rest ->
  place_after Outside rest = place_after Outside s.
Proof.
  unfold of_option.
  match goal with |- match ?o with _ => _ end = _ -> _ => destruct o as [[v0 r0]|] eqn:E end;
    [|discriminate].
  intros H. injection H as -> ->.
  repeat (apply first_some_inv in E as [E|E]);
    first [ now apply place_match_number in E
          | apply place_keyword in E; [exact E | reflexivity | reflexivity] ].
Qed.

Ltac no_scan := intros; discriminate.

(** A value found leaves the text where it began: outside the strings. *)
Lemma place_scan (fuel : nat) :
  forall s,
    (forall v rest, scan_once fuel s = Found v rest ->
                    place_after Outside rest = place_after Outside s)
    /\ (forall pairs v rest, object_members fuel pairs s = Found v rest ->
                             place_after Outside rest = place_after Inside s)
    /\ (forall values v rest, array_items fuel values s = Found v rest ->
                              place_after Outside rest = place_after Outside s).
Proof.
  induction fuel as [|f IH]; intros s.
  { repeat split; no_scan. }
  split; [|split].
  - (* scan_once *)
    cbn [scan_once]. destruct s as [|c r]; [no_scan|].
    destruct (PyStr.code c =? 34)%N eqn:Hc.
    { destruct (scanstring "" r) as [[str rest0]|] eqn:Hstr; [|no_scan].
      apply (place_scanstring (String.length r)) in Hstr; [|lia].
      intros v rest H. injection H as _ <-.
      cbn [place_after]. rewrite Hc. now symmetry. }
    destruct (PyStr.code c =? 123)%N eqn:Hobj.
    { pass_plain. rewrite <- (place_skip_ws r).
      destruct (skip_ws r) as [|q r'] eqn:Hs; [no_scan|].
      destruct (PyStr.code q =? 125)%N eqn:Hq.
      { intros v rest H. injection H as _ <-. symmetry. now pass_plain. }
      destruct (PyStr.code q =? 34)%N eqn:Hq2; [|no_scan].
      destruct (IH r') as (_ & Hmem & _).
      intros v rest H. apply Hmem in H. rewrite H.
      cbn [place_after]. now rewrite Hq2. }
    destruct (PyStr.code c =? 91)%N eqn:Harr.
    { pass_plain. rewrite <- (place_skip_ws r).
      destruct (skip_ws r) as [|q r'] eqn:Hs; [no_scan|].
      destruct (PyStr.code q =? 93)%N eqn:Hq.
      { intros v rest H. injection H as _ <-. symmetry. now pass_plain. }
      destruct (IH (String q r')) as (_ & _ & Hitems).
      intros v rest H. now apply Hitems in H. }
    intros v rest H. now apply place_constants_and_numbers in H.
  - (* object_members *)
    intros pairs. cbn [object_members].
    destruct (scanstring "" s) as [[key s1]|] eqn:Hkey; [|no_scan].
    apply (place_scanstring (String.length s)) in Hkey; [|lia].
    rewrite Hkey, <- (place_skip_ws s1).
    destruct (skip_ws s1) as [|colon s2] eqn:Hs1; [no_scan|].
    destruct (PyStr.code colon =? 58)%N eqn:Hcolon; [|no_scan].
    pass_plain. rewrite <- (place_skip_ws s2).
    destruct (IH (skip_ws s2)) as (Hvalue & _ & _).
    destruct (scan_once f (skip_ws s2)) as [v s3| |] eqn:Hv; [|no_scan|no_scan].
    rewrite <- (Hvalue v s3 eq_refl), <- (place_skip_ws s3).
    destruct (skip_ws s3) as [|d s4] eqn:Hs3; [no_scan|].
    destruct (PyStr.code d =? 125)%N eqn:Hd.
    { intros v0 rest H. injection H as _ <-. symmetry. now pass_plain. }
    destruct (PyStr.code d =? 44)%N eqn:Hd2; [|no_scan].
    pass_plain. rewrite <- (place_skip_ws s4).
    destruct (skip_ws s4) as [|q s5] eqn:Hs4; [no_scan|].
    destruct (PyStr.code q =? 34)%N eqn:Hq; [|no_scan].
    destruct (IH s5) as (_ & Hmem & _).
    intros v0 rest H. apply Hmem in H. rewrite H.
    cbn [place_after]. now rewrite Hq.
  - (* array_items *)
    intros values. cbn [array_items].
    destruct (IH s) as (Hvalue & _ & _).
    destruct (scan_once f s) as [v s1| |] eqn:Hv; [|no_scan|no_scan].
    rewrite <- (Hvalue v s1 eq_refl), <- (place_skip_ws s1).
    destruct (skip_ws s1) as [|d s2] eqn:Hs1; [no_scan|].
    destruct (PyStr.code d =? 93)%N eqn:Hd.
    { intros v0 rest H. injection H as _ <-. symmetry. now pass_plain. }
    destruct (PyStr.code d =? 44)%N eqn:Hd2; [|no_scan].
    pass_plain. rewrite <- (place_skip_ws s2).
    destruct (IH (skip_ws s2)) as (_ & _ & Hitems).
    intros v0 rest H. now apply Hitems in H.
Qed.

(** Every text that [PyJson.loads] accepts has its strings closed and no
    backslash outside them. *)
Lemma loads_well_delimited (s : string) (v : pyval) :
  loads s = Ok v -> well_delimited s.
Proof.
  unfold loads, well_delimited. rewrite <- (place_skip_ws s).
  destruct (place_scan (S (2 * String.length s)) (skip_ws s)) as (Hvalue & _).
  destruct (scan_once (S (2 * String.length s)) (skip_ws s)) as [x rest| |];
    [|discriminate|discriminate].
  rewrite <- (Hvalue x rest eq_refl), <- (place_skip_ws rest).
  destruct (skip_ws rest); [reflexivity | discriminate].
Qed.
End QuoteFacts.

(** ** gemini_integration.py *)

Section GeminiFacts.
Import DocumentProcessing GeminiIntegration.
Variable API_KEY : option string.
Variable gemini : list string -> string -> Result string.
Variable json_loads : string -> Result pyval.

Lemma setup_gemini_without_key (w : World) :
  has_key API_KEY = false ->
  setup_gemini API_KEY w
  = (Ok false,
     shown StError
       "Gemini API key not found. Please set the GEMINI_API_KEY environment variable." w).
Proof using Type.
  intros H. unfold setup_gemini. rewrite H. reflexivity.
Qed.

Lemma setup_gemini_with_key (w : World) :
  has_key API_KEY = true -> setup_gemini API_KEY w = (Ok true, w).
Proof using Type.
  intros H. unfold setup_gemini. rewrite H. reflexivity.
Qed.

Lemma generate_summary_returns (text : string) (di : option DocumentInfo)
    (pref : string) (w : World) :
  exists v w', generate_summary API_KEY gemini json_loads text di pref w = (Ok v, w').
Proof using Type.
  unfold generate_summary, bind.
  destruct (has_key API_KEY) eqn:Hkey.
  - rewrite (setup_gemini_with_key w Hkey). cbn [negb]. unfold try_except.
    destruct (generate_summary_body gemini json_loads text di pref w) as [[v|e] w1];
      eexists _, _; reflexivity.
  - rewrite (setup_gemini_without_key w Hkey). eexists _, _; reflexivity.
Qed.

Lemma answer_question_returns (question text : string) (di : option DocumentInfo)
    (pref : string) (w : World) :
  exists a w', answer_question API_KEY gemini question text di pref w = (Ok a, w').
Proof using Type.
  unfold answer_question, bind.
  destruct (has_key API_KEY) eqn:Hkey.
  - rewrite (setup_gemini_with_key w Hkey). cbn [negb]. unfold try_except.
    destruct (answer_question_body gemini question text di pref w) as [[a|e] w1];
      eexists _, _; reflexivity.
  - rewrite (setup_gemini_without_key w Hkey). eexists _, _; reflexivity.
Qed.



(** *** Back-filling *)

Lemma backfill_dict (keys : list string) :
  forall d, backfill keys (VDict d) = Ok (VDict (add_missing keys d)).
Proof using Type.
  induction keys as [|k r IH]; intros d; simpl; [reflexivity|].
  destruct (dict_has String.eqb k d); apply IH.
Qed.

Lemma has_after_set (j k : string) (v : pyval) (d : list (string * pyval)) :
  dict_has String.eqb j (dict_set String.eqb k v d) = true
  <-> j = k \/ dict_has String.eqb j d = true.
Proof using Type.
  rewrite !(dict_has_true_iff String.eqb String.eqb_eq).
  apply (dict_keys_set String.eqb String.eqb_eq).
Qed.

Lemma add_missing_keeps_keys (keys : list string) :
  forall d k, dict_has String.eqb k d = true ->
              dict_has String.eqb k (add_missing keys d) = true.
Proof using Type.
  induction keys as [|k0 r IH]; intros d k H; simpl; [exact H|].
  destruct (dict_has String.eqb k0 d); apply IH; [exact H|].
  apply has_after_set. now right.
Qed.

Lemma add_missing_has_all (keys : list string) :
  forall d k, In k keys -> dict_has String.eqb k (add_missing keys d) = true.
Proof using Type.
  induction keys as [|k0 r IH]; intros d k Hin; simpl; [destruct Hin|].
  destruct Hin as [->|Hin].
  - destruct (dict_has String.eqb k d) eqn:E.
    + now apply add_missing_keeps_keys.
    + apply add_missing_keeps_keys, has_after_set. now left.
  - destruct (dict_has String.eqb k0 d); now apply IH.
Qed.

Lemma add_missing_keeps_values (keys : list string) :
  forall d k, dict_has String.eqb k d = true ->
              dict_get String.eqb k (add_missing keys d) = dict_get String.eqb k d.
Proof using Type.
  induction keys as [|k0 r IH]; intros d k H; simpl; [reflexivity|].
  destruct (dict_has String.eqb k0 d) eqn:E; [now apply IH|].
  assert (k <> k0) by (intros ->; congruence).
  rewrite IH by (apply has_after_set; now right).
  now apply (dict_get_set_other String.eqb String.eqb_eq).
Qed.

Lemma add_missing_fills (keys : list string) :
  forall d k, In k keys -> dict_has String.eqb k d = false ->
              dict_get String.eqb k (add_missing keys d) = Some (VList []).
Proof using Type.
  induction keys as [|k0 r IH]; intros d k Hin Hno; simpl; [destruct Hin|].
  destruct (string_dec k k0) as [->|Hne].
  - rewrite Hno.
    rewrite add_missing_keeps_values by (apply has_after_set; now left).
    apply (dict_get_set_same String.eqb String.eqb_eq).
  - destruct Hin as [E|Hin]; [congruence|].
    destruct (dict_has String.eqb k0 d); apply IH; try assumption.
    destruct (dict_has String.eqb k (dict_set String.eqb k0 (VList []) d)) eqn:E;
      [|reflexivity].
    apply has_after_set in E as [E|E]; congruence.
Qed.

Lemma add_missing_adds_only_keys (keys : list string) :
  forall d k, dict_has String.eqb k (add_missing keys d) = true ->
              dict_has String.eqb k d = true \/ In k keys.
Proof using Type.
  induction keys as [|k0 r IH]; intros d k H; simpl in *; [now left|].
  destruct (dict_has String.eqb k0 d).
  - apply IH in H as [H|H]; auto.
  - apply IH in H as [H|H]; auto.
    apply has_after_set in H as [H|H]; auto.
Qed.

Lemma add_missing_backfilled (d : list (string * pyval)) :
  backfilled d (add_missing expected_keys d).
Proof using Type.
  repeat split.
  - intros k. apply add_missing_has_all.
  - intros k. apply add_missing_keeps_values.
  - intros k. apply add_missing_fills.
  - intros k. apply add_missing_adds_only_keys.
Qed.

Lemma degraded_is_summary_record (message : string) :
  is_summary_record (degraded_summary message) = true.
Proof using Type. reflexivity. Qed.

Lemma backfill_degraded (message : string) :
  backfill expected_keys (degraded_summary message) = Ok (degraded_summary message).
Proof using Type. reflexivity. Qed.

(** The result once the summary request has been answered: it follows from
    what [json.loads] makes of the payload, its backslashes doubled. *)
Lemma summary_from_response (text : string) (di : option DocumentInfo)
    (pref : string) (w : World) (answer response payload : string) :
  has_key API_KEY = true ->
  gemini (model_calls w) (verification_prompt text) = Ok answer ->
  affirmative answer = true ->
  gemini (model_calls w ++ [verification_prompt text])
    (summary_prompt text (build_reference_info di) (summary_readability_target pref)
       (if (pref =? easy)%string
        then "elementary school student" else "high school student"))
  = Ok response ->
  extract_json_content response = Ok payload ->
  fst (generate_summary API_KEY gemini json_loads text di pref w)
  = match json_loads (double_backslashes payload) with
    | Raise e =>
        if has_class "JSONDecodeError" e
        then Ok (degraded_summary
                   "Could not generate detailed summary. Please try uploading the document again.")
        else Ok (degraded_summary ("Error generating summary: " ++ exn_msg e))
    | Ok x =>
        match backfill expected_keys x with
        | Ok v => Ok v
        | Raise e => Ok (degraded_summary ("Error generating summary: " ++ exn_msg e))
        end
    end.
Proof using Type.
  intros Hkey Hanswer Hyes Hresponse Hpayload.
  unfold affirmative in Hyes.
  unfold generate_summary, bind.
  rewrite (setup_gemini_with_key w Hkey). cbn [negb].
  unfold try_except, generate_summary_body, bind, generate_content, any_exception.
  rewrite Hanswer, Hyes. cbn [negb]. unfold called at 1. cbn [model_calls].
  rewrite Hresponse. unfold lift, try_except. rewrite Hpayload.
  destruct (json_loads (double_backslashes payload)) as [x|e].
  - destruct (backfill expected_keys x); reflexivity.
  - destruct (has_class "JSONDecodeError" e); reflexivity.
Qed.

Lemma backfill_other (keys : list string) (x : pyval) :
  (forall d, x <> VDict d) ->
  backfill keys x = Ok x \/ exists e, backfill keys x = Raise e.
Proof using Type.
  intros Hx. induction keys as [|key rest IH]; [now left|].
  cbn [backfill].
  destruct (py_in key x) as [[|]|e]; [exact IH | | right; now exists e].
  destruct x; try (right; eexists; reflexivity).
  exfalso. now apply (Hx entries).
Qed.

(** What a call returns, by how far it gets. *)
Lemma generate_summary_cases (text : string) (di : option DocumentInfo)
    (pref : string) (w : World) :
  exists v w',
    generate_summary API_KEY gemini json_loads text di pref w = (Ok v, w')
    /\ ((exists message, v = degraded_summary message)
        \/ exists payload x,
             payload_of_call API_KEY gemini text di pref w payload
             /\ json_loads (double_backslashes payload) = Ok x
             /\ backfill expected_keys x = Ok v).
Proof using Type.
  unfold payload_of_call, affirmative, generate_summary, bind.
  destruct (has_key API_KEY) eqn:Hkey.
  2:{ rewrite (setup_gemini_without_key w Hkey). cbn [negb].
      eexists _, _. split; [reflexivity|]. left. now eexists. }
  rewrite (setup_gemini_with_key w Hkey). cbn [negb].
  unfold try_except, generate_summary_body, bind, generate_content, any_exception.
  destruct (gemini (model_calls w) (verification_prompt text)) as [r1|e1] eqn:H1.
  2:{ eexists _, _. split; [reflexivity|]. left. now eexists. }
  destruct (PyStr.startswith (verification_result_of r1) "yes") eqn:Hyes; cbn [negb].
  2:{ eexists _, _. split; [reflexivity|]. left. now eexists. }
  unfold called at 1. cbn [model_calls].
  match goal with
  | |- context [gemini ?h ?p] => destruct (gemini h p) as [r2|e2] eqn:H2
  end.
  2:{ eexists _, _. split; [reflexivity|]. left. now eexists. }
  unfold lift, try_except.
  destruct (extract_json_content r2) as [payload|e3] eqn:H3.
  2:{ eexists _, _. split; [reflexivity|]. left. now eexists. }
  destruct (json_loads (double_backslashes payload)) as [x|e4] eqn:Hloads.
  - destruct (backfill expected_keys x) as [v|e5] eqn:Hfill.
    + eexists _, _. split; [reflexivity|]. right.
      exists payload, x. split; [|split; assumption].
      split; [reflexivity|]. exists r1, r2. repeat split; assumption.
    + eexists _, _. split; [reflexivity|]. left. now eexists.
  - destruct (has_class "JSONDecodeError" e4).
    + unfold st_message, ret. cbv beta iota. rewrite backfill_degraded.
      eexists _, _. split; [reflexivity|]. left. now eexists.
    + eexists _, _. split; [reflexivity|]. left. now eexists.
Qed.


(** *** The doubling of backslashes *)

End GeminiFacts.







(** ** pdf_export.py *)

Lemma codes_injective (a : string) :
  forall b, PyStr.codes a = PyStr.codes b -> a = b.
Proof.
  unfold PyStr.codes, PyStr.code.
  induction a as [|x a' IH]; intros [|y b'] H; try discriminate; [reflexivity|].
  cbn [list_ascii_of_string map] in H. injection H as Hxy Hrest.
  f_equal; [|now apply IH].
  rewrite <- (ascii_N_embedding x), <- (ascii_N_embedding y). now rewrite Hxy.
Qed.

Lemma latin1_codes (s : string) : PdfExport.latin1 (PyStr.codes s) = true.
Proof.
  unfold PdfExport.latin1, PyStr.codes, PyStr.code.
  induction s as [|c r IH]; [reflexivity|].
  cbn [list_ascii_of_string map forallb]. rewrite IH, andb_true_r.
  apply N.ltb_lt, N_ascii_bounded.
Qed.

Section PdfExportFacts.
Import PdfExport.
Variable generated_on : string.
Variable encode_error_message : list FpdfCall -> string.
Variable serialise : list FpdfCall -> text.

Lemma section_header_in_section (title : string) (sec : string * list text) :
  In (section_header title) (render_section sec)
  <-> title = fst sec /\ snd sec <> [].
Proof using Type.
  destruct sec as [t items]. unfold render_section, section_header.
  destruct items as [|x l]; cbn [fst snd].
  - split; [intros [] | intros [_ H]; congruence].
  - split.
    + intros H. apply in_app_iff in H as [H|H].
      * cbn [In] in H. destruct H as [H|[H|[H|[]]]]; try discriminate.
        injection H as H. apply codes_injective in H. subst t.
        split; [reflexivity | discriminate].
      * apply in_app_iff in H as [H|H].
        -- apply in_map_iff in H as (y & H & _). discriminate.
        -- cbn in H. destruct H as [H|[]]. discriminate.
    + intros [-> _]. apply in_app_iff. left. cbn [In]. tauto.
Qed.

(** [if summary:] makes no difference: a dictionary without entries has
    no statement under any key. *)
Lemma report_body_of_dict (d : Summary) :
  report_body (Some d) = flat_map render_section (sections_of d).
Proof using Type. destruct d; reflexivity. Qed.

Lemma section_header_in_body (title : string) (d : Summary) :
  In (section_header title) (report_body (Some d))
  <-> exists key, In (title, key) section_keys /\ get_items d key <> [].
Proof using Type.
  rewrite report_body_of_dict, in_flat_map. unfold sections_of. split.
  - intros (sec & Hsec & Hin). apply in_map_iff in Hsec as ([t k] & <- & Htk).
    apply section_header_in_section in Hin as [-> Hne]. cbn [fst snd] in *.
    exists k. split; assumption.
  - intros (key & Htk & Hne).
    exists (title, get_items d key). split.
    + apply in_map_iff. exists (title, key). split; [reflexivity | exact Htk].
    + apply section_header_in_section. split; [reflexivity | exact Hne].
Qed.

Lemma section_title_has_one_key (title key key' : string) :
  In (title, key) section_keys -> In (title, key') section_keys -> key = key'.
Proof using Type.
  unfold section_keys. cbn [In]. intros H H'.
  repeat (destruct H as [H|H]; [injection H as <- <-|]); try destruct H;
    repeat (destruct H' as [H'|H']; [try discriminate H'; injection H' as <-|]);
    try destruct H'; reflexivity.
Qed.

Lemma no_section_header_outside_body (title key : string) (score : Q) :
  In (title, key) section_keys ->
  ~ In (section_header title) (report_head generated_on score)
  /\ ~ In (section_header title) report_tail.
Proof using Type.
  unfold section_keys, section_header, report_head, report_tail. cbn [In].
  intros H.
  repeat (destruct H as [H|H]; [injection H as <- <-|]); try destruct H;
    (split; intros Hin;
     repeat (destruct Hin as [Hin|Hin]; [try discriminate Hin|]); try destruct Hin).
Qed.

(** The bullets are the only texts that can leave Latin-1. *)
Lemma latin1_bullet (item : text) :
  latin1 (PyStr.codes "- " ++ clean_item item)%list = latin1 (clean_item item).
Proof using Type. reflexivity. Qed.

Lemma texts_of_app (a b : list FpdfCall) :
  texts_of (a ++ b) = (texts_of a ++ texts_of b)%list.
Proof using Type. unfold texts_of. apply flat_map_app. Qed.

Lemma latin1_section (sec : string * list text) :
  forallb latin1 (texts_of (render_section sec))
  = forallb latin1 (map clean_item (snd sec)).
Proof using Type.
  destruct sec as [title items]. unfold render_section. cbn [snd].
  destruct items as [|i r]; [reflexivity|].
  rewrite !texts_of_app, !forallb_app.
  cbn [texts_of flat_map app forallb]. rewrite latin1_codes.
  cbn [andb]. rewrite andb_true_r.
  generalize (i :: r). intros l.
  induction l as [|x l IH]; [reflexivity|].
  cbn [map texts_of flat_map app forallb render_item].
  rewrite latin1_bullet. f_equal. exact IH.
Qed.

Lemma latin1_sections (sections : list (string * list text)) :
  forallb latin1 (texts_of (flat_map render_section sections))
  = forallb latin1 (map clean_item (flat_map snd sections)).
Proof using Type.
  induction sections as [|sec r IH]; [reflexivity|].
  cbn [flat_map]. rewrite texts_of_app, map_app, !forallb_app, latin1_section.
  now rewrite IH.
Qed.

Lemma latin1_report (d : Summary) (score : Q) :
  forallb latin1 (texts_of (report generated_on (Some d) score))
  = forallb latin1
      (map clean_item (flat_map (get_items d) (map snd section_keys))).
Proof using Type.
  unfold report. rewrite !texts_of_app, !forallb_app.
  replace (forallb latin1 (texts_of (report_head generated_on score))) with true
    by (cbn [report_head texts_of flat_map app forallb];
        now rewrite !latin1_codes).
  replace (forallb latin1 (texts_of report_tail)) with true
    by (cbn [report_tail texts_of flat_map app forallb];
        now rewrite !latin1_codes).
  rewrite andb_true_r. cbn [andb].
  rewrite report_body_of_dict, latin1_sections. reflexivity.
Qed.

(** C8. In the calls that [generate_pdf] makes for a summary, the header
    of each of the six sections occurs exactly when the list under the
    key of this section is not empty.  [generate_pdf] returns the
    serialisation of these calls when every statement under the six keys,
    once cleaned, is within Latin-1, and raises UnicodeEncodeError when
    one is not.  For a summary that has statements under
    "coverage_details" only and the score 85.0, the calls are spelled
    out: the score line reads "85.0 - Clear", the one section is
    "Coverage Details"; with a typographic apostrophe in the statement,
    [generate_pdf] raises and there is no document. *)
Theorem generate_pdf_sections (d : Summary) (original_text : text) (score : Q) :
  (forall title key,
      In (title, key) section_keys ->
      (In (section_header title) (report generated_on (Some d) score)
       <-> get_items d key <> []))
  /\ (forallb latin1
        (map clean_item (flat_map (get_items d) (map snd section_keys))) = true ->
      generate_pdf generated_on encode_error_message serialise (Some d)
        original_text score
      = Ok (encode_latin1_replace
              (serialise (report generated_on (Some d) score))))
  /\ (forallb latin1
        (map clean_item (flat_map (get_items d) (map snd section_keys))) = false ->
      generate_pdf generated_on encode_error_message serialise (Some d)
        original_text score
      = Raise (mkExn "UnicodeEncodeError"
                 (encode_error_message (report generated_on (Some d) score))))
  /\ (forall statements,
        statements <> [] ->
        get_items d "coverage_details" = statements ->
        get_items d "exclusions" = [] ->
        get_items d "deductibles" = [] ->
        get_items d "premiums" = [] ->
        get_items d "claims_process" = [] ->
        get_items d "unusual_clauses" = [] ->
        report generated_on (Some d) 85
        = ([add_page;
            set_font "Arial" "B" 16;
            cell 0 10 (PyStr.codes "ClearInsurance - Policy Summary") true "C";
            line 10 20 200 20;
            ln 5;
            set_font "Arial" "I" 10;
            cell 0 10 (PyStr.codes ("Generated on: " ++ generated_on)) true "";
            ln 5;
            set_font "Arial" "B" 12;
            cell 0 10 (PyStr.codes "Readability Analysis") true "";
            set_font "Arial" "" 10;
            cell 0 10 (PyStr.codes "Readability Score: 85.0 - Clear") true "";
            ln 5;
            set_font "Arial" "B" 12;
            cell 0 10 (PyStr.codes "Policy Summary") true "";
            set_font "Arial" "B" 11;
            cell 0 10 (PyStr.codes "Coverage Details") true "";
            set_font "Arial" "" 10]
           ++ map (fun statement =>
                     multi_cell 0 7 (PyStr.codes "- " ++ clean_item statement)%list)
                statements
           ++ [ln 3;
               ln 5;
               set_font "Arial" "I" 8;
               multi_cell 0 5 (PyStr.codes disclaimer)])%list)
  /\ generate_pdf generated_on encode_error_message serialise
       (Some Stub.coverage_with_apostrophe) original_text 85
     = Raise (mkExn "UnicodeEncodeError"
                (encode_error_message
                   (report generated_on (Some Stub.coverage_with_apostrophe) 85))).
Proof using Type.
  split; [|split; [|split; [|split]]].
  - intros title key Htk. unfold report.
    destruct (no_section_header_outside_body title key score Htk) as [Hhead Htail].
    rewrite !in_app_iff, section_header_in_body. split.
    + intros [H|[(key' & Htk' & Hne)|H]]; [tauto| |tauto].
      now rewrite (section_title_has_one_key title key key' Htk Htk').
    + intros Hne. right. left. exists key. split; assumption.
  - intros Hlatin. unfold generate_pdf, output.
    now rewrite latin1_report, Hlatin.
  - intros Hlatin. unfold generate_pdf, output.
    now rewrite latin1_report, Hlatin.
  - intros statements Hne Hc He Hd Hp Hcl Hu.
    unfold report. rewrite report_body_of_dict. unfold sections_of, section_keys.
    cbn [map fst snd flat_map]. rewrite Hc, He, Hd, Hp, Hcl, Hu.
    destruct statements as [|x l]; [contradiction|].
    cbn [render_section flat_map app]. rewrite ?app_nil_r, <- ?app_assoc.
    reflexivity.
  - unfold generate_pdf, output. rewrite latin1_report. reflexivity.
Qed.
End PdfExportFacts.

(** C8 on the summary that has one statement under "coverage_details"
    only, with an [FPDF] that serialises the texts in a row: the header of
    that section is among the calls, the header of "Exclusions" is not,
    and the bytes come back; with a typographic apostrophe in the
    statement, UnicodeEncodeError is raised. *)
Lemma generate_pdf_sections_witness :
  In (PdfExport.section_header "Coverage Details")
     (PdfExport.report "2024-05-01 10:30" (Some Stub.coverage_only) 85)
  /\ ~ In (PdfExport.section_header "Exclusions")
         (PdfExport.report "2024-05-01 10:30" (Some Stub.coverage_only) 85)
  /\ (exists document,
        PdfExport.generate_pdf "2024-05-01 10:30" Stub.ordinal_not_in_range
          Stub.texts_in_a_row (Some Stub.coverage_only) [] 85
        = Ok document)
  /\ (exists e,
        PdfExport.generate_pdf "2024-05-01 10:30" Stub.ordinal_not_in_range
          Stub.texts_in_a_row (Some Stub.coverage_with_apostrophe) [] 85
        = Raise e
        /\ exn_class e = "UnicodeEncodeError").
Proof.
  destruct (generate_pdf_sections "2024-05-01 10:30" Stub.ordinal_not_in_range
              Stub.texts_in_a_row Stub.coverage_only [] 85)
    as (Hsections & Hreturns & _ & _ & Hraises).
  split; [|split; [|split]].
  - apply (Hsections "Coverage Details" "coverage_details").
    + left. reflexivity.
    + discriminate.
  - intros Hin.
    apply (Hsections "Exclusions" "exclusions") in Hin.
    + apply Hin. reflexivity.
    + right. left. reflexivity.
  - eexists. apply Hreturns. reflexivity.
  - eexists. split; [exact Hraises | reflexivity].
Defined.

(** ** app.py *)
Section AppFacts.
Import DocumentProcessing Readability GeminiIntegration App.
Variable pdfplumber_open : bytes -> Result (list PdfPage).
Variable docx_paragraphs : bytes -> Result (list string).
Variable image_to_string : bytes -> Result string.
Variable decode_utf8 : bytes -> Result string.
Variable flesch_reading_ease : string -> Result pynum.
Variable API_KEY : option string.
Variable gemini : list string -> string -> Result string.
Variable json_loads : string -> Result pyval.

Local Abbreviation extract :=
  (extract_text pdfplumber_open docx_paragraphs image_to_string decode_utf8).
Local Abbreviation score_of := (calculate_readability_score flesch_reading_ease).
Local Abbreviation summarize := (generate_summary API_KEY gemini json_loads).
Local Abbreviation upload :=
  (process_upload pdfplumber_open docx_paragraphs image_to_string decode_utf8
     flesch_reading_ease API_KEY gemini json_loads).
Local Abbreviation derived :=
  (derived_from pdfplumber_open docx_paragraphs image_to_string decode_utf8
     flesch_reading_ease API_KEY gemini json_loads).
Local Abbreviation sound :=
  (consistent pdfplumber_open docx_paragraphs image_to_string decode_utf8
     flesch_reading_ease API_KEY gemini json_loads).

(** What processing an upload leaves in the session, by the outcome of the
    extraction. *)
Lemma process_upload_outcome (f : UploadedFile) (s : Session) (w : World) :
  exists s' w',
    upload f s w = (Ok s', w')
    /\ match extract f w with
       | (Ok (text, info), w1) =>
           exists score w2 v w3,
             score_of text w1 = (Ok score, w2)
             /\ summarize text (Some info) (readability_preference s) w2 = (Ok v, w3)
             /\ s' = mkSession text (Some info) (Some v) (Some score) []
                       (readability_preference s)
       | (Raise _, _) => s' = set_qa_history [] s
       end.
Proof using Type.
  unfold process_upload, attempt.
  destruct (extract f w) as [[[text info]|e] w1].
  - destruct (calculate_readability_score_returns flesch_reading_ease text w1)
      as (score & w2 & Hscore).
    rewrite Hscore.
    destruct (generate_summary_returns API_KEY gemini json_loads text (Some info)
                (readability_preference s) w2) as (v & w3 & Hsum).
    cbn [readability_preference set_readability_score set_extracted set_qa_history].
    rewrite Hsum.
    eexists _, _. split; [reflexivity|].
    exists score, w2, v, w3. repeat split; assumption.
  - eexists _, _. split; reflexivity.
Qed.

Lemma sound_depends_on_derived_state (s s' : Session) :
  extracted_text s' = extracted_text s ->
  document_info s' = document_info s ->
  summary s' = summary s ->
  readability_score s' = readability_score s ->
  sound s -> sound s'.
Proof using Type.
  intros Ht Hi Hs Hr [Hp|[f Hd]].
  - left. unfold pristine in *. rewrite Ht, Hi, Hs, Hr. exact Hp.
  - right. exists f. unfold derived_from in *.
    destruct Hd as (w0 & text & info & w1 & score & w2 & pref & v & w3 & H).
    exists w0, text, info, w1, score, w2, pref, v, w3.
    rewrite Ht, Hi, Hs, Hr. exact H.
Qed.

Lemma process_upload_sound (f : UploadedFile) (s : Session) (w : World) :
  sound s ->
  exists s' w', upload f s w = (Ok s', w') /\ sound s'.
Proof using Type.
  intros Hs.
  destruct (process_upload_outcome f s w) as (s' & w' & Hrun & Hout).
  exists s', w'. split; [exact Hrun|].
  destruct (extract f w) as [[[text info]|e] w1] eqn:Hex.
  - destruct Hout as (score & w2 & v & w3 & Hscore & Hsum & ->).
    right. exists f, w, text, info, w1, score, w2, (readability_preference s), v, w3.
    repeat split; assumption.
  - subst s'. now apply (sound_depends_on_derived_state s).
Qed.

Lemma ask_sound (question : string) (s : Session) (w : World) :
  sound s ->
  exists s' w',
    ask API_KEY gemini question s w = (Ok s', w') /\ sound s'.
Proof using Type.
  intros Hs. unfold ask.
  destruct (truthy_str question && truthy_str (extracted_text s)).
  - unfold bind.
    destruct (answer_question_returns API_KEY gemini question (extracted_text s)
                (document_info s) (readability_preference s) w) as (a & w' & Ha).
    rewrite Ha. eexists _, _. split; [reflexivity|].
    now apply (sound_depends_on_derived_state s).
  - eexists _, _. split; [reflexivity | exact Hs].
Qed.

(** X1. Processing an upload always ends with an empty conversation
    history.  When the extraction succeeds, the text, the metadata, the
    score and the summary of the session are replaced together by those
    of the new file; when it raises, all four stay as they were.  Hence
    the upload handler keeps the session consistent (its text, metadata,
    score and summary come from one and the same file, or nothing has
    been processed), and so do the other statements that write the
    session: its initialisation, the choice of the language level and the
    question section. *)
Theorem upload_replaces_derived_state_together :
  (forall (f : UploadedFile) (s : Session) (w : World),
      exists s' w',
        upload f s w = (Ok s', w')
        /\ qa_history s' = []
        /\ match fst (extract f w) with
           | Ok (text, info) =>
               derived f s'
               /\ extracted_text s' = text
               /\ document_info s' = Some info
           | Raise _ =>
               extracted_text s' = extracted_text s
               /\ document_info s' = document_info s
               /\ summary s' = summary s
               /\ readability_score s' = readability_score s
           end)
  /\ (forall (f : UploadedFile) (s : Session) (w : World),
        sound s -> exists s' w', upload f s w = (Ok s', w') /\ sound s')
  /\ (forall (question : string) (s : Session) (w : World),
        sound s ->
        exists s' w', ask API_KEY gemini question s w = (Ok s', w') /\ sound s')
  /\ sound initial_session
  /\ (forall (preference : string) (s : Session),
        sound s -> sound (set_preference preference s)).
Proof using Type.
  split; [|split; [|split; [|split]]].
  - intros f s w.
    destruct (process_upload_outcome f s w) as (s' & w' & Hrun & Hout).
    exists s', w'. split; [exact Hrun|].
    destruct (extract f w) as [[[text info]|e] w1] eqn:Hex; cbn [fst].
    + destruct Hout as (score & w2 & v & w3 & Hscore & Hsum & ->).
      split; [reflexivity|]. split; [|split; reflexivity].
      exists w, text, info, w1, score, w2, (readability_preference s), v, w3.
      repeat split; assumption.
    + subst s'. repeat split.
  - intros f s w. apply process_upload_sound.
  - intros question s w. apply ask_sound.
  - left. repeat split.
  - intros preference s. now apply (sound_depends_on_derived_state s).
Qed.
End AppFacts.

(** C5, on an upload that fails: a text file is processed and a question
    asked about it; then a file of a type that is not accepted is put in
    the uploader.  Processing it empties the conversation history, but the
    text, the score and the summary stay those of the first file: the
    derived state is not reset together. *)
Lemma failed_upload_clears_history_only :
  fst (App.run_all Stub.two_page_pdf Stub.no_paragraphs Stub.blank_image
         Stub.ascii_text (Stub.constant_score (125 # 2)) (Some "key")
         (Stub.scripted_model Stub.session_replies) PyJson.loads
         [Stub.first_run] App.initial_session empty_world)
  = Ok (App.mkSession "Collision is covered."
          (Some (DocumentProcessing.mkDocumentInfo "text/plain" "policy.txt" None))
          (Some (VDict [("coverage_details", VList [VStr "Collision is covered."]);
                        ("exclusions", VList []);
                        ("deductibles", VList []);
                        ("premiums", VList []);
                        ("claims_process", VList []);
                        ("unusual_clauses", VList [])]))
          (Some (Readability.Fin (125 # 2)))
          [("Is collision covered?", "Yes, collision is covered.")]
          GeminiIntegration.easy)
  /\ fst (App.run_all Stub.two_page_pdf Stub.no_paragraphs Stub.blank_image
            Stub.ascii_text (Stub.constant_score (125 # 2)) (Some "key")
            (Stub.scripted_model Stub.session_replies) PyJson.loads
            [Stub.first_run; Stub.second_run] App.initial_session empty_world)
     = Ok (App.mkSession "Collision is covered."
             (Some (DocumentProcessing.mkDocumentInfo "text/plain" "policy.txt" None))
             (Some (VDict [("coverage_details", VList [VStr "Collision is covered."]);
                           ("exclusions", VList []);
                           ("deductibles", VList []);
                           ("premiums", VList []);
                           ("claims_process", VList []);
                           ("unusual_clauses", VList [])]))
             (Some (Readability.Fin (125 # 2)))
             []
             GeminiIntegration.easy).
Proof. split; vm_compute; reflexivity. Qed.


(* ================================================================== *)
(** * Part III. Further properties *)
(* ================================================================== *)

(** ** More on the string methods *)

Lemma take_take (n : nat) :
  forall s, PyStr.take n (PyStr.take n s) = PyStr.take n s.
Proof.
  induction n as [|k IH]; intros [|c r]; simpl; try reflexivity.
  now rewrite IH.
Qed.

Lemma take_length (n : nat) :
  forall s, String.length (PyStr.take n s) <= n.
Proof.
  induction n as [|k IH]; intros [|c r]; simpl; try lia.
  specialize (IH r). lia.
Qed.

Lemma revstr_app (s : string) :
  forall acc, PyStr.revstr acc s = PyStr.revstr "" s ++ acc.
Proof.
  induction s as [|c r IH]; intros acc; simpl; [reflexivity|].
  rewrite (IH (String c acc)), (IH (String c "")), append_assoc. reflexivity.
Qed.

Lemma revstr_revstr (u : string) :
  forall cur, PyStr.revstr "" (PyStr.revstr cur u) = PyStr.revstr "" cur ++ u.
Proof.
  induction u as [|c r IH]; intros cur; simpl.
  - now rewrite append_nil_r.
  - rewrite IH. simpl. rewrite (revstr_app cur (String c "")), append_assoc.
    reflexivity.
Qed.

Lemma revstr_cons (c : ascii) (acc s : string) :
  PyStr.revstr (String c acc) s = PyStr.revstr "" s ++ String c acc.
Proof. apply revstr_app. Qed.

Lemma space_is_not_cased (c : ascii) :
  PyStr.isspace c = true ->
  PyStr.is_lower_char c = false /\ PyStr.is_upper_char c = false.
Proof.
  destruct c as [[] [] [] [] [] [] [] []]; vm_compute; intros H;
    (discriminate H || (split; reflexivity)).
Qed.

Lemma lstrip_empty (s : string) :
  PyStr.lstrip s = "" -> PyStr.whitespace_only s = true.
Proof.
  unfold PyStr.whitespace_only.
  induction s as [|c r IH]; simpl; [reflexivity|].
  destruct (PyStr.isspace c); [exact IH | discriminate].
Qed.

Lemma lstrip_head (s : string) :
  PyStr.lstrip s = ""
  \/ exists c r, PyStr.lstrip s = String c r /\ PyStr.isspace c = false.
Proof.
  induction s as [|c r IH]; simpl; [now left|].
  destruct (PyStr.isspace c) eqn:E; [exact IH|].
  right. now exists c, r.
Qed.

Lemma rstrip_rstrip (s : string) :
  PyStr.rstrip (PyStr.rstrip s) = PyStr.rstrip s.
Proof.
  induction s as [|c r IH]; simpl; [reflexivity|].
  destruct (PyStr.isspace c && PyStr.is_empty (PyStr.rstrip r)) eqn:E;
    [reflexivity|].
  simpl. now rewrite IH, E.
Qed.

(** [strip] leaves nothing more to strip. *)
Lemma strip_strip (s : string) : PyStr.strip (PyStr.strip s) = PyStr.strip s.
Proof.
  unfold PyStr.strip.
  destruct (lstrip_head s) as [->|(c & r & -> & Hc)]; [reflexivity|].
  simpl. rewrite Hc. simpl. rewrite Hc. simpl. rewrite Hc. simpl.
  now rewrite rstrip_rstrip.
Qed.

Lemma strip_empty (s : string) :
  PyStr.strip s = "" -> PyStr.whitespace_only s = true.
Proof.
  unfold PyStr.strip. intros H. apply lstrip_empty.
  destruct (lstrip_head s) as [E|(c & r & E & Hc)]; [exact E|].
  rewrite E in H. simpl in H. rewrite Hc in H. discriminate.
Qed.

Lemma split_ws_whitespace_only (s : string) :
  PyStr.whitespace_only s = true -> PyStr.split_ws s = [].
Proof.
  unfold PyStr.whitespace_only, PyStr.split_ws.
  induction s as [|c r IH]; simpl; [reflexivity|].
  intros H. apply andb_true_iff in H as [Hc Hr]. rewrite Hc. auto.
Qed.

Lemma isupper_whitespace_only (s : string) :
  PyStr.whitespace_only s = true -> PyStr.isupper s = false.
Proof.
  unfold PyStr.whitespace_only, PyStr.isupper.
  induction s as [|c r IH]; simpl; [reflexivity|].
  intros H. apply andb_true_iff in H as [Hc Hr].
  destruct (space_is_not_cased c Hc) as [-> ->]. auto.
Qed.

Lemma split_from_not_nil (sep : string) (s : string) :
  forall skip cur, PyStr.split_from sep skip cur s <> [].
Proof.
  induction s as [|c r IH]; intros skip cur; simpl; [discriminate|].
  destruct skip; [|apply IH].
  destruct (PyStr.startswith (String c r) sep); [discriminate | apply IH].
Qed.

(** A separator that occurs cuts the string in two pieces at least. *)
Lemma split_of_contains (sep : string) (s : string) :
  sep <> "" ->
  PyStr.contains sep s = true ->
  forall cur, 2 <= List.length (PyStr.split_from sep 0 cur s).
Proof.
  intros Hsep. induction s as [|c r IH]; simpl.
  - destruct sep; [contradiction | discriminate].
  - intros H cur.
    destruct (PyStr.startswith (String c r) sep) eqn:E.
    + simpl.
      pose proof (split_from_not_nil sep r (String.length sep - 1) "") as Hne.
      destruct (PyStr.split_from sep (String.length sep - 1) "" r);
        [contradiction | simpl; lia].
    + simpl in H. apply IH. exact H.
Qed.

(** Characters other than the first of the separator are passed over. *)
Lemma split_from_passes (a : ascii) (sep' : string) (u : string) :
  PyStr.without a u = true ->
  forall cur rest,
    PyStr.split_from (String a sep') 0 cur (u ++ rest)
    = PyStr.split_from (String a sep') 0 (PyStr.revstr cur u) rest.
Proof.
  induction u as [|c r IH]; simpl; [reflexivity|].
  intros H cur rest. apply andb_true_iff in H as [Hc Hr].
  apply negb_true_iff in Hc. rewrite Hc. simpl. now apply IH.
Qed.

Lemma split_without (a : ascii) (sep' : string) (u : string) :
  PyStr.without a u = true ->
  PyStr.split (String a sep') u = [u].
Proof.
  intros H. unfold PyStr.split.
  rewrite <- (append_nil_r u) at 1.
  rewrite (split_from_passes a sep' u H). simpl.
  now rewrite revstr_revstr.
Qed.

Lemma without_of_contains (a : ascii) (s : string) :
  PyStr.contains (String a "") s = false -> PyStr.without a s = true.
Proof.
  induction s as [|c r IH]; simpl; [reflexivity|].
  rewrite andb_true_r. intros H. apply orb_false_iff in H as [Hc Hr].
  rewrite Hc. simpl. now apply IH.
Qed.

(** ** document_processing.py: headers, Word documents, outcomes *)

Section ExtractionFacts.
Import DocumentProcessing.
Variable pdfplumber_open : bytes -> Result (list PdfPage).
Variable docx_paragraphs : bytes -> Result (list string).
Variable image_to_string : bytes -> Result string.
Variable decode_utf8 : bytes -> Result string.

Local Abbreviation extract :=
  (extract_text pdfplumber_open docx_paragraphs image_to_string decode_utf8).

Lemma header_not_blank (line : string) :
  is_header line = true -> PyStr.strip line <> "".
Proof using Type.
  unfold is_header. intros H E. apply strip_empty in E.
  rewrite (split_ws_whitespace_only line E), (isupper_whitespace_only line E) in H.
  rewrite andb_false_r in H. discriminate.
Qed.

(** X2. A page has at most five headers; each is shorter than fifty
    characters, is not empty, and has no white space left at either
    end. *)
Theorem find_headers_bounds (page_text : string) :
  List.length (find_headers page_text) <= 5
  /\ forall h, In h (find_headers page_text) ->
       String.length h < 50 /\ h <> "" /\ PyStr.strip h = h.
Proof using Type.
  unfold find_headers. split.
  - rewrite length_map.
    etransitivity; [apply filter_length_le|]. apply firstn_le_length.
  - intros h Hin. apply in_map_iff in Hin as (line & <- & Hin).
    apply filter_In in Hin as [_ Hhead].
    split; [|split].
    + unfold is_header in Hhead. apply andb_true_iff in Hhead as [Hlen _].
      now apply Nat.ltb_lt.
    + now apply header_not_blank.
    + apply strip_strip.
Qed.

(** The loop over the paragraphs appends each of them and a newline. *)
Lemma docx_loop_spec (paragraphs : list string) :
  forall text,
    docx_loop paragraphs text
    = text ++ fold_right (fun par acc => par ++ PyStr.nl ++ acc) "" paragraphs.
Proof using Type.
  induction paragraphs as [|p r IH]; intros text; simpl.
  - now rewrite append_nil_r.
  - rewrite IH, !append_assoc. reflexivity.
Qed.

Lemma split_of_lines (paragraphs : list string) :
  (forall par, In par paragraphs -> PyStr.contains PyStr.nl par = false) ->
  PyStr.split PyStr.nl
    (fold_right (fun par acc => par ++ PyStr.nl ++ acc) "" paragraphs)
  = (paragraphs ++ [""])%list.
Proof using Type.
  unfold PyStr.split.
  induction paragraphs as [|p r IH]; intros H; [reflexivity|].
  cbn [fold_right]. unfold PyStr.nl at 1.
  rewrite split_from_passes
    by (apply without_of_contains, H; now left).
  cbn [PyStr.nl append PyStr.split_from PyStr.startswith String.length Nat.sub].
  rewrite Ascii.eqb_refl. cbn [andb].
  rewrite revstr_revstr. cbn [PyStr.revstr append app]. f_equal.
  apply IH. intros par Hin. apply H. now right.
Qed.

(** X3. A Word document whose paragraphs hold no newline is returned as
    a text from which [split] gives the paragraphs back, in order,
    followed by one empty piece; its metadata has no page information
    and nothing is shown. *)
Theorem docx_text_splits_into_paragraphs (f : UploadedFile)
    (paragraphs : list string) (w : World) :
  uf_type f
  = "application/vnd.openxmlformats-officedocument.wordprocessingml.document" ->
  docx_paragraphs (uf_value f) = Ok paragraphs ->
  (forall par, In par paragraphs -> PyStr.contains PyStr.nl par = false) ->
  exists text,
    extract f w
    = (Ok (text, mkDocumentInfo (uf_type f) (uf_name f) None), w)
    /\ PyStr.split PyStr.nl text = (paragraphs ++ [""])%list.
Proof using Type.
  intros Htype Hopen Hnl.
  exists (fold_right (fun par acc => par ++ PyStr.nl ++ acc) "" paragraphs).
  split; [|now apply split_of_lines].
  unfold extract_text, try_except. rewrite Htype. cbn [String.eqb Ascii.eqb Bool.eqb].
  unfold extract_text_from_docx, bind, lift, ret. rewrite Hopen.
  now rewrite docx_loop_spec.
Qed.

(** The outcome of [extract_text], by the declared type of the file. *)
Lemma extract_text_cases (f : UploadedFile) (w : World) :
  (exists text info,
     extract f w = (Ok (text, info), w)
     /\ supported (uf_type f) = true
     /\ di_type info = uf_type f
     /\ di_file_name info = uf_name f
     /\ (di_page_info info <> None <-> uf_type f = "application/pdf")
     /\ (uf_type f <> "application/pdf" ->
         info = mkDocumentInfo (uf_type f) (uf_name f) None))
  \/ (exists e,
        extract f w
        = (Raise e, shown StError ("Error extracting text: " ++ exn_msg e) w)
        /\ (pdfplumber_open (uf_value f) = Raise e
            \/ docx_paragraphs (uf_value f) = Raise e
            \/ image_to_string (uf_value f) = Raise e
            \/ decode_utf8 (uf_value f) = Raise e
            \/ (supported (uf_type f) = false
                /\ e = mkExn "ValueError" ("Unsupported file type: " ++ uf_type f)))).
Proof using Type.
  unfold extract_text, try_except, supported, supported_media_types.
  cbn [existsb].
  destruct (uf_type f =? "application/pdf")%string eqn:Epdf.
  { apply String.eqb_eq in Epdf.
    unfold extract_text_from_pdf, bind, lift, ret.
    destruct (pdfplumber_open (uf_value f)) as [pages|e].
    - left. destruct (pdf_pages_loop 1 pages "" []) as [text info].
      eexists _, _. split; [reflexivity|]. cbn.
      repeat split; solve [reflexivity | discriminate | intuition congruence].
    - right. exists e. split; [reflexivity|]. now left. }
  assert (Hnot : uf_type f <> "application/pdf") by now apply String.eqb_neq.
  destruct (uf_type f
            =? "application/vnd.openxmlformats-officedocument.wordprocessingml.document")%string
    eqn:Edocx.
  { unfold extract_text_from_docx, bind, lift, ret.
    destruct (docx_paragraphs (uf_value f)) as [ps|e].
    - left. eexists _, _. split; [reflexivity|]. cbn.
      repeat split; solve [reflexivity | intuition congruence].
    - right. exists e. split; [reflexivity|]. right. now left. }
  cbn [orb].
  destruct ((uf_type f =? "image/png")%string
            || ((uf_type f =? "image/jpeg")%string
                || ((uf_type f =? "image/jpg")%string || false))) eqn:Eimg.
  { unfold extract_text_from_image, bind, lift, ret.
    destruct (image_to_string (uf_value f)) as [t|e].
    - left. eexists _, _. split; [reflexivity|]. cbn.
      split.
      + repeat (apply orb_true_iff in Eimg as [Eimg|Eimg]);
          try discriminate Eimg; rewrite Eimg, ?orb_true_r; reflexivity.
      + repeat split; solve [reflexivity | intuition congruence].
    - right. exists e. split; [reflexivity|]. right. right. now left. }
  rewrite orb_false_r in Eimg.
  destruct (uf_type f =? "text/plain")%string eqn:Etxt.
  { unfold extract_text_from_txt, bind, lift, ret.
    destruct (decode_utf8 (uf_value f)) as [t|e].
    - left. eexists _, _. split; [reflexivity|]. cbn.
      split; [now rewrite !orb_true_r|].
      repeat split; solve [reflexivity | intuition congruence].
    - right. exists e. split; [reflexivity|]. right. right. right. now left. }
  right. eexists. split; [reflexivity|].
  do 4 right. split; [|reflexivity].
  apply orb_false_iff in Eimg as [E1 Eimg].
  apply orb_false_iff in Eimg as [E2 E3].
  now rewrite E1, E2, E3.
Qed.

(** X4. [extract_text] either returns, and then it has shown nothing, the
    declared type is one of those accepted, and the metadata record the
    declared type and the name of the file, with page information
    exactly for a PDF; or it raises, and then it has shown one error
    message that quotes the exception, and the exception is the one that
    the library reading the file raised, or the ValueError for a type
    that is not accepted. *)
Theorem extract_text_returns_or_reports (f : UploadedFile) (w : World) :
  match extract f w with
  | (Ok (text, info), w') =>
      w' = w
      /\ supported (uf_type f) = true
      /\ di_type info = uf_type f
      /\ di_file_name info = uf_name f
      /\ (di_page_info info <> None <-> uf_type f = "application/pdf")
  | (Raise e, w') =>
      w' = shown StError ("Error extracting text: " ++ exn_msg e) w
      /\ (pdfplumber_open (uf_value f) = Raise e
          \/ docx_paragraphs (uf_value f) = Raise e
          \/ image_to_string (uf_value f) = Raise e
          \/ decode_utf8 (uf_value f) = Raise e
          \/ (supported (uf_type f) = false
              /\ e = mkExn "ValueError" ("Unsupported file type: " ++ uf_type f)))
  end.
Proof using Type.
  destruct (extract_text_cases f w)
    as [(text & info & -> & Hs & Ht & Hn & Hp & _)|(e & -> & He)].
  - repeat split; try assumption; apply Hp.
  - split; [reflexivity | exact He].
Qed.
End ExtractionFacts.

(** X3 on a Word document of two paragraphs. *)
Lemma docx_text_splits_into_paragraphs_witness :
  exists text,
    DocumentProcessing.extract_text Stub.two_page_pdf Stub.two_paragraphs
      Stub.blank_image Stub.ascii_text
      (DocumentProcessing.mkUploadedFile
         "application/vnd.openxmlformats-officedocument.wordprocessingml.document"
         "policy.docx" [])
      empty_world
    = (Ok (text,
           DocumentProcessing.mkDocumentInfo
             "application/vnd.openxmlformats-officedocument.wordprocessingml.document"
             "policy.docx" None),
       empty_world)
    /\ PyStr.split PyStr.nl text
       = ["Part A - Liability"; "We will pay damages for bodily injury."; ""].
Proof.
  apply (docx_text_splits_into_paragraphs Stub.two_page_pdf Stub.two_paragraphs
           Stub.blank_image Stub.ascii_text
           (DocumentProcessing.mkUploadedFile
              "application/vnd.openxmlformats-officedocument.wordprocessingml.document"
              "policy.docx" [])
           ["Part A - Liability"; "We will pay damages for bodily injury."]
           empty_world);
    [reflexivity | reflexivity |].
  intros par [<-|[<-|[]]]; reflexivity.
Defined.

(** ** gemini_integration.py: what is sent, what comes back *)

Section ModelCallFacts.
Import DocumentProcessing GeminiIntegration.
Variable API_KEY : option string.
Variable gemini : list string -> string -> Result string.
Variable json_loads : string -> Result pyval.

Local Abbreviation summarize := (generate_summary API_KEY gemini json_loads).
Local Abbreviation answer := (answer_question API_KEY gemini).

Lemma verification_prompt_of_prefix (t1 t2 : string) :
  PyStr.take 1500 t1 = PyStr.take 1500 t2 ->
  verification_prompt t1 = verification_prompt t2.
Proof using Type.
  intros H. unfold verification_prompt. now rewrite H.
Qed.

(** What both entry points do when the classification request is not
    answered by "yes": nothing in it depends on what follows the
    classification. *)
Lemma summary_without_yes (text : string) (di : option DocumentInfo)
    (pref : string) (w : World) :
  has_key API_KEY = true ->
  match gemini (model_calls w) (verification_prompt text) with
  | Ok verdict => affirmative verdict = false
  | Raise _ => True
  end ->
  summarize text di pref w
  = match gemini (model_calls w) (verification_prompt text) with
    | Ok verdict =>
        (Ok (degraded_summary
               ("This document appears to be "
                ++ document_type_of (verification_result_of verdict)
                ++ ". Please upload an auto insurance policy document.")),
         called (verification_prompt text) w)
    | Raise e =>
        (Ok (degraded_summary ("Error generating summary: " ++ exn_msg e)),
         shown StError ("Error generating summary with Gemini API: " ++ exn_msg e)
           (called (verification_prompt text) w))
    end.
Proof using Type.
  intros Hkey Hno.
  unfold generate_summary, bind. rewrite (setup_gemini_with_key _ w Hkey).
  cbn [negb]. unfold try_except, generate_summary_body, bind, generate_content.
  destruct (gemini (model_calls w) (verification_prompt text)) as [verdict|e];
    [|reflexivity].
  unfold affirmative in Hno. now rewrite Hno.
Qed.

Lemma answer_without_yes (question text : string) (di : option DocumentInfo)
    (pref : string) (w : World) :
  has_key API_KEY = true ->
  match gemini (model_calls w) (verification_prompt text) with
  | Ok verdict => affirmative verdict = false
  | Raise _ => True
  end ->
  answer question text di pref w
  = match gemini (model_calls w) (verification_prompt text) with
    | Ok verdict =>
        (Ok ("I cannot answer your question because this document appears to be "
             ++ document_type_of (verification_result_of verdict)
             ++ ". Please upload an auto insurance policy document."),
         called (verification_prompt text) w)
    | Raise e =>
        (Ok ("Sorry, I couldn't process your question due to an error: "
             ++ exn_msg e),
         shown StError ("Error answering question with Gemini API: " ++ exn_msg e)
           (called (verification_prompt text) w))
    end.
Proof using Type.
  intros Hkey Hno.
  unfold answer_question, bind. rewrite (setup_gemini_with_key _ w Hkey).
  cbn [negb]. unfold try_except, answer_question_body, bind, generate_content.
  destruct (gemini (model_calls w) (verification_prompt text)) as [verdict|e];
    [|reflexivity].
  unfold affirmative in Hno. now rewrite Hno.
Qed.

(** X5. The classification reads the first 1500 characters of the text
    only: two texts that agree on them give the same classification
    request and, unless the model answers it by "yes", the same summary
    and the same answer with the same effects, whatever the rest of the
    texts, the metadata, the language level and the question. *)
Theorem classification_reads_a_prefix (t1 t2 q1 q2 : string)
    (di1 di2 : option DocumentInfo) (p1 p2 : string) (w : World) :
  PyStr.take 1500 t1 = PyStr.take 1500 t2 ->
  verification_prompt t1 = verification_prompt t2
  /\ (match gemini (model_calls w) (verification_prompt t1) with
      | Ok verdict => affirmative verdict = false
      | Raise _ => True
      end ->
      summarize t1 di1 p1 w = summarize t2 di2 p2 w
      /\ answer q1 t1 di1 p1 w = answer q2 t2 di2 p2 w).
Proof using Type.
  intros Hprefix.
  pose proof (verification_prompt_of_prefix t1 t2 Hprefix) as Hprompt.
  split; [exact Hprompt|]. intros Hno.
  destruct (has_key API_KEY) eqn:Hkey.
  - rewrite (summary_without_yes t1 di1 p1 w Hkey Hno).
    rewrite (answer_without_yes q1 t1 di1 p1 w Hkey Hno).
    rewrite Hprompt in Hno.
    rewrite (summary_without_yes t2 di2 p2 w Hkey Hno).
    rewrite (answer_without_yes q2 t2 di2 p2 w Hkey Hno).
    rewrite Hprompt. split; reflexivity.
  - unfold generate_summary, answer_question, bind.
    rewrite (setup_gemini_without_key _ w Hkey). split; reflexivity.
Qed.



(** The effects of one call, as lists appended to what the world held. *)
Lemma effects_none (w : World) (a b : string) :
  stdout w = stdout w
  /\ (exists messages,
        st_log w = (st_log w ++ messages)%list /\ List.length messages <= 1)
  /\ (exists prompts,
        model_calls w = (model_calls w ++ prompts)%list
        /\ (prompts = [] \/ prompts = [a] \/ prompts = [a; b])).
Proof using Type.
  split; [reflexivity|]. split.
  - exists []. split; [now rewrite app_nil_r | simpl; lia].
  - exists []. split; [now rewrite app_nil_r | now left].
Qed.

Lemma effects_shown (w w0 : World) (k : StKind) (m a b : string) :
  stdout w0 = stdout w ->
  st_log w0 = st_log w ->
  (exists prompts,
     model_calls w0 = (model_calls w ++ prompts)%list
     /\ (prompts = [] \/ prompts = [a] \/ prompts = [a; b])) ->
  stdout (shown k m w0) = stdout w
  /\ (exists messages,
        st_log (shown k m w0) = (st_log w ++ messages)%list
        /\ List.length messages <= 1)
  /\ (exists prompts,
        model_calls (shown k m w0) = (model_calls w ++ prompts)%list
        /\ (prompts = [] \/ prompts = [a] \/ prompts = [a; b])).
Proof using Type.
  intros Hout Hlog Hcalls. cbn [shown stdout st_log model_calls].
  split; [exact Hout|]. split; [|exact Hcalls].
  exists [(k, m)]. rewrite Hlog. split; [reflexivity | simpl; lia].
Qed.

Lemma effects_called (w w0 : World) (a b : string) :
  stdout w0 = stdout w ->
  st_log w0 = st_log w ->
  (exists prompts,
     model_calls w0 = (model_calls w ++ prompts)%list
     /\ (prompts = [] \/ prompts = [a] \/ prompts = [a; b])) ->
  stdout w0 = stdout w
  /\ (exists messages,
        st_log w0 = (st_log w ++ messages)%list /\ List.length messages <= 1)
  /\ (exists prompts,
        model_calls w0 = (model_calls w ++ prompts)%list
        /\ (prompts = [] \/ prompts = [a] \/ prompts = [a; b])).
Proof using Type.
  intros Hout Hlog Hcalls. split; [exact Hout|]. split; [|exact Hcalls].
  exists []. rewrite Hlog. split; [now rewrite app_nil_r | simpl; lia].
Qed.

Lemma one_call (w : World) (a b : string) :
  exists prompts,
    model_calls (called a w) = (model_calls w ++ prompts)%list
    /\ (prompts = [] \/ prompts = [a] \/ prompts = [a; b]).
Proof using Type. exists [a]. split; [reflexivity | right; now left]. Qed.

Lemma two_calls (w : World) (a b : string) :
  exists prompts,
    model_calls (called b (called a w)) = (model_calls w ++ prompts)%list
    /\ (prompts = [] \/ prompts = [a] \/ prompts = [a; b]).
Proof using Type.
  exists [a; b]. cbn [called model_calls]. rewrite <- app_assoc.
  split; [reflexivity | right; now right].
Qed.

Ltac effects :=
  eexists _, _; (split; [reflexivity|]);
  first [ apply effects_none
        | apply effects_shown;
            [reflexivity | reflexivity
             | first [apply effects_none | apply one_call | apply two_calls]]
        | apply effects_called;
            [reflexivity | reflexivity | first [apply one_call | apply two_calls]] ].

Lemma generate_summary_effects (text : string) (di : option DocumentInfo)
    (pref : string) (w : World) :
  exists v w',
    summarize text di pref w = (Ok v, w')
    /\ stdout w' = stdout w
    /\ (exists messages,
          st_log w' = (st_log w ++ messages)%list /\ List.length messages <= 1)
    /\ (exists prompts,
          model_calls w' = (model_calls w ++ prompts)%list
          /\ (prompts = []
              \/ prompts = [verification_prompt text]
              \/ prompts
                 = [verification_prompt text;
                    summary_prompt text (build_reference_info di)
                      (summary_readability_target pref)
                      (if (pref =? easy)%string
                       then "elementary school student"
                       else "high school student")])).
Proof using Type.
  unfold generate_summary, bind.
  destruct (has_key API_KEY) eqn:Hkey.
  2:{ rewrite (setup_gemini_without_key _ w Hkey). cbn [negb]. unfold ret.
      effects. }
  rewrite (setup_gemini_with_key _ w Hkey). cbn [negb].
  unfold try_except, generate_summary_body, bind, generate_content, any_exception.
  destruct (gemini (model_calls w) (verification_prompt text)) as [r1|e1].
  2:{ unfold st_message, ret. effects. }
  destruct (PyStr.startswith (verification_result_of r1) "yes"); cbn [negb].
  2:{ unfold ret. effects. }
  unfold called at 1. cbn [model_calls].
  match goal with
  | |- context [gemini ?h ?p] => destruct (gemini h p) as [r2|e2]
  end.
  2:{ unfold st_message, ret. effects. }
  unfold lift, try_except, st_message, ret.
  destruct (extract_json_content r2) as [payload|e3]; [|effects].
  destruct (json_loads (double_backslashes payload)) as [x|e4].
  - destruct (backfill expected_keys x) as [v|e5]; effects.
  - destruct (has_class "JSONDecodeError" e4); effects.
Qed.

Lemma answer_question_effects (question text : string)
    (di : option DocumentInfo) (pref : string) (w : World) :
  exists a w',
    answer question text di pref w = (Ok a, w')
    /\ stdout w' = stdout w
    /\ (exists messages,
          st_log w' = (st_log w ++ messages)%list /\ List.length messages <= 1)
    /\ (exists prompts,
          model_calls w' = (model_calls w ++ prompts)%list
          /\ (prompts = []
              \/ prompts = [verification_prompt text]
              \/ prompts
                 = [verification_prompt text;
                    answer_prompt question text (build_reference_info di)
                      (answer_readability_target pref)])).
Proof using Type.
  unfold answer_question, bind.
  destruct (has_key API_KEY) eqn:Hkey.
  2:{ rewrite (setup_gemini_without_key _ w Hkey). cbn [negb]. unfold ret.
      effects. }
  rewrite (setup_gemini_with_key _ w Hkey). cbn [negb].
  unfold try_except, answer_question_body, bind, generate_content, any_exception.
  destruct (gemini (model_calls w) (verification_prompt text)) as [r1|e1].
  2:{ unfold st_message, ret. effects. }
  destruct (PyStr.startswith (verification_result_of r1) "yes"); cbn [negb].
  2:{ unfold ret. effects. }
  unfold called at 1. cbn [model_calls].
  match goal with
  | |- context [gemini ?h ?p] => destruct (gemini h p) as [r2|e2]
  end; unfold st_message, ret; effects.
Qed.

(** X8. One call of [generate_summary] or of [answer_question] returns,
    sends at most two requests to the model (none, the classification
    request, or the classification request followed by the summary,
    respectively the answer, request), shows at most one message and
    prints nothing; what had been sent and shown before stays. *)
Theorem at_most_two_model_calls (question text : string)
    (di : option DocumentInfo) (pref : string) (w : World) :
  (exists v w',
     summarize text di pref w = (Ok v, w')
     /\ stdout w' = stdout w
     /\ (exists messages,
           st_log w' = (st_log w ++ messages)%list /\ List.length messages <= 1)
     /\ (exists prompts,
           model_calls w' = (model_calls w ++ prompts)%list
           /\ (prompts = []
               \/ prompts = [verification_prompt text]
               \/ prompts
                  = [verification_prompt text;
                     summary_prompt text (build_reference_info di)
                       (summary_readability_target pref)
                       (if (pref =? easy)%string
                        then "elementary school student"
                        else "high school student")])))
  /\ (exists a w',
        answer question text di pref w = (Ok a, w')
        /\ stdout w' = stdout w
        /\ (exists messages,
              st_log w' = (st_log w ++ messages)%list /\ List.length messages <= 1)
        /\ (exists prompts,
              model_calls w' = (model_calls w ++ prompts)%list
              /\ (prompts = []
                  \/ prompts = [verification_prompt text]
                  \/ prompts
                     = [verification_prompt text;
                        answer_prompt question text (build_reference_info di)
                          (answer_readability_target pref)]))).
Proof using Type.
  split; [apply generate_summary_effects | apply answer_question_effects].
Qed.
End ModelCallFacts.

(** X5 on two texts that differ after their first 1500 characters, the
    model answering that the document is a lease. *)
Lemma classification_reads_a_prefix_witness :
  GeminiIntegration.verification_prompt (Stub.padded "Collision is covered.")
  = GeminiIntegration.verification_prompt (Stub.padded "The tenant shall pay.")
  /\ GeminiIntegration.generate_summary (Some "key")
       (Stub.scripted_model [Ok "No: a lease"]) PyJson.loads
       (Stub.padded "Collision is covered.") None GeminiIntegration.easy empty_world
     = GeminiIntegration.generate_summary (Some "key")
         (Stub.scripted_model [Ok "No: a lease"]) PyJson.loads
         (Stub.padded "The tenant shall pay.") None "Standard (High School Level)"
         empty_world
  /\ GeminiIntegration.answer_question (Some "key")
       (Stub.scripted_model [Ok "No: a lease"])
       "Is collision covered?" (Stub.padded "Collision is covered.") None
       GeminiIntegration.easy empty_world
     = GeminiIntegration.answer_question (Some "key")
         (Stub.scripted_model [Ok "No: a lease"])
         "Who pays?" (Stub.padded "The tenant shall pay.") None
         "Standard (High School Level)" empty_world.
Proof.
  destruct (classification_reads_a_prefix (Some "key")
              (Stub.scripted_model [Ok "No: a lease"]) PyJson.loads
              (Stub.padded "Collision is covered.") (Stub.padded "The tenant shall pay.")
              "Is collision covered?" "Who pays?" None None
              GeminiIntegration.easy "Standard (High School Level)" empty_world)
    as [Hprompt Hsame].
  - vm_compute. reflexivity.
  - split; [exact Hprompt|]. apply Hsame. vm_compute. reflexivity.
Defined.



(** ** gemini_integration.py: code fences and page references *)

Section FenceFacts.
Import DocumentProcessing GeminiIntegration.

Lemma py_index_of_length (l : list string) (i : nat) :
  i < List.length l -> exists x, py_index l i = Ok x /\ nth_error l i = Some x.
Proof using Type.
  intros H. unfold py_index.
  destruct (nth_error l i) as [x|] eqn:E.
  - now exists x.
  - apply nth_error_None in E. lia.
Qed.

Lemma split_index_0 (sep s : string) :
  exists x, py_index (PyStr.split sep s) 0 = Ok x.
Proof using Type.
  unfold PyStr.split.
  pose proof (split_from_not_nil sep s 0 "") as Hne.
  destruct (PyStr.split_from sep 0 "" s) as [|x l]; [contradiction|].
  now exists x.
Qed.

Lemma split_index_1 (sep s : string) :
  sep <> "" -> PyStr.contains sep s = true ->
  exists x, py_index (PyStr.split sep s) 1 = Ok x.
Proof using Type.
  intros Hsep H.
  destruct (py_index_of_length (PyStr.split sep s) 1) as (x & Hx & _).
  - apply (split_of_contains sep s Hsep H "").
  - now exists x.
Qed.

(** X9. Taking the payload out of the code fences never fails: a
    response without a fence is the payload as it is, and the payload
    taken from a fenced response has no white space left at either
    end. *)
Theorem extract_json_content_returns (response_text : string) :
  exists payload,
    extract_json_content response_text = Ok payload
    /\ (PyStr.contains "```" response_text = false -> payload = response_text)
    /\ (PyStr.contains "```" response_text = true ->
        PyStr.strip payload = payload).
Proof using Type.
  unfold extract_json_content.
  destruct (PyStr.contains "```" response_text) eqn:Hfence.
  - destruct (PyStr.contains "```json" response_text) eqn:Hjson; cbn [andb].
    + destruct (split_index_1 "```json" response_text) as (after & ->);
        [discriminate | exact Hjson |].
      destruct (split_index_0 "```" after) as (inner & ->).
      eexists. split; [reflexivity|]. split; [discriminate|].
      intros _. apply strip_strip.
    + destruct (split_index_1 "```" response_text) as (after & ->);
        [discriminate | exact Hfence |].
      destruct (split_index_0 "```" after) as (inner & ->).
      eexists. split; [reflexivity|]. split; [discriminate|].
      intros _. apply strip_strip.
  - rewrite andb_false_r. eexists. split; [reflexivity|].
    split; [reflexivity | discriminate].
Qed.

Lemma contains_after (sub pre s : string) :
  PyStr.contains sub s = true -> PyStr.contains sub (pre ++ s) = true.
Proof using Type.
  intros H. induction pre as [|c r IH]; [exact H|].
  cbn [append PyStr.contains]. rewrite IH. apply orb_true_r.
Qed.

Lemma startswith_append (sub rest : string) :
  PyStr.startswith (sub ++ rest) sub = true.
Proof using Type.
  induction sub as [|c r IH]; [reflexivity|].
  cbn [append PyStr.startswith]. now rewrite Ascii.eqb_refl, IH.
Qed.

Lemma contains_infix (sub pre rest : string) :
  PyStr.contains sub (pre ++ sub ++ rest) = true.
Proof using Type.
  apply contains_after.
  destruct (sub ++ rest) eqn:E; cbn [PyStr.contains];
    rewrite <- E, startswith_append; reflexivity.
Qed.

(** The piece before the first separator, when what precedes it holds no
    character the separator begins with. *)
Lemma split_from_first_piece (a : ascii) (sep' u rest : string) :
  PyStr.without a u = true ->
  forall cur,
    PyStr.split_from (String a sep') 0 cur (u ++ String a sep' ++ rest)
    = (PyStr.revstr "" cur ++ u)
      :: PyStr.split_from (String a sep') (String.length sep') ""
           (sep' ++ rest).
Proof using Type.
  intros Hu cur. rewrite (split_from_passes a sep' u Hu).
  cbn [append PyStr.split_from].
  change (String a (sep' ++ rest)) with (String a sep' ++ rest).
  rewrite startswith_append, revstr_revstr.
  cbn [String.length Nat.sub]. now rewrite Nat.sub_0_r.
Qed.

Lemma split_from_skips (sep : string) (u : string) :
  forall rest,
    PyStr.split_from sep (String.length u) "" (u ++ rest)
    = PyStr.split_from sep 0 "" rest.
Proof using Type.
  induction u as [|c r IH]; intros rest; [reflexivity|].
  cbn [append String.length]. destruct rest as [|c' r'].
  - rewrite append_nil_r. cbn [PyStr.split_from]. specialize (IH "").
    now rewrite append_nil_r in IH.
  - cbn [PyStr.split_from]. apply IH.
Qed.

End FenceFacts.


Section ReferenceFacts.
Import DocumentProcessing GeminiIntegration.
Variable pdfplumber_open : bytes -> Result (list PdfPage).
Variable docx_paragraphs : bytes -> Result (list string).
Variable image_to_string : bytes -> Result string.
Variable decode_utf8 : bytes -> Result string.

Local Abbreviation extract :=
  (extract_text pdfplumber_open docx_paragraphs image_to_string decode_utf8).

Lemma reference_line_appends (acc : string) (entry : nat * PageRecord) :
  reference_line acc entry = acc ++ reference_line "" entry.
Proof using Type.
  destruct entry as [page_num info]. unfold reference_line.
  destruct (pr_headers info); reflexivity.
Qed.

Lemma fold_reference_lines (page_info : list (nat * PageRecord)) :
  forall acc,
    fold_left reference_line page_info acc
    = acc ++ fold_right (fun entry rest => reference_line "" entry ++ rest)
               "" page_info.
Proof using Type.
  induction page_info as [|entry r IH]; intros acc; cbn [fold_left fold_right].
  - now rewrite append_nil_r.
  - rewrite IH, reference_line_appends, append_assoc. reflexivity.
Qed.

Lemma reference_lines_of_pages (pages : list PdfPage) :
  forall i,
    fold_right (fun entry rest => reference_line "" entry ++ rest) ""
      (combine (seq i (List.length pages))
         (map (fun p => mkPageRecord (text_of_page p)
                          (find_headers (text_of_page p))) pages))
    = fold_right
        (fun ip rest =>
           "Page " ++ PyStr.of_nat (fst ip)
           ++ match find_headers (text_of_page (snd ip)) with
              | [] => ""
              | h :: hs => ": " ++ PyStr.join ", " (h :: hs)
              end
           ++ PyStr.nl ++ rest)
        "" (combine (seq i (List.length pages)) pages).
Proof using Type.
  induction pages as [|p r IH]; intros i; [reflexivity|].
  cbn [List.length seq map combine fold_right fst snd]. rewrite IH.
  unfold reference_line at 1. cbn [pr_headers].
  destruct (find_headers (text_of_page p)) as [|h hs];
    rewrite !append_assoc; reflexivity.
Qed.

(** X11. The page references put into the prompts, for a document that
    [extract_text] has returned: none unless the document is a PDF; for
    a PDF of n pages, a heading followed by one line for each page, in
    the order 1..n, that gives the number of the page and, when the page
    has headers, the headers separated by commas. *)
Theorem reference_info_lists_pages (f : UploadedFile) (w : World) :
  build_reference_info None = ""
  /\ (forall text info w',
        extract f w = (Ok (text, info), w') ->
        uf_type f <> "application/pdf" ->
        build_reference_info (Some info) = "")
  /\ (forall pages,
        uf_type f = "application/pdf" ->
        pdfplumber_open (uf_value f) = Ok pages ->
        exists text info,
          extract f w = (Ok (text, info), w)
          /\ build_reference_info (Some info)
             = "Page and section information:" ++ PyStr.nl
               ++ fold_right
                    (fun ip rest =>
                       "Page " ++ PyStr.of_nat (fst ip)
                       ++ match find_headers (text_of_page (snd ip)) with
                          | [] => ""
                          | h :: hs => ": " ++ PyStr.join ", " (h :: hs)
                          end
                       ++ PyStr.nl ++ rest)
                    "" (combine (seq 1 (List.length pages)) pages)).
Proof using Type.
  split; [reflexivity|]. split.
  - intros text info w' Hrun Hnot.
    destruct (extract_text_cases pdfplumber_open docx_paragraphs image_to_string
                decode_utf8 f w)
      as [(text0 & info0 & Hrun0 & _ & _ & _ & _ & Hinfo)|(e & Hrun0 & _)];
      rewrite Hrun0 in Hrun; [|discriminate].
    injection Hrun as _ <- _. rewrite (Hinfo Hnot).
    unfold build_reference_info. cbn [di_type].
    apply String.eqb_neq in Hnot. now rewrite Hnot.
  - intros pages Htype Hopen.
    unfold extract_text, try_except. rewrite Htype.
    cbn [String.eqb Ascii.eqb Bool.eqb].
    unfold extract_text_from_pdf, bind, lift, ret. rewrite Hopen.
    rewrite (pdf_pages_loop_spec pages 1 "" []) by (intros k []).
    eexists _, _. split; [reflexivity|].
    unfold build_reference_info.
    cbn [di_type di_page_info String.eqb Ascii.eqb Bool.eqb app].
    rewrite fold_reference_lines, reference_lines_of_pages. reflexivity.
Qed.
End ReferenceFacts.

(** X11 on a PDF of two pages, the first with two headers. *)
Lemma reference_info_lists_pages_witness :
  exists text info,
    DocumentProcessing.extract_text Stub.two_page_pdf Stub.no_paragraphs
      Stub.blank_image Stub.ascii_text
      (DocumentProcessing.mkUploadedFile "application/pdf" "policy.pdf" [])
      empty_world
    = (Ok (text, info), empty_world)
    /\ GeminiIntegration.build_reference_info (Some info)
       = "Page and section information:" ++ PyStr.nl
         ++ "Page 1: POLICY DECLARATIONS, Named insured: A. Driver" ++ PyStr.nl
         ++ "Page 2" ++ PyStr.nl.
Proof.
  destruct (reference_info_lists_pages Stub.two_page_pdf Stub.no_paragraphs
              Stub.blank_image Stub.ascii_text
              (DocumentProcessing.mkUploadedFile "application/pdf" "policy.pdf" [])
              empty_world) as (_ & _ & Hpdf).
  destruct (Hpdf [DocumentProcessing.mkPage
                    (Some ("POLICY DECLARATIONS" ++ PyStr.nl
                           ++ "Named insured: A. Driver"));
                  DocumentProcessing.mkPage None])
    as (text & info & Hrun & Hinfo); [reflexivity | reflexivity |].
  exists text, info. split; [exact Hrun|]. rewrite Hinfo. reflexivity.
Defined.

(** ** readability.py, app.py and pdf_export.py: the bands of a score *)

Section BandFacts.
Import Readability.

Lemma py_ge_fin (x y : Q) : py_ge (Fin x) (Fin y) = true <-> (y <= x)%Q.
Proof using Type. apply Qle_bool_iff. Qed.

Lemma py_ge_fin_false (x y : Q) : py_ge (Fin x) (Fin y) = false <-> (x < y)%Q.
Proof using Type.
  cbn [py_ge]. rewrite <- not_true_iff_false, Qle_bool_iff.
  split; [apply Qnot_le_lt | apply Qlt_not_le].
Qed.

Ltac band_case :=
  cbn; repeat split; intros; first [discriminate | reflexivity | lra | exfalso; lra].

Lemma description_colour (q : Q) :
  (70 <= q)%Q -> snd (get_readability_description (Fin q)) = "green".
Proof using Type.
  intros H. unfold get_readability_description.
  destruct (py_ge (Fin q) (Fin 90)); [reflexivity|].
  destruct (py_ge (Fin q) (Fin 80)); [reflexivity|].
  destruct (py_ge (Fin q) (Fin 70)) eqn:E; [reflexivity|].
  apply py_ge_fin_false in E. lra.
Qed.

(** X12. The colour that [get_readability_description] gives to a finite
    score: green from 70 on, yellow from 50 up to 70, red below 50.  The
    easiest of the seven answers is given exactly from 90 on, the hardest
    exactly below 30. *)
Theorem description_colour_thresholds (q : Q) :
  let colour := snd (get_readability_description (Fin q)) in
  (colour = "green" <-> (70 <= q)%Q)
  /\ (colour = "yellow" <-> (50 <= q)%Q /\ (q < 70)%Q)
  /\ (colour = "red" <-> (q < 50)%Q)
  /\ (get_readability_description (Fin q)
      = ("Very Easy", "5th Grade", "green") <-> (90 <= q)%Q)
  /\ (get_readability_description (Fin q)
      = ("Very Difficult", "College Graduate", "red") <-> (q < 30)%Q).
Proof using Type.
  unfold get_readability_description.
  destruct (py_ge (Fin q) (Fin 90)) eqn:E90;
    [apply py_ge_fin in E90; band_case | apply py_ge_fin_false in E90].
  destruct (py_ge (Fin q) (Fin 80)) eqn:E80;
    [apply py_ge_fin in E80; band_case | apply py_ge_fin_false in E80].
  destruct (py_ge (Fin q) (Fin 70)) eqn:E70;
    [apply py_ge_fin in E70; band_case | apply py_ge_fin_false in E70].
  destruct (py_ge (Fin q) (Fin 60)) eqn:E60;
    [apply py_ge_fin in E60; band_case | apply py_ge_fin_false in E60].
  destruct (py_ge (Fin q) (Fin 50)) eqn:E50;
    [apply py_ge_fin in E50; band_case | apply py_ge_fin_false in E50].
  destruct (py_ge (Fin q) (Fin 30)) eqn:E30;
    [apply py_ge_fin in E30; band_case | apply py_ge_fin_false in E30].
  band_case.
Qed.

(** X13. The wording shown on screen with a score and the wording
    printed in the report fall in the same band for every finite score:
    the hardest band up to 50, the middle one above 50 and up to 70, the
    easiest above 70.  The colour on screen is red, orange and green
    respectively, and wherever it is green the colour of
    [get_readability_description] is green too. *)
Theorem screen_and_report_bands_agree (q : Q) :
  (App.score_band (Fin q) = ("red", "Very Hard to Read")
   /\ PdfExport.difficulty_of q = "Very Difficult" /\ (q <= 50)%Q)
  \/ (App.score_band (Fin q) = ("orange", "Moderate")
      /\ PdfExport.difficulty_of q = "Moderate" /\ (50 < q)%Q /\ (q <= 70)%Q)
  \/ (App.score_band (Fin q) = ("green", "Clear")
      /\ PdfExport.difficulty_of q = "Clear" /\ (70 < q)%Q
      /\ snd (get_readability_description (Fin q)) = "green").
Proof using Type.
  unfold App.score_band, PdfExport.difficulty_of, py_le.
  change (py_ge (Fin 50) (Fin q)) with (Qle_bool q 50).
  change (py_ge (Fin 70) (Fin q)) with (Qle_bool q 70).
  destruct (Qle_bool q 50) eqn:E50.
  { left. apply Qle_bool_iff in E50. now repeat split. }
  destruct (Qle_bool q 70) eqn:E70.
  { right. left. apply Qle_bool_iff in E70.
    repeat split; try assumption.
    apply Qnot_le_lt. intros H. apply Qle_bool_iff in H. congruence. }
  right. right.
  assert (H70 : (70 < q)%Q).
  { apply Qnot_le_lt. intros H. apply Qle_bool_iff in H. congruence. }
  repeat split; try assumption.
  apply (description_colour q). lra.
Qed.
End BandFacts.

(** ** pdf_export.py: what the report holds *)

Section ReportFacts.
Import PdfExport.
Variable generated_on : string.
Variable encode_error_message : list FpdfCall -> string.
Variable serialise : list FpdfCall -> text.

(** The clean-up of line 72 changes no text without the code point
    U+20AC; no text within Latin-1 holds it. *)
Lemma bullet_pattern_absent (s : text) :
  ~ In 8364%N s -> PyStr.codes_startswith s [226; 8364; 162]%N = false.
Proof using Type.
  intros Hs. destruct s as [|c [|b s']]; cbn [PyStr.codes_startswith];
    rewrite ?andb_false_r; try reflexivity.
  apply andb_false_iff. right. apply andb_false_iff. left. apply N.eqb_neq.
  intros ->. apply Hs. right. now left.
Qed.

Lemma clean_item_unchanged (item : text) :
  ~ In 8364%N item -> clean_item item = item.
Proof using Type.
  unfold clean_item, PyStr.codes_replace.
  induction item as [|c r IH]; [reflexivity|]. intros Hs.
  cbn [PyStr.codes_replace_from]. rewrite (bullet_pattern_absent _ Hs), IH;
    [reflexivity|].
  intros Hin. apply Hs. now right.
Qed.

Lemma latin1_without_euro (item : text) :
  latin1 item = true -> ~ In 8364%N item.
Proof using Type.
  unfold latin1. intros H Hin.
  apply (proj1 (forallb_forall _ _) H) in Hin. discriminate.
Qed.

Lemma bullets_of_section (title : string) (items : list text) :
  filter is_bullet (render_section (title, items)) = map render_item items.
Proof using Type.
  unfold render_section. destruct items as [|i r]; [reflexivity|].
  cbn [app filter is_bullet]. rewrite filter_app. cbn [filter is_bullet].
  rewrite app_nil_r.
  generalize (i :: r). intros l.
  induction l as [|x l IH]; [reflexivity|].
  cbn [map filter render_item is_bullet]. now rewrite IH.
Qed.

Lemma bullets_of_sections (sections : list (string * list text)) :
  filter is_bullet (flat_map render_section sections)
  = map render_item (flat_map snd sections).
Proof using Type.
  induction sections as [|[title items] r IH]; [reflexivity|].
  cbn [flat_map snd]. now rewrite filter_app, map_app, bullets_of_section, IH.
Qed.


(** X15. The report depends on the six sections, the score and the
    clock only: two summaries with the same statements under each of
    the six keys give the same calls and the same outcome of
    [generate_pdf], whatever their other keys, the order of their keys
    and the original text. *)
Theorem report_reads_six_sections_only (d1 d2 : Summary)
    (text1 text2 : text) (readability_score : Q) :
  (forall key, In key (map snd section_keys) ->
               get_items d1 key = get_items d2 key) ->
  report generated_on (Some d1) readability_score
  = report generated_on (Some d2) readability_score
  /\ generate_pdf generated_on encode_error_message serialise (Some d1) text1
       readability_score
     = generate_pdf generated_on encode_error_message serialise (Some d2) text2
         readability_score.
Proof using Type.
  intros Hsame.
  assert (Hreport : report generated_on (Some d1) readability_score
                    = report generated_on (Some d2) readability_score).
  { unfold report. rewrite !report_body_of_dict.
    do 2 f_equal. unfold sections_of.
    revert Hsame. generalize section_keys. intros keys Hsame.
    f_equal. apply map_ext_in. intros [title key] Hin. cbn [fst snd].
    f_equal. apply Hsame. apply in_map_iff. now exists (title, key). }
  split; [exact Hreport|]. unfold generate_pdf. now rewrite Hreport.
Qed.
End ReportFacts.

(** X15 on a summary and the same summary with its keys in another order
    and a key of its own. *)
Lemma report_reads_six_sections_only_witness :
  PdfExport.generate_pdf "2024-05-01 10:30" Stub.ordinal_not_in_range
    Stub.texts_in_a_row (Some Stub.coverage_only)
    (PyStr.codes "Collision is covered.") (125 # 2)
  = PdfExport.generate_pdf "2024-05-01 10:30" Stub.ordinal_not_in_range
      Stub.texts_in_a_row
      (Some [(PyStr.codes "notes", [PyStr.codes "Not part of the report."]);
             (PyStr.codes "exclusions", []);
             (PyStr.codes "coverage_details",
              [PyStr.codes "Liability coverage up to $50,000."])])
      [] (125 # 2).
Proof.
  apply (report_reads_six_sections_only "2024-05-01 10:30"
           Stub.ordinal_not_in_range Stub.texts_in_a_row Stub.coverage_only
           [(PyStr.codes "notes", [PyStr.codes "Not part of the report."]);
            (PyStr.codes "exclusions", []);
            (PyStr.codes "coverage_details",
             [PyStr.codes "Liability coverage up to $50,000."])]
           (PyStr.codes "Collision is covered.") [] (125 # 2)).
  intros key Hin. cbn in Hin.
  repeat (destruct Hin as [<-|Hin]; [reflexivity|]). contradiction.
Defined.

(** ** app.py: messages and conversation history *)

Section SessionFacts.
Import DocumentProcessing Readability GeminiIntegration App.
Variable pdfplumber_open : bytes -> Result (list PdfPage).
Variable docx_paragraphs : bytes -> Result (list string).
Variable image_to_string : bytes -> Result string.
Variable decode_utf8 : bytes -> Result string.
Variable flesch_reading_ease : string -> Result pynum.
Variable API_KEY : option string.
Variable gemini : list string -> string -> Result string.
Variable json_loads : string -> Result pyval.

Local Abbreviation extract :=
  (extract_text pdfplumber_open docx_paragraphs image_to_string decode_utf8).
Local Abbreviation upload :=
  (process_upload pdfplumber_open docx_paragraphs image_to_string decode_utf8
     flesch_reading_ease API_KEY gemini json_loads).
(** X16. What the user is told about an upload.  When the extraction
    raises, two errors are shown for the one failure, the second
    repeating the message of the first; the model is not called and the
    session keeps everything but its history.  When the extraction
    returns, processing goes to its end and the last message shown is
    the one of success, even if the summary is a degraded one. *)
Theorem upload_messages (f : UploadedFile) (s : Session) (w : World) :
  match extract f w with
  | (Raise e, _) =>
      upload f s w
      = (Ok (set_qa_history [] s),
         shown StError ("Error processing document: " ++ exn_msg e)
           (shown StError ("Error extracting text: " ++ exn_msg e) w))
  | (Ok (text, info), _) =>
      exists s' w3,
        upload f s w
        = (Ok s', shown StSuccess "Document processed successfully!" w3)
        /\ extracted_text s' = text
        /\ document_info s' = Some info
  end.
Proof using Type.
  unfold process_upload, attempt.
  destruct (extract_text_cases pdfplumber_open docx_paragraphs image_to_string
              decode_utf8 f w)
    as [(text & info & -> & _)|(e & -> & _)].
  - destruct (calculate_readability_score_returns flesch_reading_ease text w)
      as (score & w2 & ->).
    cbn [readability_preference set_readability_score set_extracted set_qa_history].
    destruct (generate_summary_returns API_KEY gemini json_loads text (Some info)
                (readability_preference s) w2) as (v & w3 & ->).
    eexists _, w3. repeat split.
  - reflexivity.
Qed.

Lemma previous_shown_after_question (history : list (string * string))
    (entry : string * string) :
  (entry :: previous_shown true (history ++ [entry]) = rev (history ++ [entry]))%list.
Proof using Type.
  unfold previous_shown. rewrite length_app, removelast_last, rev_unit.
  cbn [List.length]. destruct history as [|x l]; [reflexivity|].
  cbn [List.length]. replace (1 <? S (List.length l) + 1) with true; [reflexivity|].
  symmetry. apply Nat.ltb_lt. lia.
Qed.

Lemma previous_shown_without_question (history : list (string * string)) :
  previous_shown false history = rev history.
Proof using Type. destruct history; reflexivity. Qed.

(** What [ask] leaves in the history. *)
Lemma history_asked (question : string) (s : Session) (w : World) :
  exists s' w',
    ask API_KEY gemini question s w = (Ok s', w')
    /\ extracted_text s' = extracted_text s
    /\ if truthy_str question && truthy_str (extracted_text s)
       then exists a, qa_history s' = (qa_history s ++ [(question, a)])%list
       else s' = s.
Proof using Type.
  unfold ask.
  destruct (truthy_str question && truthy_str (extracted_text s)).
  - unfold bind.
    destruct (answer_question_returns API_KEY gemini question (extracted_text s)
                (document_info s) (readability_preference s) w) as (a & w' & Ha).
    rewrite Ha. eexists _, _. split; [reflexivity|]. split; [reflexivity|].
    now exists a.
  - eexists _, _. repeat split.
Qed.

(** X17. A question is put to the model only when it is not empty and a
    text has been extracted; otherwise the session and the world stay
    as they are.  A question that is put adds exactly one entry to the
    end of the history, the question with what [answer_question]
    returned, and changes nothing else in the session.  In both cases
    what the page shows, the current answer followed by the entries
    listed as previous ones, is the whole history, newest first, each
    entry once. *)
Theorem history_shown_newest_first (question : string) (s : Session) (w : World) :
  exists s' w',
    ask API_KEY gemini question s w = (Ok s', w')
    /\ extracted_text s' = extracted_text s
    /\ document_info s' = document_info s
    /\ summary s' = summary s
    /\ readability_score s' = readability_score s
    /\ readability_preference s' = readability_preference s
    /\ if truthy_str question && truthy_str (extracted_text s)
       then exists a,
              answer_question API_KEY gemini question (extracted_text s)
                (document_info s) (readability_preference s) w
              = (Ok a, w')
              /\ qa_history s' = (qa_history s ++ [(question, a)])%list
              /\ ((question, a) :: previous_shown true (qa_history s')
                  = rev (qa_history s'))%list
       else s' = s /\ w' = w
            /\ previous_shown false (qa_history s') = rev (qa_history s').
Proof using Type.
  unfold ask.
  destruct (truthy_str question && truthy_str (extracted_text s)).
  - unfold bind.
    destruct (answer_question_returns API_KEY gemini question (extracted_text s)
                (document_info s) (readability_preference s) w) as (a & w' & Ha).
    rewrite Ha. eexists _, _. split; [reflexivity|].
    cbn [extracted_text document_info summary readability_score
         readability_preference qa_history set_qa_history].
    repeat (split; [reflexivity|]).
    exists a. split; [reflexivity|]. split; [reflexivity|].
    apply previous_shown_after_question.
  - eexists _, _. split; [reflexivity|].
    repeat (split; [reflexivity|]).
    apply previous_shown_without_question.
Qed.

(** X18. While a file sits in the uploader, the upload handler runs
    again on every run of the script and leaves an empty history.  The
    code between the handler and the question section reads the session
    only; so, in whatever world the question section is then reached, the
    history after it is empty or holds the question of this run and
    nothing else, and no entry is listed as a previous one. *)
Theorem history_with_file_in_uploader (f : UploadedFile) (question : string)
    (s : Session) (w : World) :
  exists s1 w1,
    upload f s w = (Ok s1, w1)
    /\ qa_history s1 = []
    /\ forall w2,
         exists s' w',
           ask API_KEY gemini question s1 w2 = (Ok s', w')
           /\ (qa_history s' = [] \/ exists a, qa_history s' = [(question, a)])
           /\ previous_shown
                (truthy_str question && truthy_str (extracted_text s'))
                (qa_history s')
              = [].
Proof using Type.
  destruct (process_upload_outcome pdfplumber_open docx_paragraphs image_to_string
              decode_utf8 flesch_reading_ease API_KEY gemini json_loads f s w)
    as (s1 & w1 & Hrun & Hout).
  assert (Hempty : qa_history s1 = []).
  { destruct (extract f w) as [[[text info]|e] w0].
    - destruct Hout as (score & w2 & v & w3 & _ & _ & ->). reflexivity.
    - subst s1. reflexivity. }
  exists s1, w1. split; [exact Hrun|]. split; [exact Hempty|].
  intros w2.
  destruct (history_asked question s1 w2) as (s' & w' & Hask & Ht & Hcase).
  exists s', w'. split; [exact Hask|]. rewrite Ht.
  destruct (truthy_str question && truthy_str (extracted_text s1)).
  - destruct Hcase as (a & Hh). rewrite Hh, Hempty. split; [|reflexivity].
    right. now exists a.
  - subst s'. rewrite Hempty. split; [now left | reflexivity].
Qed.

Lemma extract_text_calls (f : UploadedFile) (w : World) :
  model_calls (snd (extract f w)) = model_calls w.
Proof using Type.
  destruct (extract_text_cases pdfplumber_open docx_paragraphs image_to_string
              decode_utf8 f w)
    as [(text & info & -> & _)|(e & -> & _)]; reflexivity.
Qed.

Lemma calculate_readability_score_calls (text : string) (w : World) :
  exists x w',
    calculate_readability_score flesch_reading_ease text w = (Ok x, w')
    /\ model_calls w' = model_calls w.
Proof using Type.
  unfold calculate_readability_score.
  destruct (PyStr.is_empty text || (String.length (PyStr.strip text) =? 0)).
  - now eexists _, _.
  - unfold try_except, bind, lift, ret, print, any_exception.
    destruct (flesch_reading_ease text); now eexists _, _.
Qed.

Lemma at_most_two (prompts : list string) (a b : string) :
  prompts = [] \/ prompts = [a] \/ prompts = [a; b] ->
  List.length prompts <= 2.
Proof using Type. intros [->|[->| ->]]; simpl; lia. Qed.

Lemma process_upload_calls (f : UploadedFile) (s : Session) (w : World) :
  exists s' w' prompts,
    upload f s w = (Ok s', w')
    /\ model_calls w' = (model_calls w ++ prompts)%list
    /\ List.length prompts <= 2
    /\ (forall e w1, extract f w = (Raise e, w1) -> prompts = []).
Proof using Type.
  unfold process_upload, attempt.
  pose proof (extract_text_calls f w) as Hextract.
  destruct (extract f w) as [[[text info]|e] w1]; cbn [snd] in Hextract.
  - destruct (calculate_readability_score_calls text w1) as (score & w2 & -> & Hscore).
    cbn [readability_preference set_readability_score set_extracted set_qa_history].
    destruct (generate_summary_effects API_KEY gemini json_loads text (Some info)
                (readability_preference s) w2)
      as (v & w3 & -> & _ & _ & prompts & Hcalls & Hprompts).
    eexists _, _, prompts. split; [reflexivity|].
    cbn [shown model_calls]. rewrite Hcalls, Hscore, Hextract.
    split; [reflexivity|].
    split; [exact (at_most_two _ _ _ Hprompts) | discriminate].
  - eexists _, _, []. split; [reflexivity|].
    cbn [shown model_calls]. rewrite Hextract, app_nil_r.
    split; [reflexivity|]. split; [simpl; lia | reflexivity].
Qed.

Lemma ask_calls (question : string) (s : Session) (w : World) :
  exists s' w' prompts,
    ask API_KEY gemini question s w = (Ok s', w')
    /\ model_calls w' = (model_calls w ++ prompts)%list
    /\ List.length prompts <= 2
    /\ (question = "" -> w' = w).
Proof using Type.
  unfold ask. destruct question as [|c r].
  - eexists _, _, []. cbn [truthy_str PyStr.is_empty negb andb]. unfold ret.
    rewrite app_nil_r. repeat split. simpl; lia.
  - destruct (truthy_str (String c r) && truthy_str (extracted_text s)).
    + unfold bind.
      destruct (answer_question_effects API_KEY gemini (String c r)
                  (extracted_text s) (document_info s) (readability_preference s) w)
        as (a & w' & -> & _ & _ & prompts & Hcalls & Hprompts).
      eexists _, _, prompts. split; [reflexivity|]. split; [exact Hcalls|].
      split; [exact (at_most_two _ _ _ Hprompts) | discriminate].
    + eexists _, _, []. unfold ret. rewrite app_nil_r.
      repeat split. simpl; lia.
Qed.

(** X19. The two places of the script that reach the model.  The upload
    handler always returns and sends at most two requests, after those
    sent before, and none when the extraction raises; the question
    section always returns and sends at most two, and when the question
    is empty or no text has been extracted it leaves the session as it
    was, sends no request, shows no message and prints nothing. *)
Theorem upload_and_question_send_two_requests_at_most :
  (forall (f : UploadedFile) (s : Session) (w : World),
      exists s' w' prompts,
        upload f s w = (Ok s', w')
        /\ model_calls w' = (model_calls w ++ prompts)%list
        /\ List.length prompts <= 2
        /\ (forall e w1, extract f w = (Raise e, w1) -> prompts = []))
  /\ (forall (question : string) (s : Session) (w : World),
        exists s' w' prompts,
          ask API_KEY gemini question s w = (Ok s', w')
          /\ model_calls w' = (model_calls w ++ prompts)%list
          /\ List.length prompts <= 2
          /\ (question = "" \/ extracted_text s = "" -> s' = s /\ w' = w)).
Proof using Type.
  split.
  - intros f s w.
    destruct (process_upload_calls f s w)
      as (s' & w' & prompts & Hrun & Hcalls & Hl & Hnone).
    exists s', w', prompts. repeat (split; [assumption|]). exact Hnone.
  - intros question s w.
    destruct (ask_calls question s w) as (s' & w' & prompts & Hrun & Hcalls & Hl & _).
    exists s', w', prompts. repeat (split; [assumption|]).
    intros Hnone. unfold ask in Hrun.
    replace (truthy_str question && truthy_str (extracted_text s)) with false in Hrun.
    + unfold ret in Hrun. injection Hrun as <- <-. now split.
    + destruct Hnone as [->| ->]; [reflexivity|].
      now rewrite andb_false_r.
Qed.
End SessionFacts.

(** X18 on a text file in the uploader and a question. *)
Lemma history_with_file_in_uploader_witness :
  exists s1 w1 s' w',
    App.process_upload Stub.two_page_pdf Stub.no_paragraphs Stub.blank_image
      Stub.ascii_text (Stub.constant_score (125 # 2)) (Some "key")
      (Stub.scripted_model Stub.session_replies) PyJson.loads
      (DocumentProcessing.mkUploadedFile "text/plain" "policy.txt" Stub.policy_bytes)
      App.initial_session empty_world
    = (Ok s1, w1)
    /\ App.ask (Some "key") (Stub.scripted_model Stub.session_replies)
         "Is collision covered?" s1 w1
       = (Ok s', w')
    /\ (App.qa_history s' = []
        \/ exists a, App.qa_history s' = [("Is collision covered?", a)])
    /\ App.previous_shown
         (truthy_str "Is collision covered?" && truthy_str (App.extracted_text s'))
         (App.qa_history s')
       = [].
Proof.
  destruct (history_with_file_in_uploader Stub.two_page_pdf Stub.no_paragraphs
              Stub.blank_image Stub.ascii_text (Stub.constant_score (125 # 2))
              (Some "key") (Stub.scripted_model Stub.session_replies) PyJson.loads
              (DocumentProcessing.mkUploadedFile "text/plain" "policy.txt"
                 Stub.policy_bytes)
              "Is collision covered?" App.initial_session empty_world)
    as (s1 & w1 & Hrun & _ & Hask).
  destruct (Hask w1) as (s' & w' & Hq & Hhistory & Hshown).
  exists s1, w1, s', w'. repeat split; assumption.
Defined.

(** ** gemini_integration.py: the document type named in a refusal *)

Section VerdictFacts.
Import DocumentProcessing GeminiIntegration.
Variable API_KEY : option string.
Variable gemini : list string -> string -> Result string.
Variable json_loads : string -> Result pyval.

Lemma code_eqb (a b : ascii) :
  (PyStr.code b =? PyStr.code a)%N = Ascii.eqb a b.
Proof using Type.
  unfold PyStr.code. destruct (Ascii.eqb_spec a b) as [->|Hne].
  - apply N.eqb_refl.
  - apply N.eqb_neq. intros H. apply Hne.
    rewrite <- (ascii_N_embedding a), <- (ascii_N_embedding b). now rewrite H.
Qed.

Lemma startswith_codes_spec (p : string) :
  forall s, PyStr.startswith_codes s (PyStr.codes p) = PyStr.startswith s p.
Proof using Type.
  unfold PyStr.codes.
  induction p as [|a p' IH]; intros s; [reflexivity|].
  cbn [list_ascii_of_string map PyStr.startswith_codes PyStr.startswith].
  destruct s as [|b s']; [reflexivity|]. now rewrite code_eqb, IH.
Qed.

(** [replace] returns a string in which the pattern does not occur as it
    is. *)
Lemma replace_without_occurrence (old new : string) (s : string) :
  PyStr.contains old s = false -> PyStr.replace old new s = s.
Proof using Type.
  unfold PyStr.replace, PyStr.replace_codes.
  induction s as [|c r IH]; [reflexivity|].
  cbn [PyStr.contains PyStr.replace_from]. intros H.
  apply orb_false_iff in H as [Hhere Hlater].
  now rewrite startswith_codes_spec, Hhere, IH.
Qed.

Lemma document_type_after_no (rest : string) :
  PyStr.contains "no:" rest = false ->
  document_type_of ("no:" ++ rest) = PyStr.strip rest.
Proof using Type.
  intros H. unfold document_type_of.
  replace (PyStr.contains ":" ("no:" ++ rest)) with true by reflexivity.
  f_equal.
  change (PyStr.replace "no:" "" ("no:" ++ rest))
    with (PyStr.replace "no:" "" rest).
  now apply replace_without_occurrence.
Qed.

End VerdictFacts.

